(** * The market-making strategy and its depth chart

    A shallow embedding of [src/strategy/market_making.ts] (class
    [MarketMaker]), [src/actiontypes.ts] and the depth-chart printer
    (classes [OrderBookPrinter] and [OrderBookChart]), followed by the
    properties of the decision engine and of the chart that the written
    specification states, and by further properties of the same code:
    the weighted mid-market price, the funds, the bot's own orders, and the
    construction, the curves and the shape of the chart.

    Conventions of the embedding.
    - A [BigNumber] is an exact rational, [NaN] or a signed infinity.  Sums,
      differences and products are exact; a quotient is rounded to
      [DECIMAL_PLACES] = 20 decimals, half away from zero (the library's
      defaults, which the program never changes).  The sign of a zero and the
      exponent limit of the library are not represented.
    - A decimal string produced by [toFixed] is identified with the number it
      denotes, so the [amount] and [price] of an action are numbers.
    - A JavaScript [number] is represented exactly within the range of a
      double: [toNumber] gives 0 for a magnitude too small for a double and
      an infinity for one too large, and otherwise loses nothing.  The binary
      rounding of the significand of a double is not represented.
    - Every remote query ([saturn.query], the provider, the token contract) is
      answered from one immutable [Env]: a decision cycle sees one snapshot,
      and each query hands out fresh objects, so the sort in place and the
      rewritten balance of the chart stay inside the chart.
    - [console.log] output is not represented, except for the chart, whose
      construction and plotting can raise. *)

From Stdlib Require Import QArith Qround Qabs Qpower ZArith Permutation Sorted String Ascii Bool Lia Lqa List.
Import ListNotations.

Local Open Scope Q_scope.

(** ** bignumber.js *)

Module BigNumber.

Inductive t : Type :=
| Fin (q : Q)
| Infinity (negative : bool)
| NaN.

Definition DECIMAL_PLACES : nat := 20.

Definition zero : t := Fin 0.

(** ROUND_HALF_UP: to the nearest integer, a tie away from zero. *)
Definition round_half_up (q : Q) : Z :=
  if Qle_bool 0 q then Qfloor (q + (1 # 2)) else (- Qfloor (- q + (1 # 2)))%Z.

Definition pow10 (dp : nat) : Z := (10 ^ Z.of_nat dp)%Z.

Definition round_dp (dp : nat) (q : Q) : Q :=
  inject_Z (round_half_up (q * inject_Z (pow10 dp))) / inject_Z (pow10 dp).

Definition is_zero (q : Q) : bool := Qeq_bool q 0.
Definition is_neg (q : Q) : bool := negb (Qle_bool 0 q).

Definition plus (x y : t) : t :=
  match x, y with
  | NaN, _ | _, NaN => NaN
  | Fin a, Fin b => Fin (a + b)
  | Infinity n, Fin _ => Infinity n
  | Fin _, Infinity m => Infinity m
  | Infinity n, Infinity m => if Bool.eqb n m then Infinity n else NaN
  end.

Definition minus (x y : t) : t :=
  match x, y with
  | NaN, _ | _, NaN => NaN
  | Fin a, Fin b => Fin (a - b)
  | Infinity n, Fin _ => Infinity n
  | Fin _, Infinity m => Infinity (negb m)
  | Infinity n, Infinity m => if Bool.eqb n m then NaN else Infinity n
  end.

Definition times (x y : t) : t :=
  match x, y with
  | NaN, _ | _, NaN => NaN
  | Fin a, Fin b => Fin (a * b)
  | Infinity n, Fin b => if is_zero b then NaN else Infinity (xorb n (is_neg b))
  | Fin a, Infinity m => if is_zero a then NaN else Infinity (xorb (is_neg a) m)
  | Infinity n, Infinity m => Infinity (xorb n m)
  end.

Definition dividedBy (x y : t) : t :=
  match x, y with
  | NaN, _ | _, NaN => NaN
  | Fin a, Fin b =>
      if is_zero b
      then (if is_zero a then NaN else Infinity (is_neg a))
      else Fin (round_dp DECIMAL_PLACES (a / b))
  | Fin _, Infinity _ => Fin 0
  | Infinity n, Fin b => Infinity (xorb n (is_neg b))
  | Infinity _, Infinity _ => NaN
  end.

(** [compare] is [None] where the library answers [null]: an operand is NaN. *)
Definition compare (x y : t) : option comparison :=
  match x, y with
  | NaN, _ | _, NaN => None
  | Fin a, Fin b => Some (a ?= b)
  | Infinity n, Infinity m =>
      Some (if Bool.eqb n m then Eq else if n then Lt else Gt)
  | Infinity n, Fin _ => Some (if n then Lt else Gt)
  | Fin _, Infinity m => Some (if m then Gt else Lt)
  end.

Definition lt (x y : t) : bool :=
  match compare x y with Some Lt => true | _ => false end.
Definition gt (x y : t) : bool :=
  match compare x y with Some Gt => true | _ => false end.
Definition lte (x y : t) : bool :=
  match compare x y with Some Lt | Some Eq => true | _ => false end.
Definition gte (x y : t) : bool :=
  match compare x y with Some Gt | Some Eq => true | _ => false end.
Definition isEqualTo (x y : t) : bool :=
  match compare x y with Some Eq => true | _ => false end.
Definition isLessThanOrEqualTo := lte.

Definition isNaN (x : t) : bool :=
  match x with NaN => true | _ => false end.

(** [BigNumber.min(...)] and [BigNumber.max(...)]: the first argument is
    the candidate, a NaN argument ends the scan and is the result, and a
    later argument replaces the candidate when it is strictly better. *)
Fixpoint maxOrMin (better : t -> t -> bool) (m : t) (args : list t) : t :=
  match args with
  | [] => m
  | n :: rest =>
      if isNaN n then n
      else maxOrMin better (if better m n then n else m) rest
  end.

Definition min (args : list t) : t :=
  match args with
  | [] => NaN
  | m :: rest => maxOrMin gt m rest
  end.

Definition max (args : list t) : t :=
  match args with
  | [] => NaN
  | m :: rest => maxOrMin lt m rest
  end.

(** [toFixed(dp)] rounds to [dp] decimals; [toFixed()] keeps every digit. *)
Definition toFixed (dp : option nat) (x : t) : t :=
  match dp, x with
  | Some d, Fin q => Fin (round_dp d q)
  | _, _ => x
  end.

(** [toNumber()] gives the nearest double.  A magnitude of at most
    2^-1075, half the smallest double, gives 0, and one of at least
    2^1024 - 2^970, half a step past the largest double, an infinity; in
    between the number is kept as it is. *)
Definition DOUBLE_UNDERFLOW : Q := 1 # 2 ^ 1075.
Definition DOUBLE_OVERFLOW : Q := inject_Z (2 ^ 1024 - 2 ^ 970).

Definition toNumber (x : t) : t :=
  match x with
  | Fin q =>
      if Qle_bool (Qabs q) DOUBLE_UNDERFLOW then Fin 0
      else if Qle_bool DOUBLE_OVERFLOW (Qabs q) then Infinity (is_neg q)
      else Fin q
  | _ => x
  end.

Definition of_Z (z : Z) : t := Fin (inject_Z z).

End BigNumber.

Abbreviation BigNumber := BigNumber.t.

(** ** JavaScript numbers and [Math] *)

Module Js.

(** A [number] is represented exactly, with NaN and the two infinities. *)
Definition number : Type := BigNumber.t.

Definition of_nat (n : nat) : number := BigNumber.Fin (inject_Z (Z.of_nat n)).

Definition add : number -> number -> number := BigNumber.plus.
Definition sub : number -> number -> number := BigNumber.minus.
Definition mul : number -> number -> number := BigNumber.times.

Definition div (x y : number) : number :=
  match x, y with
  | BigNumber.NaN, _ | _, BigNumber.NaN => BigNumber.NaN
  | BigNumber.Fin a, BigNumber.Fin b =>
      if BigNumber.is_zero b
      then (if BigNumber.is_zero a then BigNumber.NaN
            else BigNumber.Infinity (BigNumber.is_neg a))
      else BigNumber.Fin (a / b)
  | BigNumber.Fin _, BigNumber.Infinity _ => BigNumber.Fin 0
  | BigNumber.Infinity n, BigNumber.Fin b =>
      BigNumber.Infinity (xorb n (BigNumber.is_neg b))
  | BigNumber.Infinity _, BigNumber.Infinity _ => BigNumber.NaN
  end.

(** [x == y], [x < y], [x > y] and [x <= y] on numbers: false at NaN. *)
Definition eq : number -> number -> bool := BigNumber.isEqualTo.
Definition lt : number -> number -> bool := BigNumber.lt.
Definition gt : number -> number -> bool := BigNumber.gt.
Definition le : number -> number -> bool := BigNumber.lte.
(** [x != y] is the negation of [x == y]: true at NaN. *)
Definition neq (x y : number) : bool := negb (eq x y).

(** [Math.round]: to the nearest integer, a tie towards plus infinity. *)
Definition Math_round (x : number) : number :=
  match x with
  | BigNumber.Fin q => BigNumber.Fin (inject_Z (Qfloor (q + (1 # 2))))
  | _ => x
  end.

Definition Math_abs (x : number) : number :=
  match x with
  | BigNumber.Fin q => BigNumber.Fin (Qabs q)
  | BigNumber.Infinity _ => BigNumber.Infinity false
  | BigNumber.NaN => BigNumber.NaN
  end.

Definition Math_min (x y : number) : number :=
  if BigNumber.isNaN x || BigNumber.isNaN y then BigNumber.NaN
  else if lt y x then y else x.

Definition Math_max (x y : number) : number :=
  if BigNumber.isNaN x || BigNumber.isNaN y then BigNumber.NaN
  else if gt y x then y else x.

(** The index a number denotes when it is used as an array subscript:
    a non-negative integer, or nothing (the subscript then names no
    element, and reading it yields [undefined]). *)
Definition index (x : number) : option nat :=
  match x with
  | BigNumber.Fin q =>
      if Qeq_bool q (inject_Z (Qfloor q)) && Qle_bool 0 q
      then Some (Z.to_nat (Qfloor q)) else None
  | _ => None
  end.

(** What a JavaScript operation can throw here. *)
Inductive exn : Type :=
| Error (message : string)
| TypeError
| RangeError.

(** A computation that returns a value or throws. *)
Definition M (A : Type) : Type := (exn + A)%type.

Definition ret {A : Type} (a : A) : M A := inr a.
Definition throw {A : Type} (e : exn) : M A := inl e.
Definition bind {A B : Type} (m : M A) (k : A -> M B) : M B :=
  match m with
  | inl e => inl e
  | inr a => k a
  end.

(** [for (x of xs) { state = body(x, state) }] with a body that can throw. *)
Fixpoint forM {A S : Type} (xs : list A) (body : A -> S -> M S) (s : S) : M S :=
  match xs with
  | [] => ret s
  | x :: rest => bind (body x s) (forM rest body)
  end.

(** [_.map(xs, f)] with an [f] that can throw. *)
Fixpoint mapM {A B : Type} (f : A -> M B) (xs : list A) : M (list B) :=
  match xs with
  | [] => ret []
  | x :: rest =>
      bind (f x) (fun y => bind (mapM f rest) (fun ys => ret (y :: ys)))
  end.

(** [new Array(n)]: [n] must be an integer between 0 and 2^32 - 1. *)
Definition new_Array (n : number) : M nat :=
  match index n with
  | Some k => if (Z.of_nat k <=? 4294967295)%Z then ret k else throw RangeError
  | None => throw RangeError
  end.

End Js.

Notation "x <- m ;; k" := (Js.bind m (fun x => k))
  (at level 61, m at next level, right associativity).

(** ** The data the exchange returns *)

(** An order as the exchange reports it.  [balance] and [price] are the
    numbers its decimal strings denote; [buytoken] and [selltoken] are the
    two token addresses. *)
Record Order : Type := {
  contract : string;
  transaction : string;
  balance : BigNumber;
  price : BigNumber;
  buytoken : string;
  selltoken : string
}.

Definition set_balance (o : Order) (b : BigNumber) : Order :=
  {| contract := contract o; transaction := transaction o; balance := b;
     price := price o; buytoken := buytoken o; selltoken := selltoken o |}.

Record OrderBook : Type := {
  buys : list Order;
  sells : list Order
}.

(** ** The depth chart: class [OrderBookChart] *)

Module OrderBookChart.

Import BigNumber.

Inductive colour : Type := plain | green | red.

(** The box-drawing characters of the chart. *)
Inductive glyph : Type :=
| AxisTick        (* the axis marker of a row *)
| AxisStart       (* the marker where the first curve leaves the axis *)
| Flat            (* a horizontal stroke *)
| Vertical        (* a vertical stroke *)
| ArcDownRight    (* lower-left corner *)
| ArcUpRight      (* upper-left corner *)
| ArcRightDown    (* upper-right corner *)
| ArcRightUp      (* lower-right corner *)
| ArrowUp.        (* the truncation indicator *)

(** One slot of a row of the canvas.  [Label v] stands for the text
    [format(v)]; [Hole] is a slot that was never assigned, which [join]
    prints as nothing. *)
Inductive cell : Type :=
| Blank
| Hole
| Label (value : Js.number)
| Mark (c : colour) (g : glyph).

Definition grid : Type := list (list cell).

(** An array of orders; a slot can hold [undefined]. *)
Definition orders : Type := list (option Order).

Record t : Type := {
  buys : orders;
  sells : orders;
  buyDepth : BigNumber;
  sellDepth : BigNumber;
  truncated : bool
}.

Definition notional (o : Order) : BigNumber := times (balance o) (price o).

(** [etherBalance(order)]: reading a field of [undefined] throws. *)
Definition etherBalance (order : option Order) : Js.M BigNumber :=
  match order with
  | Some o => Js.ret (notional o)
  | None => Js.throw Js.TypeError
  end.

(** [xs[i]]: [undefined] outside the array. *)
Definition at_index (xs : orders) (i : nat) : option Order :=
  match nth_error xs i with
  | Some o => o
  | None => None
  end.

(** The comparison function handed to [sort]. *)
Definition byPrice (a b : Order) : Js.number :=
  toNumber (minus (price a) (price b)).

(** [Array.prototype.sort] as a stable insertion sort: an element stays
    behind those the comparison puts strictly before it, and [undefined]
    slots go last without being compared. *)
Fixpoint insert_sorted (x : Order) (l : list Order) : list Order :=
  match l with
  | [] => [x]
  | y :: l' =>
      if Js.lt (byPrice y x) zero then y :: insert_sorted x l'
      else x :: y :: l'
  end.

Definition defined (xs : orders) : list Order :=
  flat_map (fun o => match o with Some x => [x] | None => [] end) xs.

Definition sort (xs : orders) : orders :=
  map Some (fold_right insert_sorted [] (defined xs))
    ++ repeat None (length xs - length (defined xs)).

(** [_.reduce(_.map(xs, etherBalance), (x, y) => x.plus(y), 0)]. *)
Definition depth (xs : orders) : Js.M BigNumber :=
  ys <- Js.mapM etherBalance xs ;;
  Js.ret (fold_left plus ys zero).

(** The loop of [filterSellOrders] from the third order on: the orders it
    pushes, and whether it set [truncated]. *)
Fixpoint filterLoop (upperLimit currentLimit : BigNumber) (rest : list Order)
  : list Order * bool :=
  match rest with
  | [] => ([], false)
  | o :: rest' =>
      let currentLimit := plus currentLimit (notional o) in
      if lte currentLimit upperLimit
      then let '(kept, trunc) := filterLoop upperLimit currentLimit rest' in
           (o :: kept, trunc)
      else
        ([set_balance o (toFixed None (dividedBy upperLimit (price o)))], true)
  end.

Definition filterSellOrders (this_buyDepth : BigNumber) (input : list Order)
  : orders * bool :=
  let upperLimit := times this_buyDepth (Fin 1.5) in
  let '(kept, trunc) := filterLoop upperLimit zero (skipn 2 input) in
  (nth_error input 0 :: nth_error input 1 :: map Some kept, trunc).

(** The constructor.  The chart's [buys] are the [sells] it is given and
    its [sells] are the filtered [buys] it is given. *)
Definition new (buys_arg sells_arg : list Order) : Js.M t :=
  let this_buys := sort (map Some sells_arg) in
  this_buyDepth <- depth this_buys ;;
  let '(filtered, trunc) := filterSellOrders this_buyDepth buys_arg in
  let this_sells := sort filtered in
  this_sellDepth <- depth this_sells ;;
  Js.ret {| buys := this_buys; sells := this_sells;
            buyDepth := this_buyDepth; sellDepth := this_sellDepth;
            truncated := trunc |}.

Definition buyDepthAtIndex (this : t) (idx : nat) : Js.M BigNumber :=
  Js.forM (seq 0 (idx + 1))
    (fun i result =>
       e <- etherBalance (at_index (buys this) i) ;; Js.ret (minus result e))
    (buyDepth this).

Definition sellDepthAtIndex (this : t) (idx : nat) : Js.M BigNumber :=
  Js.forM (seq 0 (idx + 1))
    (fun i result =>
       e <- etherBalance (at_index (sells this) i) ;; Js.ret (plus result e))
    zero.

(** [row[c] = v]: a write past the end extends the row. *)
Definition assign (row : list cell) (c : nat) (v : cell) : list cell :=
  if c <? length row then firstn c row ++ v :: skipn (S c) row
  else row ++ repeat Hole (c - length row) ++ [v].

(** [result[r][c] = v]: when [r] names no row, [result[r]] is [undefined]
    and the assignment throws. *)
Definition put (result : grid) (r : Js.number) (c : nat) (v : cell) : Js.M grid :=
  match Js.index r with
  | Some i =>
      match nth_error result i with
      | Some row => Js.ret (firstn i result ++ assign row c v :: skipn (S i) result)
      | None => Js.throw Js.TypeError
      end
  | None => Js.throw Js.TypeError
  end.

(** How often the body of [for (y = from; y < to; y++)] runs, and of
    [for (y = from; y <= to; y++)].  Where these are used the bounds are
    finite: each has been a row subscript of a write that did not throw,
    or an operand of the array length. *)
Definition count_lt (from to : Js.number) : nat :=
  match from, to with
  | Fin a, Fin b => Z.to_nat (Qceiling (b - a))
  | _, _ => 0
  end.

Definition count_le (from to : Js.number) : nat :=
  match from, to with
  | Fin a, Fin b => Z.to_nat (Qfloor (b - a) + 1)
  | _, _ => 0
  end.

Definition one : Js.number := Fin 1.

(** [for (let y = from; y < to; y++) result[rows - y][col] = <stroke>],
    the number of rounds that are left being [fuel]. *)
Fixpoint vertical (fuel : nat) (rows : Js.number) (col : nat) (c : colour)
    (y : Js.number) (result : grid) : Js.M grid :=
  match fuel with
  | O => Js.ret result
  | S fuel' =>
      result <- put result (Js.sub rows y) col (Mark c Vertical) ;;
      vertical fuel' rows col c (Js.add y one) result
  end.

(** The body shared by the two loops over consecutive columns: a flat
    stroke when both depths fall on one row, else two corners joined by
    vertical strokes. *)
Definition stroke (rows : Js.number) (col : nat) (c : colour)
    (y0 y1 : Js.number) (result : grid) : Js.M grid :=
  if Js.eq y0 y1 then put result (Js.sub rows y0) col (Mark c Flat)
  else
    result <- put result (Js.sub rows y1) col
                (Mark c (if Js.gt y0 y1 then ArcDownRight else ArcUpRight)) ;;
    result <- put result (Js.sub rows y0) col
                (Mark c (if Js.gt y0 y1 then ArcRightDown else ArcRightUp)) ;;
    let from := Js.Math_min y0 y1 in
    let to := Js.Math_max y0 y1 in
    vertical (count_lt (Js.add from one) to) rows col c (Js.add from one) result.

(** The loop that draws the axis: [for (let y = min2; y <= max2; y++)]. *)
Fixpoint axis (fuel : nat) (max range rows min2 : Js.number) (offset : nat)
    (y : Js.number) (result : grid) : Js.M grid :=
  match fuel with
  | O => Js.ret result
  | S fuel' =>
      let label :=
        Label (Js.sub (toNumber max)
                 (Js.div (Js.mul (Js.sub y min2) (toNumber range)) rows)) in
      result <- put result (Js.sub y min2) (Nat.max (offset - 11) 0) label ;;
      result <- put result (Js.sub y min2) (offset - 1) (Mark plain AxisTick) ;;
      axis fuel' max range rows min2 offset (Js.add y one) result
  end.

(** [Math.round(depth.times(ratio).toNumber()) - min2]. *)
Definition scaled (ratio : BigNumber) (min2 : Js.number) (d : BigNumber) : Js.number :=
  Js.sub (Js.Math_round (toNumber (times d ratio))) min2.

Definition plot (this : t) : Js.M grid :=
  let min := zero in
  let max := if gt (buyDepth this) (sellDepth this)
             then buyDepth this else sellDepth this in
  let range := max in
  let offset := 3%nat in
  let height := of_Z 8 in
  let ratio := dividedBy height range in
  let min2 := Js.Math_round (toNumber (times min ratio)) in
  let max2 := Js.Math_round (toNumber (times max ratio)) in
  let rows := Js.Math_abs (Js.sub max2 min2) in
  let nbuys := length (buys this) in
  let nsells := length (sells this) in
  let width := (nbuys + nsells + offset)%nat in
  (* first, clean the canvas *)
  n <- Js.new_Array (Js.add rows one) ;;
  let result := repeat (repeat Blank width) n in
  (* then, draw axis and labels *)
  result <- axis (count_le min2 max2) max range rows min2 offset min2 result ;;
  (* set the first value *)
  d <- buyDepthAtIndex this 0 ;;
  let y0 := scaled ratio min2 d in
  result <- put result (Js.sub rows y0) (offset - 1) (Mark green AxisStart) ;;
  (* set all the rest of the buys *)
  result <- Js.forM (seq 0 (nbuys - 1))
              (fun x result =>
                 d0 <- buyDepthAtIndex this (x + 0) ;;
                 d1 <- buyDepthAtIndex this (x + 1) ;;
                 stroke rows (x + offset) green
                   (scaled ratio min2 d0) (scaled ratio min2 d1) result)
              result ;;
  (* now set the values for the sells *)
  d0 <- sellDepthAtIndex this 0 ;;
  let from := scaled ratio min2 d0 in
  d1 <- sellDepthAtIndex this 1 ;;
  let to := scaled ratio min2 d1 in
  result <-
    (if Js.neq to from then
       d1 <- sellDepthAtIndex this 1 ;;
       let to := scaled ratio min2 d1 in
       result <- put result rows (nbuys + offset - 1) (Mark red ArcRightUp) ;;
       result <- put result (Js.sub rows to) (nbuys + offset - 1)
                   (Mark red ArcUpRight) ;;
       vertical (count_lt one to) rows (nbuys + offset - 1) red one result
     else
       put result rows (nbuys + offset - 1) (Mark red Flat)) ;;
  result <- Js.forM (seq 1 (nsells - 1 - 1))
              (fun x result =>
                 d0 <- sellDepthAtIndex this (x + 0) ;;
                 d1 <- sellDepthAtIndex this (x + 1) ;;
                 stroke rows (x + offset + nbuys - 1) red
                   (scaled ratio min2 d0) (scaled ratio min2 d1) result)
              result ;;
  (* if the order book chart was truncated, give an indication of that fact *)
  result <- (if truncated this
             then put result zero width (Mark red ArrowUp)
             else Js.ret result) ;;
  Js.ret result.

End OrderBookChart.

(** ** Class [OrderBookPrinter] *)

Module OrderBookPrinter.

(** [print()]: build the chart of the book and plot it.  What it logs is
    the grid, row by row. *)
Definition print (orderbook : OrderBook) : Js.M OrderBookChart.grid :=
  chartist <- OrderBookChart.new (buys orderbook) (sells orderbook) ;;
  OrderBookChart.plot chartist.

End OrderBookPrinter.

(** ** Actions: [src/actiontypes.ts] *)

Inductive action : Type := NewOrder | CancelOrder | Trade.
Inductive buysell : Type := buy | sell.

Module Trade.
Record t : Type := {
  type : action;
  blockchain : string;
  contract : string;
  order_tx : string;
  amount : BigNumber
}.
End Trade.

Module CreateOrder.
Record t : Type := {
  type : action;
  blockchain : string;
  order_type : buysell;
  amount : BigNumber;
  price : BigNumber
}.
End CreateOrder.

Module CancelOrder.
Record t : Type := {
  type : action;
  blockchain : string;
  contract : string;
  order_tx : string
}.
End CancelOrder.

(** [type ActionType = Trade | CreateOrder | CancelOrder]. *)
Inductive ActionType : Type :=
| IsTrade (a : Trade.t)
| IsCreateOrder (a : CreateOrder.t)
| IsCancelOrder (a : CancelOrder.t).

(** The [type] field of an action. *)
Definition type_of (a : ActionType) : action :=
  match a with
  | IsTrade x => Trade.type x
  | IsCreateOrder x => CreateOrder.type x
  | IsCancelOrder x => CancelOrder.type x
  end.

(** ** The collaborators the strategy queries *)

Record TokenInfo : Type := {
  best_buy_order_tx : string;
  best_sell_order_tx : string
}.

(** [saturn.query]. *)
Record Saturn : Type := {
  orderbook : string -> string -> OrderBook;
  ordersForAddress : string -> list Order;
  getTokenInfo : string -> string -> TokenInfo;
  getOrderByTx : string -> string -> Order
}.

(** The provider and the ERC20 contract reached through it: the wei balance
    of an address, and the raw balance and the decimals of a token. *)
Record Provider : Type := {
  getBalance : string -> N;
  balanceOf : string -> string -> N;
  decimals : string -> nat
}.

Record Env : Type := {
  saturn : Saturn;
  provider : Provider
}.

Module MarketMakerConfig.
Record t : Type := {
  fundMinimum : BigNumber;
  tokenLimit : BigNumber;
  spread : BigNumber;
  dustCutoff : BigNumber;
  bandSize : BigNumber
}.
End MarketMakerConfig.

(** ** The strategy: class [MarketMaker] *)

Module MarketMaker.

Import BigNumber.

Definition EtherAddress : string := "0x0000000000000000000000000000000000000000".
Definition PRICEDECIMALS : nat := 6.

(** The fields of an instance, as the constructor leaves them. *)
Record t : Type := {
  blockchain : string;
  token : string;
  config : MarketMakerConfig.t;
  botAddress : string
}.

(** What [pruneSells] and [pruneBuys] collect for an order to cancel.  The
    [price] that the outsiders carry besides is never read. *)
Record Pruned : Type := {
  pruned_contract : string;
  pruned_order_tx : string
}.

Definition of_N (n : N) : BigNumber := of_Z (Z.of_N n).

Definition healthyCutoff : nat := 2.

(** The sentence of the error message that tells the operator what to do. *)
Definition advice : string := "Consider manually creating orders first.".

Definition thinBookMessage (blockchain_ token_ : string) : string :=
  ("
        The order book for token " ++ blockchain_ ++ "::" ++ token_ ++ " is too thin
        for this bot to properly work. " ++ advice ++ "
        The bot needs at least " ++ "2" ++ " buy and sell orders.
      ")%string.

Section Methods.

Variable this : t.
Variable env : Env.

Definition orderBook : OrderBook :=
  orderbook (saturn env) (token this) (blockchain this).

Definition fetchOrdersFor (address : string) : OrderBook :=
  let allOrders := ordersForAddress (saturn env) address in
  {| buys := filter (fun x => String.eqb (buytoken x) (token this)
                              && String.eqb (selltoken x) EtherAddress) allOrders;
     sells := filter (fun x => String.eqb (selltoken x) (token this)
                               && String.eqb (buytoken x) EtherAddress) allOrders |}.

Definition bestSellOrder : Order :=
  let tokenInfo := getTokenInfo (saturn env) (token this) (blockchain this) in
  getOrderByTx (saturn env) (best_sell_order_tx tokenInfo) (blockchain this).

Definition bestBuyOrder : Order :=
  let tokenInfo := getTokenInfo (saturn env) (token this) (blockchain this) in
  getOrderByTx (saturn env) (best_buy_order_tx tokenInfo) (blockchain this).

Definition bestSellPrice : BigNumber := price bestSellOrder.
Definition bestBuyPrice : BigNumber := price bestBuyOrder.

Definition spread : BigNumber := minus bestSellPrice bestBuyPrice.

Definition sellDepth : BigNumber :=
  fold_left plus
    (map (fun order => times (balance order) (price order)) (sells orderBook))
    zero.

Definition buyDepth : BigNumber :=
  fold_left plus
    (map (fun order => times (balance order) (price order)) (buys orderBook))
    zero.

Definition weightedMidMarketPrice : BigNumber :=
  dividedBy
    (plus (times bestSellPrice buyDepth) (times bestBuyPrice sellDepth))
    (plus sellDepth buyDepth).

Fixpoint pow (n : BigNumber) (p : nat) : BigNumber :=
  match p with
  | O => Fin 1
  | S p' => times (pow n p') n
  end.

Definition tokenDecimals : nat := decimals (provider env) (token this).

Definition availableEther : BigNumber :=
  let myBalance := of_N (getBalance (provider env) (botAddress this)) in
  let weiMinimum :=
    times (pow (of_Z 10) 18) (MarketMakerConfig.fundMinimum (config this)) in
  let ether := dividedBy (minus myBalance weiMinimum) (pow (of_Z 10) 18) in
  max [zero; ether].

Definition availableTokens : BigNumber :=
  let tokenbalance := balanceOf (provider env) (token this) (botAddress this) in
  let decimals := tokenDecimals in
  min [dividedBy (of_N tokenbalance) (pow (of_Z 10) decimals);
       MarketMakerConfig.tokenLimit (config this)].

Definition etherLockedForAddress (address : string) : BigNumber :=
  let orders := buys (fetchOrdersFor address) in
  fold_left plus
    (map (fun order => times (balance order) (price order)) orders) zero.

Definition tokensLockedForAddress (address : string) : BigNumber :=
  let orders := sells (fetchOrdersFor address) in
  fold_left plus (map (fun order => balance order) orders) zero.

Definition newBuys : list ActionType :=
  let alreadyInMarket := etherLockedForAddress (botAddress this) in
  let funds := availableEther in
  if isLessThanOrEqualTo funds (MarketMakerConfig.dustCutoff (config this))
  then []
  else
    let bbp := bestBuyPrice in
    let optimalPrice :=
      minus weightedMidMarketPrice (dividedBy spread (of_Z 2)) in
    if lte optimalPrice bbp then []
    else
      let tokenAmount := dividedBy funds optimalPrice in
      let decimals := tokenDecimals in
      [IsCreateOrder
         {| CreateOrder.type := NewOrder;
            CreateOrder.blockchain := blockchain this;
            CreateOrder.order_type := buy;
            CreateOrder.amount := toFixed (Some decimals) tokenAmount;
            CreateOrder.price := toFixed (Some PRICEDECIMALS) optimalPrice |}].

Definition newSells : list ActionType :=
  let alreadyInMarket := tokensLockedForAddress (botAddress this) in
  let funds := minus availableTokens alreadyInMarket in
  if isLessThanOrEqualTo funds zero then []
  else
    let bsp := bestSellPrice in
    let optimalPrice :=
      plus weightedMidMarketPrice (dividedBy spread (of_Z 2)) in
    if gte optimalPrice bsp then []
    else
      let decimals := tokenDecimals in
      [IsCreateOrder
         {| CreateOrder.type := NewOrder;
            CreateOrder.blockchain := blockchain this;
            CreateOrder.order_type := sell;
            CreateOrder.amount := toFixed (Some decimals) funds;
            CreateOrder.price := toFixed (Some PRICEDECIMALS) optimalPrice |}].

Definition newOrders : list ActionType :=
  let spread := spread in
  if lte spread (MarketMakerConfig.spread (config this)) then []
  else
    let buys := newBuys in
    let sells := newSells in
    buys ++ sells.

Definition isDust (x : Order) : bool :=
  lte (times (balance x) (price x)) (MarketMakerConfig.dustCutoff (config this)).

Definition toPruned (x : Order) : Pruned :=
  {| pruned_contract := contract x; pruned_order_tx := transaction x |}.

Definition pruneSells (orders : list Order) : list Pruned :=
  let dust := map toPruned (filter isDust orders) in
  let cutoff :=
    plus weightedMidMarketPrice
      (times (MarketMakerConfig.bandSize (config this))
             (MarketMakerConfig.spread (config this))) in
  let outsiders := map toPruned (filter (fun x => gt (price x) cutoff) orders) in
  dust ++ outsiders.

Definition pruneBuys (orders : list Order) : list Pruned :=
  let dust := map toPruned (filter isDust orders) in
  let cutoff :=
    minus weightedMidMarketPrice
      (times (MarketMakerConfig.bandSize (config this))
             (MarketMakerConfig.spread (config this))) in
  let outsiders := map toPruned (filter (fun x => lt (price x) cutoff) orders) in
  dust ++ outsiders.

Definition cleanupOrders : list ActionType :=
  let myorders := fetchOrdersFor (botAddress this) in
  let tocancel := ([] ++ pruneSells (sells myorders)) ++ pruneBuys (buys myorders) in
  map (fun x =>
         IsCancelOrder
           {| CancelOrder.type := CancelOrder;
              CancelOrder.blockchain := blockchain this;
              CancelOrder.contract := pruned_contract x;
              CancelOrder.order_tx := pruned_order_tx x |})
      tocancel.

Definition checkArbOpportunity : list ActionType :=
  let spread := spread in
  if lte spread zero then
    let bbo := bestBuyOrder in
    let bso := bestSellOrder in
    let available := availableTokens in
    if isEqualTo available zero then []
    else
      let tokenAmount := min [balance bbo; balance bso; available] in
      [IsTrade
         {| Trade.type := Trade;
            Trade.blockchain := blockchain this;
            Trade.contract := contract bbo;
            Trade.order_tx := transaction bbo;
            Trade.amount := toFixed None tokenAmount |};
       IsTrade
         {| Trade.type := Trade;
            Trade.blockchain := blockchain this;
            Trade.contract := contract bso;
            Trade.order_tx := transaction bso;
            Trade.amount := toFixed None tokenAmount |}]
  else [].

Definition ensureValidOrderBook : Js.M unit :=
  let ob := orderBook in
  if (length (buys ob) <? healthyCutoff)%nat || (length (sells ob) <? healthyCutoff)%nat
  then Js.throw (Js.Error (thinBookMessage (blockchain this) (token this)))
  else Js.ret tt.

Definition plotOrderBook : Js.M OrderBookChart.grid :=
  let ob := orderBook in
  OrderBookPrinter.print ob.

(** The figures it logs are computed without a throw; the chart that
    follows can throw. *)
Definition printMarketHealth : Js.M OrderBookChart.grid :=
  let spread := spread in
  let wmm := weightedMidMarketPrice in
  let sd := sellDepth in
  let bd := buyDepth in
  let bsp := bestSellPrice in
  let bbp := bestBuyPrice in
  plotOrderBook.

Definition nonempty {A : Type} (xs : list A) : bool :=
  negb (Nat.eqb (length xs) 0).

Definition getActions : Js.M (list ActionType) :=
  _ <- ensureValidOrderBook ;;
  _ <- printMarketHealth ;;
  let arbs := checkArbOpportunity in
  if nonempty arbs then Js.ret arbs
  else
    let cleanup := cleanupOrders in
    if nonempty cleanup then Js.ret cleanup
    else
      let newOrders := newOrders in
      if nonempty newOrders then Js.ret newOrders
      else Js.ret [].

End Methods.

End MarketMaker.

(** ** Vocabulary of the statements *)

Module Vocabulary.

Import BigNumber.

(** A number that is neither NaN nor infinite. *)
Definition finite (x : BigNumber) : Prop := exists q, x = Fin q.

(** A resting order: a positive price and a positive remaining balance. *)
Definition resting (o : Order) : Prop :=
  exists b p, balance o = Fin b /\ price o = Fin p /\ 0 < b /\ 0 < p.

(** An order the chart can plot: a positive price and a balance that is
    not negative (the filter can cut a balance down to zero). *)
Definition plottable (o : Order) : Prop :=
  exists b p, balance o = Fin b /\ price o = Fin p /\ 0 <= b /\ 0 < p.

(** The notional of an order as a rational, and the sum of rationals. *)
Definition qnotional (o : Order) : Q :=
  match OrderBookChart.notional o with
  | Fin v => v
  | _ => 0
  end.

Definition Qsum (xs : list Q) : Q := fold_right Qplus 0 xs.

(** The number [x] is the integer [z]. *)
Definition integer (x : Js.number) (z : Z) : Prop :=
  exists q, x = Fin q /\ q == inject_Z z.

(** A canvas with the rows 0 to [top]. *)
Definition canvas_of (top : Z) (result : OrderBookChart.grid) : Prop :=
  Z.of_nat (length result) = (top + 1)%Z.

(** A chart that [plot] can draw: no slot is [undefined], every order is
    plottable, each depth is the sum of the notionals of its side, there
    is an order to start the first curve and two to start the second, and
    the first depth is positive. *)
Definition drawable (c : OrderBookChart.t) : Prop :=
  exists bs ss d_buy d_sell,
    OrderBookChart.buys c = map Some bs
    /\ OrderBookChart.sells c = map Some ss
    /\ Forall plottable bs /\ Forall plottable ss
    /\ OrderBookChart.buyDepth c = Fin d_buy
    /\ OrderBookChart.sellDepth c = Fin d_sell
    /\ d_buy == Qsum (map qnotional bs)
    /\ d_sell == Qsum (map qnotional ss)
    /\ (1 <= length bs)%nat /\ (2 <= length ss)%nat
    /\ 0 < d_buy.

(** The running total of [filterSellOrders] after the orders [xs]. *)
Definition cumulative (xs : list Order) : BigNumber :=
  fold_left plus (map OrderBookChart.notional xs) zero.

Section Strategy.

Variable this : MarketMaker.t.
Variable env : Env.

Definition ownSells : list Order :=
  sells (MarketMaker.fetchOrdersFor this env (MarketMaker.botAddress this)).
Definition ownBuys : list Order :=
  buys (MarketMaker.fetchOrdersFor this env (MarketMaker.botAddress this)).

(** The band around the weighted mid price: [bandSize] times the
    configured spread on either side. *)
Definition upperBand : BigNumber :=
  plus (MarketMaker.weightedMidMarketPrice this env)
    (times (MarketMakerConfig.bandSize (MarketMaker.config this))
           (MarketMakerConfig.spread (MarketMaker.config this))).
Definition lowerBand : BigNumber :=
  minus (MarketMaker.weightedMidMarketPrice this env)
    (times (MarketMakerConfig.bandSize (MarketMaker.config this))
           (MarketMakerConfig.spread (MarketMaker.config this))).

Definition aboveBand (o : Order) : bool := gt (price o) upperBand.
Definition belowBand (o : Order) : bool := lt (price o) lowerBand.

(** The [CancelOrder] action that names the order [o]. *)
Definition cancelOf (o : Order) : ActionType :=
  IsCancelOrder
    {| CancelOrder.type := CancelOrder;
       CancelOrder.blockchain := MarketMaker.blockchain this;
       CancelOrder.contract := contract o;
       CancelOrder.order_tx := transaction o |}.

(** The [Trade] action against the order [o]. *)
Definition tradeAgainst (o : Order) (amount : BigNumber) : ActionType :=
  IsTrade
    {| Trade.type := Trade;
       Trade.blockchain := MarketMaker.blockchain this;
       Trade.contract := contract o;
       Trade.order_tx := transaction o;
       Trade.amount := amount |}.

(** The first of the three candidate lists that is not empty. *)
Definition firstNonEmpty : list ActionType :=
  match MarketMaker.checkArbOpportunity this env with
  | a :: arbs => a :: arbs
  | [] =>
      match MarketMaker.cleanupOrders this env with
      | c :: cleanup => c :: cleanup
      | [] => MarketMaker.newOrders this env
      end
  end.

End Strategy.

Definition allOfType (k : action) (acts : list ActionType) : Prop :=
  Forall (fun a => type_of a = k) acts.

(** Orders in ascending order of price. *)
Definition ascending (xs : list Order) : Prop :=
  StronglySorted (fun a b => lte (price a) (price b) = true) xs.

(** Orders whose prices the comparison function of the sort tells apart:
    two prices are equal or differ by more than 2^-1075, so that their
    difference, converted to a double, keeps its sign. *)
Definition distinguishable (xs : list Order) : Prop :=
  forall a b pa pb,
    In a xs -> In b xs -> price a = Fin pa -> price b = Fin pb ->
    pa == pb \/ DOUBLE_UNDERFLOW < Qabs (pa - pb).

(** What an order is worth: its balance times its price, as the
    specification has the notional of an order. *)
Definition worth (o : Order) : Q :=
  match balance o, price o with
  | Fin b, Fin p => b * p
  | _, _ => 0
  end.

(** An order with a price and a balance that are numbers. *)
Definition numeric (o : Order) : Prop :=
  finite (balance o) /\ finite (price o).

(** An order with nothing left of its balance. *)
Definition spent (o : Order) : Prop :=
  exists b p, balance o = Fin b /\ price o = Fin p /\ b == 0.

(** The [range] of [plot], the larger of the two depths of the chart;
    its [rows], the rounded height of the range at the scale of 8 rows to
    the range; and its [width]. *)
Definition plotRange (c : OrderBookChart.t) : BigNumber :=
  if gt (OrderBookChart.buyDepth c) (OrderBookChart.sellDepth c)
  then OrderBookChart.buyDepth c else OrderBookChart.sellDepth c.

Definition plotRows (c : OrderBookChart.t) : Js.number :=
  let ratio := dividedBy (of_Z 8) (plotRange c) in
  Js.Math_abs
    (Js.sub (Js.Math_round (toNumber (times (plotRange c) ratio)))
            (Js.Math_round (toNumber (times zero ratio)))).

Definition plotWidth (c : OrderBookChart.t) : nat :=
  (length (OrderBookChart.buys c) + length (OrderBookChart.sells c) + 3)%nat.

(** A grid of [height] rows of [width] cells each. *)
Definition rectangle (height width : nat) (g : OrderBookChart.grid) : Prop :=
  length g = height /\ Forall (fun row => length row = width) g.

(** A computation that does not throw an [Error] with a message. *)
Definition quiet {A : Type} (m : Js.M A) : Prop :=
  forall message, m <> inl (Js.Error message).

End Vocabulary.

(** ** Sample markets *)

Module Sample.

Import BigNumber.
Local Open Scope string_scope.

Definition tok : string := "0xtoken".
Definition bot : string := "0xbot".

(** An order of the pair that sells the token ([sell_side]) or buys it. *)
Definition order (sell_side : bool) (tx : string) (b p : Q) : Order :=
  {| contract := "0xexchange"; transaction := tx;
     balance := Fin b; price := Fin p;
     buytoken := if sell_side then MarketMaker.EtherAddress else tok;
     selltoken := if sell_side then tok else MarketMaker.EtherAddress |}.

Definition lookup (book : OrderBook) (fallback : Order) (tx : string) : Order :=
  match find (fun o => String.eqb (transaction o) tx) (buys book ++ sells book) with
  | Some o => o
  | None => fallback
  end.

(** A market: the book, the transactions of its best orders, the bot's own
    orders, its wei and raw token balances, and the token's decimals. *)
Definition market (book : OrderBook) (best_buy best_sell : string)
    (own : list Order) (wei raw : N) (dec : nat) : Env :=
  {| saturn :=
       {| orderbook := fun _ _ => book;
          ordersForAddress := fun _ => own;
          getTokenInfo := fun _ _ =>
            {| best_buy_order_tx := best_buy; best_sell_order_tx := best_sell |};
          getOrderByTx := fun tx _ => lookup book (order true tx 0 0) tx |};
     provider :=
       {| getBalance := fun _ => wei;
          balanceOf := fun _ _ => raw;
          decimals := fun _ => dec |} |}.

Definition maker (limit spread_ dust : Q) : MarketMaker.t :=
  {| MarketMaker.blockchain := "ETH";
     MarketMaker.token := tok;
     MarketMaker.config :=
       {| MarketMakerConfig.fundMinimum := Fin 1;
          MarketMakerConfig.tokenLimit := Fin limit;
          MarketMakerConfig.spread := Fin spread_;
          MarketMakerConfig.dustCutoff := Fin dust;
          MarketMakerConfig.bandSize := Fin 3 |};
     MarketMaker.botAddress := bot |}.

(** Bids of 10 at 1.0 and 0.9, asks of 5 at 1.2 and 1.3: the bid side is
    the deeper one, so the weighted mid price lies above the middle. *)
Definition deep_bids : OrderBook :=
  {| buys := [order false "b1" 10 1; order false "b2" 10 0.9];
     sells := [order true "s1" 5 1.2; order true "s2" 5 1.3] |}.

(** Bids of 5 at 1.0 and 0.9, asks of 10 at 1.2 and 1.3: the ask side is
    the deeper one. *)
Definition deep_asks : OrderBook :=
  {| buys := [order false "b1" 5 1; order false "b2" 5 0.9];
     sells := [order true "s1" 10 1.2; order true "s2" 10 1.3] |}.

(** A crossed book: the best bid, 1.2, is above the best ask, 1.0. *)
Definition crossed : OrderBook :=
  {| buys := [order false "b1" 4 1.2; order false "b2" 10 0.9];
     sells := [order true "s1" 7 1; order true "s2" 5 1.3] |}.

(** Two orders on each side, none with any balance left. *)
Definition drained : OrderBook :=
  {| buys := [order false "b1" 0 1; order false "b2" 0 0.9];
     sells := [order true "s1" 0 1.2; order true "s2" 0 1.3] |}.

(** One order on each side. *)
Definition single : OrderBook :=
  {| buys := [order false "b1" 10 1]; sells := [order true "s1" 5 1.2] |}.

Definition five_ether : N := 5000000000000000000.

(** The bot holds 5 ether and 10 tokens of a token without decimals, and
    has no order of its own. *)
Definition env_deep_bids : Env := market deep_bids "b1" "s1" [] five_ether 10 0.
Definition env_deep_asks : Env := market deep_asks "b1" "s1" [] five_ether 10 0.
Definition env_crossed : Env := market crossed "b1" "s1" [] five_ether 10 0.
Definition env_crossed_no_tokens : Env := market crossed "b1" "s1" [] five_ether 0 0.
Definition env_single : Env := market single "b1" "s1" [] five_ether 10 0.
Definition env_drained : Env := market drained "b1" "s1" [] five_ether 10 0.

(** The bot's own ask of 0.001 token at 100: its notional, 0.1, is dust,
    and its price is far above the band.  Here the token has 18 decimals
    and the bot holds 10 tokens. *)
Definition stray : Order := order true "mine" 0.001 100.
Definition env_stray : Env :=
  market deep_bids "b1" "s1" [stray] five_ether 10000000000000000000 18.

(** Token limit 2.6, configured spread 0.1, dust cutoff 0.5. *)
Definition mm : MarketMaker.t := maker 2.6 0.1 0.5.
(** The same with a configured spread of 0.5. *)
Definition mm_wide : MarketMaker.t := maker 2.6 0.5 0.5.

(** The example of the specification for the filter: a depth of 10 on the
    other side, and three orders at price 1 with balances 1, 1 and 100. *)
Definition tail : list Order :=
  [order false "t1" 1 1; order false "t2" 1 1; order false "t3" 100 1].

(** Five orders at the prices 1, 2, 3, 7 and 1, worth 1, 2, 6, 35 and 1:
    from the third order on, the running total is 6, then 41, then 42. *)
Definition long_tail : list Order :=
  [order false "t1" 1 1; order false "t2" 1 2; order false "t3" 2 3;
   order false "t4" 5 7; order false "t5" 1 1].

(** Two asks whose prices, 2e-400 and 1e-400, are closer than any two
    doubles. *)
Definition close_asks : list Order :=
  [order true "s1" 1 2e-400; order true "s2" 1 1e-400].

(** The chart of a book, where the constructor returns one. *)
Definition chart (book : OrderBook) : OrderBookChart.t :=
  match OrderBookChart.new (buys book) (sells book) with
  | inr c => c
  | inl _ =>
      {| OrderBookChart.buys := []; OrderBookChart.sells := [];
         OrderBookChart.buyDepth := zero; OrderBookChart.sellDepth := zero;
         OrderBookChart.truncated := false |}
  end.

(** Bids but no ask. *)
Definition no_asks : OrderBook :=
  {| buys := [order false "b1" 10 1; order false "b2" 10 0.9]; sells := [] |}.

End Sample.

(** * Properties *)

(** ** Rounding *)

Section Rounding.

Import BigNumber.

Lemma Qfloor_unique (x : Q) (n : Z) :
  inject_Z n <= x -> x < inject_Z (n + 1) -> Qfloor x = n.
Proof.
  intros Hlo Hhi.
  pose proof (Qfloor_le x) as Hf.
  pose proof (Qlt_floor x) as Hg.
  assert (inject_Z n < inject_Z (Qfloor x + 1)) as H1 by lra.
  assert (inject_Z (Qfloor x) < inject_Z (n + 1)) as H2 by lra.
  rewrite <- Zlt_Qlt in H1, H2. lia.
Qed.

Lemma Qfloor_half_Z (z : Z) : Qfloor (inject_Z z + (1 # 2)) = z.
Proof.
  apply Qfloor_unique; [lra|].
  rewrite inject_Z_plus. change (inject_Z 1) with 1. lra.
Qed.

Lemma Qfloor_nonneg (x : Q) : 0 <= x -> (0 <= Qfloor x)%Z.
Proof.
  intros H. change 0%Z with (Qfloor 0). now apply Qfloor_resp_le.
Qed.

Lemma round_half_up_mono (a b : Q) :
  a <= b -> (round_half_up a <= round_half_up b)%Z.
Proof.
  intros Hab. unfold round_half_up.
  destruct (Qle_bool 0 a) eqn:Ha; destruct (Qle_bool 0 b) eqn:Hb.
  - apply Qfloor_resp_le. lra.
  - apply Qle_bool_iff in Ha.
    assert (~ 0 <= b) as Hb' by (rewrite <- Qle_bool_iff; congruence).
    exfalso. apply Hb'. lra.
  - assert (~ 0 <= a) as Ha' by (rewrite <- Qle_bool_iff; congruence).
    apply Qle_bool_iff in Hb.
    assert (0 <= Qfloor (- a + (1 # 2)))%Z by (apply Qfloor_nonneg; lra).
    assert (0 <= Qfloor (b + (1 # 2)))%Z by (apply Qfloor_nonneg; lra).
    lia.
  - assert (Qfloor (- b + (1 # 2)) <= Qfloor (- a + (1 # 2)))%Z
      by (apply Qfloor_resp_le; lra).
    lia.
Qed.

Lemma round_half_up_Z (z : Z) : round_half_up (inject_Z z) = z.
Proof.
  unfold round_half_up.
  destruct (Qle_bool 0 (inject_Z z)) eqn:Hz.
  - apply Qfloor_half_Z.
  - rewrite <- inject_Z_opp, Qfloor_half_Z. lia.
Qed.

Lemma round_half_up_nonneg (q : Q) : 0 <= q -> (0 <= round_half_up q)%Z.
Proof.
  intros H. rewrite <- (round_half_up_Z 0). now apply round_half_up_mono.
Qed.

Lemma round_half_up_upper (q : Q) : inject_Z (round_half_up q) <= q + (1 # 2).
Proof.
  unfold round_half_up. destruct (Qle_bool 0 q).
  - apply Qfloor_le.
  - pose proof (Qlt_floor (- q + (1 # 2))) as H.
    rewrite inject_Z_plus in H. change (inject_Z 1) with 1 in H.
    rewrite inject_Z_opp. lra.
Qed.

Lemma pow10_pos (dp : nat) : (0 < pow10 dp)%Z.
Proof. unfold pow10. apply Z.pow_pos_nonneg; lia. Qed.

Lemma pow10_Qpos (dp : nat) : 0 < inject_Z (pow10 dp).
Proof.
  change 0 with (inject_Z 0). rewrite <- Zlt_Qlt. apply pow10_pos.
Qed.

Lemma round_dp_mono (dp : nat) (a b : Q) :
  a <= b -> round_dp dp a <= round_dp dp b.
Proof.
  intros Hab. unfold round_dp.
  pose proof (pow10_Qpos dp) as HP.
  apply Qmult_le_compat_r.
  - rewrite <- Zle_Qle. apply round_half_up_mono.
    apply Qmult_le_compat_r; lra.
  - apply Qlt_le_weak, Qinv_lt_0_compat, HP.
Qed.

Lemma round_dp_nonneg (dp : nat) (q : Q) : 0 <= q -> 0 <= round_dp dp q.
Proof.
  intros Hq. unfold round_dp.
  pose proof (pow10_Qpos dp) as HP.
  apply Qle_shift_div_l; [exact HP|].
  setoid_replace (0 * inject_Z (pow10 dp)) with (inject_Z 0) by ring.
  rewrite <- Zle_Qle. apply round_half_up_nonneg.
  apply Qmult_le_0_compat; lra.
Qed.

(** Rounding to [dp] decimals adds at most half a unit of the last place. *)
Lemma round_dp_upper (dp : nat) (q : Q) :
  round_dp dp q <= q + (1 # 2) / inject_Z (pow10 dp).
Proof.
  unfold round_dp.
  pose proof (pow10_Qpos dp) as HP.
  apply Qle_shift_div_r; [exact HP|].
  pose proof (round_half_up_upper (q * inject_Z (pow10 dp))) as H.
  setoid_replace ((q + (1 # 2) / inject_Z (pow10 dp)) * inject_Z (pow10 dp))
    with (q * inject_Z (pow10 dp) + (1 # 2)); [exact H|].
  field. lra.
Qed.

(** A bound with at most [dp] decimals survives rounding to [dp] decimals. *)
Lemma round_dp_below_grid (dp : nat) (q l : Q) (k : Z) :
  l * inject_Z (pow10 dp) == inject_Z k -> q <= l -> round_dp dp q <= l.
Proof.
  intros Hk Hq. unfold round_dp.
  pose proof (pow10_Qpos dp) as HP.
  apply Qle_shift_div_r; [exact HP|].
  rewrite Hk, <- Zle_Qle, <- (round_half_up_Z k).
  apply round_half_up_mono. rewrite <- Hk.
  apply Qmult_le_compat_r; lra.
Qed.

Lemma round_half_up_lower (q : Q) : q - (1 # 2) <= inject_Z (round_half_up q).
Proof.
  unfold round_half_up. destruct (Qle_bool 0 q).
  - pose proof (Qlt_floor (q + (1 # 2))) as H.
    rewrite inject_Z_plus in H. change (inject_Z 1) with 1 in H. lra.
  - pose proof (Qfloor_le (- q + (1 # 2))) as H.
    rewrite inject_Z_opp. lra.
Qed.

(** Rounding to [dp] decimals takes away at most half a unit of the last
    place. *)
Lemma round_dp_lower (dp : nat) (q : Q) :
  q - (1 # 2) / inject_Z (pow10 dp) <= round_dp dp q.
Proof.
  unfold round_dp.
  pose proof (pow10_Qpos dp) as HP.
  apply Qle_shift_div_l; [exact HP|].
  pose proof (round_half_up_lower (q * inject_Z (pow10 dp))) as H.
  setoid_replace ((q - (1 # 2) / inject_Z (pow10 dp)) * inject_Z (pow10 dp))
    with (q * inject_Z (pow10 dp) - (1 # 2)); [exact H|].
  field. lra.
Qed.

End Rounding.

(** ** Comparisons of numbers *)

Section Comparisons.

Import BigNumber.

Lemma lte_Fin (a b : Q) : lte (Fin a) (Fin b) = true <-> a <= b.
Proof.
  unfold lte; simpl. rewrite Qle_alt.
  destruct (a ?= b); split; congruence.
Qed.

Lemma lte_Fin_false (a b : Q) : lte (Fin a) (Fin b) = false <-> b < a.
Proof.
  unfold lte; simpl. rewrite Qgt_alt.
  destruct (a ?= b); split; congruence.
Qed.

Lemma lt_Fin (a b : Q) : lt (Fin a) (Fin b) = true <-> a < b.
Proof.
  unfold lt; simpl. rewrite Qlt_alt.
  destruct (a ?= b); split; congruence.
Qed.

Lemma gt_Fin (a b : Q) : gt (Fin a) (Fin b) = true <-> b < a.
Proof.
  unfold gt; simpl. rewrite Qgt_alt.
  destruct (a ?= b); split; congruence.
Qed.

Lemma gte_Fin (a b : Q) : gte (Fin a) (Fin b) = true <-> b <= a.
Proof.
  unfold gte; simpl. rewrite Qge_alt.
  destruct (a ?= b); split; congruence.
Qed.

Lemma gte_Fin_false (a b : Q) : gte (Fin a) (Fin b) = false <-> a < b.
Proof.
  unfold gte; simpl. rewrite Qlt_alt.
  destruct (a ?= b); split; congruence.
Qed.

Lemma isEqualTo_Fin (a b : Q) : isEqualTo (Fin a) (Fin b) = true <-> a == b.
Proof.
  unfold isEqualTo; simpl. rewrite Qeq_alt.
  destruct (a ?= b); split; congruence.
Qed.

Lemma gt_not_equal (x y : BigNumber) : gt x y = true -> isEqualTo x y = false.
Proof.
  unfold gt, isEqualTo. destruct (compare x y) as [[]|]; congruence.
Qed.

Lemma toFixed_all_digits (x : BigNumber) : toFixed None x = x.
Proof. reflexivity. Qed.

Lemma is_zero_false (q : Q) : ~ q == 0 -> is_zero q = false.
Proof.
  intros Hq. unfold is_zero. destruct (Qeq_bool q 0) eqn:E; [|reflexivity].
  apply Qeq_bool_iff in E. contradiction.
Qed.

End Comparisons.

(** ** The three candidate lists hold one kind of action each *)

Section Kinds.

Import Vocabulary.
Variable this : MarketMaker.t.
Variable env : Env.

Lemma checkArbOpportunity_trades :
  allOfType Trade (MarketMaker.checkArbOpportunity this env).
Proof.
  unfold allOfType, MarketMaker.checkArbOpportunity.
  destruct (BigNumber.lte _ _); [|constructor].
  destruct (BigNumber.isEqualTo _ _); repeat constructor.
Qed.

Lemma cleanupOrders_cancels :
  allOfType CancelOrder (MarketMaker.cleanupOrders this env).
Proof.
  unfold allOfType, MarketMaker.cleanupOrders.
  apply Forall_forall. intros a Ha.
  apply in_map_iff in Ha. destruct Ha as [x [<- _]]. reflexivity.
Qed.

Lemma newBuys_new : allOfType NewOrder (MarketMaker.newBuys this env).
Proof.
  unfold allOfType, MarketMaker.newBuys.
  destruct (BigNumber.isLessThanOrEqualTo _ _); [constructor|].
  destruct (BigNumber.lte _ _); repeat constructor.
Qed.

Lemma newSells_new : allOfType NewOrder (MarketMaker.newSells this env).
Proof.
  unfold allOfType, MarketMaker.newSells.
  destruct (BigNumber.isLessThanOrEqualTo _ _); [constructor|].
  destruct (BigNumber.gte _ _); repeat constructor.
Qed.

Lemma newOrders_new : allOfType NewOrder (MarketMaker.newOrders this env).
Proof.
  unfold allOfType, MarketMaker.newOrders.
  destruct (BigNumber.lte _ _); [constructor|].
  apply Forall_app. split; [apply newBuys_new | apply newSells_new].
Qed.

Lemma firstNonEmpty_one_kind :
  allOfType Trade (firstNonEmpty this env)
  \/ allOfType CancelOrder (firstNonEmpty this env)
  \/ allOfType NewOrder (firstNonEmpty this env).
Proof.
  unfold firstNonEmpty.
  generalize checkArbOpportunity_trades cleanupOrders_cancels newOrders_new.
  destruct (MarketMaker.checkArbOpportunity this env) as [|a arbs];
    [|intros Ha _ _; left; exact Ha].
  destruct (MarketMaker.cleanupOrders this env) as [|c cleanup];
    [|intros _ Hc _; right; left; exact Hc].
  intros _ _ Hn; right; right; exact Hn.
Qed.

(** Past the guard and the chart, the cycle returns the first candidate
    list that is not empty. *)
Lemma getActions_after_chart (g : OrderBookChart.grid) :
  MarketMaker.ensureValidOrderBook this env = inr tt ->
  MarketMaker.printMarketHealth this env = inr g ->
  MarketMaker.getActions this env = inr (firstNonEmpty this env).
Proof.
  intros Hguard Hchart. unfold MarketMaker.getActions, firstNonEmpty.
  rewrite Hguard, Hchart. simpl.
  destruct (MarketMaker.checkArbOpportunity this env); [|reflexivity].
  destruct (MarketMaker.cleanupOrders this env); [|reflexivity].
  destruct (MarketMaker.newOrders this env); reflexivity.
Qed.

Lemma getActions_returns (acts : list ActionType) :
  MarketMaker.getActions this env = inr acts -> acts = firstNonEmpty this env.
Proof.
  unfold MarketMaker.getActions, firstNonEmpty.
  destruct (MarketMaker.ensureValidOrderBook this env) as [e|[]]; [discriminate|].
  destruct (MarketMaker.printMarketHealth this env) as [e|g]; [discriminate|].
  unfold Js.bind, Js.ret.
  destruct (MarketMaker.checkArbOpportunity this env); [|simpl; congruence].
  destruct (MarketMaker.cleanupOrders this env); [|simpl; congruence].
  destruct (MarketMaker.newOrders this env); simpl; congruence.
Qed.

End Kinds.

(** ** The book-health guard *)

Section Guard.

Import Vocabulary.




Variable this : MarketMaker.t.
Variable env : Env.

Lemma ensureValidOrderBook_thin :
  (length (buys (MarketMaker.orderBook this env)) < 2
   \/ length (sells (MarketMaker.orderBook this env)) < 2)%nat ->
  MarketMaker.ensureValidOrderBook this env
  = inl (Js.Error (MarketMaker.thinBookMessage
                     (MarketMaker.blockchain this) (MarketMaker.token this))).
Proof.
  intros Hthin. unfold MarketMaker.ensureValidOrderBook, MarketMaker.healthyCutoff.
  destruct (orb _ _) eqn:Hb; [reflexivity|].
  apply orb_false_iff in Hb. destruct Hb as [Hb Hs].
  apply Nat.ltb_ge in Hb, Hs. lia.
Qed.

Lemma ensureValidOrderBook_healthy :
  (2 <= length (buys (MarketMaker.orderBook this env)))%nat ->
  (2 <= length (sells (MarketMaker.orderBook this env)))%nat ->
  MarketMaker.ensureValidOrderBook this env = inr tt.
Proof.
  intros Hb Hs. unfold MarketMaker.ensureValidOrderBook, MarketMaker.healthyCutoff.
  apply Nat.ltb_ge in Hb, Hs. now rewrite Hb, Hs.
Qed.

End Guard.



(** C6.  If the market spread is at most the configured spread, the
    new-quote step produces no action, and no action that the cycle returns
    is a [NewOrder]. *)
Theorem tight_spread_posts_no_quote (this : MarketMaker.t) (env : Env) :
  BigNumber.lte (MarketMaker.spread this env)
    (MarketMakerConfig.spread (MarketMaker.config this)) = true ->
  MarketMaker.newOrders this env = []
  /\ (forall acts, MarketMaker.getActions this env = inr acts ->
        Forall (fun a => type_of a <> NewOrder) acts).
Proof.
  intros Htight.
  assert (MarketMaker.newOrders this env = []) as Hnone
    by (unfold MarketMaker.newOrders; now rewrite Htight).
  split; [exact Hnone|].
  intros acts Hacts. apply getActions_returns in Hacts. subst acts.
  unfold Vocabulary.firstNonEmpty. rewrite Hnone.
  generalize (checkArbOpportunity_trades this env) (cleanupOrders_cancels this env).
  unfold Vocabulary.allOfType.
  destruct (MarketMaker.checkArbOpportunity this env) as [|a arbs].
  - intros _. destruct (MarketMaker.cleanupOrders this env) as [|c cleanup].
    + constructor.
    + intros Hc. eapply Forall_impl; [|exact Hc]. simpl. congruence.
  - intros Ha _. eapply Forall_impl; [|exact Ha]. simpl. congruence.
Qed.

(** C6 at a market spread of 0.2 under a configured spread of 0.5. *)
Lemma tight_spread_posts_no_quote_witness :
  MarketMaker.newOrders Sample.mm_wide Sample.env_deep_bids = []
  /\ (forall acts,
        MarketMaker.getActions Sample.mm_wide Sample.env_deep_bids = inr acts ->
        Forall (fun a => type_of a <> NewOrder) acts).
Proof.
  apply (tight_spread_posts_no_quote Sample.mm_wide Sample.env_deep_bids).
  vm_compute. reflexivity.
Defined.

(** C2.  Whenever the spread (best sell price minus best buy price) is at
    most 0: with available tokens above 0 the arbitrage check emits exactly
    two [Trade] actions, one against the best buy order and one against the
    best sell order, both for the minimum of the two balances and the
    available tokens; with available tokens equal to 0 it emits nothing. *)
Theorem arbitrage_emits_two_trades (this : MarketMaker.t) (env : Env) :
  BigNumber.lte (MarketMaker.spread this env) BigNumber.zero = true ->
  let bbo := MarketMaker.bestBuyOrder this env in
  let bso := MarketMaker.bestSellOrder this env in
  let available := MarketMaker.availableTokens this env in
  let amount := BigNumber.min [balance bbo; balance bso; available] in
  (BigNumber.gt available BigNumber.zero = true ->
   MarketMaker.checkArbOpportunity this env
   = [Vocabulary.tradeAgainst this bbo amount; Vocabulary.tradeAgainst this bso amount])
  /\ (BigNumber.isEqualTo available BigNumber.zero = true ->
      MarketMaker.checkArbOpportunity this env = []).
Proof.
  intros Hcrossed bbo bso available amount.
  unfold MarketMaker.checkArbOpportunity. rewrite Hcrossed.
  fold bbo bso available. split; intros Hav.
  - rewrite (gt_not_equal _ _ Hav). reflexivity.
  - now rewrite Hav.
Qed.

(** C2 at the crossed book, with 10 tokens in the wallet and with none. *)
Lemma arbitrage_emits_two_trades_witness :
  MarketMaker.checkArbOpportunity Sample.mm Sample.env_crossed
  = [Vocabulary.tradeAgainst Sample.mm (Sample.order false "b1" 4 1.2) (BigNumber.Fin 2.6);
     Vocabulary.tradeAgainst Sample.mm (Sample.order true "s1" 7 1) (BigNumber.Fin 2.6)]
  /\ MarketMaker.checkArbOpportunity Sample.mm Sample.env_crossed_no_tokens = [].
Proof.
  split.
  - refine (proj1 (arbitrage_emits_two_trades Sample.mm Sample.env_crossed _) _);
      vm_compute; reflexivity.
  - refine (proj2 (arbitrage_emits_two_trades Sample.mm Sample.env_crossed_no_tokens _) _);
      vm_compute; reflexivity.
Defined.

(** ** Cleanup *)

Section Cleanup.

Import Vocabulary.
Variable this : MarketMaker.t.
Variable env : Env.

Lemma cleanupOrders_unfold :
  MarketMaker.cleanupOrders this env
  = map (cancelOf this)
      (filter (MarketMaker.isDust this) (ownSells this env)
       ++ filter (aboveBand this env) (ownSells this env)
       ++ filter (MarketMaker.isDust this) (ownBuys this env)
       ++ filter (belowBand this env) (ownBuys this env)).
Proof.
  unfold MarketMaker.cleanupOrders, MarketMaker.pruneSells, MarketMaker.pruneBuys.
  simpl app at 1.
  rewrite !map_app, !map_map, <- !app_assoc. reflexivity.
Qed.

End Cleanup.

(** C3, the counterexample.  The bot's only own order, an ask whose notional
    is dust and whose price is above the band, is named by two [CancelOrder]
    actions: the dust orders and the outliers are collected independently
    and may overlap. *)
Lemma stray_order_is_cancelled_twice :
  Vocabulary.ownSells Sample.mm Sample.env_stray = [Sample.stray]
  /\ Vocabulary.ownBuys Sample.mm Sample.env_stray = []
  /\ MarketMaker.isDust Sample.mm Sample.stray = true
  /\ Vocabulary.aboveBand Sample.mm Sample.env_stray Sample.stray = true
  /\ MarketMaker.cleanupOrders Sample.mm Sample.env_stray
     = [Vocabulary.cancelOf Sample.mm Sample.stray;
        Vocabulary.cancelOf Sample.mm Sample.stray].
Proof. vm_compute. repeat split. Qed.

(** C3, as the code has it.  The cleanup step produces, for the own sell
    orders and then for the own buy orders, one [CancelOrder] per order that
    is dust (balance times price at most the dust cutoff, whatever its price)
    followed by one [CancelOrder] per order that is a band outlier (a sell
    priced above the weighted mid price plus [bandSize] times the configured
    spread, a buy priced below the weighted mid price minus it).  The two
    collections are computed independently, so an order that is both dust and
    an outlier is named twice.  Every own order that is dust or an outlier is
    cancelled, and every [CancelOrder] names an own order that is dust or an
    outlier: an own order inside the band with a notional above the dust
    cutoff is never cancelled. *)
Theorem cleanup_cancels_dust_and_outliers (this : MarketMaker.t) (env : Env) :
  let mine_s := Vocabulary.ownSells this env in
  let mine_b := Vocabulary.ownBuys this env in
  let dust := MarketMaker.isDust this in
  let above := Vocabulary.aboveBand this env in
  let below := Vocabulary.belowBand this env in
  let cancels := MarketMaker.cleanupOrders this env in
  cancels
  = map (Vocabulary.cancelOf this)
      (filter dust mine_s ++ filter above mine_s
       ++ filter dust mine_b ++ filter below mine_b)
  /\ (forall o, In o mine_s -> dust o = true \/ above o = true ->
        In (Vocabulary.cancelOf this o) cancels)
  /\ (forall o, In o mine_b -> dust o = true \/ below o = true ->
        In (Vocabulary.cancelOf this o) cancels)
  /\ (forall a, In a cancels ->
        exists o, a = Vocabulary.cancelOf this o
          /\ ((In o mine_s /\ (dust o = true \/ above o = true))
              \/ (In o mine_b /\ (dust o = true \/ below o = true)))).
Proof.
  intros mine_s mine_b dust above below cancels.
  assert (cancels
          = map (Vocabulary.cancelOf this)
              (filter dust mine_s ++ filter above mine_s
               ++ filter dust mine_b ++ filter below mine_b)) as Heq
    by apply cleanupOrders_unfold.
  split; [exact Heq|]. rewrite Heq. repeat split.
  - intros o Ho Hwhy. apply in_map. rewrite !in_app_iff, !filter_In. tauto.
  - intros o Ho Hwhy. apply in_map. rewrite !in_app_iff, !filter_In. tauto.
  - intros a Ha. apply in_map_iff in Ha. destruct Ha as [o [<- Ho]].
    exists o. split; [reflexivity|].
    rewrite !in_app_iff, !filter_In in Ho. tauto.
Qed.

(** ** The outlier filter *)

Section Filter.

Import BigNumber OrderBookChart.

Variable upperLimit : BigNumber.

Lemma filterLoop_keeps_all (rest : list Order) (acc : BigNumber) :
  (forall n, (1 <= n <= length rest)%nat ->
     lte (fold_left plus (map notional (firstn n rest)) acc) upperLimit = true) ->
  filterLoop upperLimit acc rest = (rest, false).
Proof.
  revert acc. induction rest as [|k rest IH]; intros acc Hunder; [reflexivity|].
  assert (lte (plus acc (notional k)) upperLimit = true) as Hk
    by (apply (Hunder 1%nat); simpl; lia).
  simpl. rewrite Hk.
  rewrite IH; [reflexivity|].
  intros n Hn. apply (Hunder (S n)). simpl. lia.
Qed.

Lemma filterLoop_truncates (kept : list Order) (o : Order) (later : list Order)
    (acc : BigNumber) :
  (forall n, (1 <= n <= length kept)%nat ->
     lte (fold_left plus (map notional (firstn n kept)) acc) upperLimit = true) ->
  lte (fold_left plus (map notional (kept ++ [o])) acc) upperLimit = false ->
  filterLoop upperLimit acc (kept ++ o :: later)
  = (kept ++ [set_balance o (dividedBy upperLimit (price o))], true).
Proof.
  revert acc. induction kept as [|k kept IH]; intros acc Hunder Hover.
  - simpl in *. now rewrite Hover.
  - assert (lte (plus acc (notional k)) upperLimit = true) as Hk
      by (apply (Hunder 1%nat); simpl; lia).
    simpl. rewrite Hk.
    rewrite IH; [reflexivity| |exact Hover].
    intros n Hn. apply (Hunder (S n)). simpl. lia.
Qed.

End Filter.

(** Whatever the numbers are, the filter keeps the first two orders, then
    each further order for as long as the running total stays at most the
    cap, and cuts the first order that takes the total past it. *)
Lemma filterSellOrders_cuts
    (D : BigNumber) (o0 o1 : Order) (rest : list Order) :
  let U := BigNumber.times D (BigNumber.Fin 1.5) in
  (forall kept o later,
      rest = kept ++ o :: later ->
      (forall n, (1 <= n <= length kept)%nat ->
         BigNumber.lte (Vocabulary.cumulative (firstn n kept)) U = true) ->
      BigNumber.lte (Vocabulary.cumulative (kept ++ [o])) U = false ->
      OrderBookChart.filterSellOrders D (o0 :: o1 :: rest)
      = (Some o0 :: Some o1
           :: map Some (kept ++ [set_balance o (BigNumber.dividedBy U (price o))]),
         true))
  /\ ((forall n, (1 <= n <= length rest)%nat ->
         BigNumber.lte (Vocabulary.cumulative (firstn n rest)) U = true) ->
      OrderBookChart.filterSellOrders D (o0 :: o1 :: rest)
      = (Some o0 :: Some o1 :: map Some rest, false)).
Proof.
  intros U. split.
  - intros kept o later -> Hunder Hover.
    unfold OrderBookChart.filterSellOrders. simpl skipn. fold U.
    rewrite (filterLoop_truncates U kept o later BigNumber.zero Hunder Hover).
    reflexivity.
  - intros Hunder.
    unfold OrderBookChart.filterSellOrders. simpl skipn. fold U.
    rewrite (filterLoop_keeps_all U rest BigNumber.zero Hunder).
    reflexivity.
Qed.

(** ** What the orders are worth *)

Section Worth.

Import BigNumber Vocabulary OrderBookChart.

Lemma notional_is_worth (o : Order) : numeric o -> notional o = Fin (worth o).
Proof.
  intros [[b Hb] [p Hp]]. unfold notional, worth. rewrite Hb, Hp. reflexivity.
Qed.

Lemma Qsum_app (xs ys : list Q) : Qsum (xs ++ ys) == Qsum xs + Qsum ys.
Proof.
  induction xs as [|x xs IH]; simpl; [ring|]. rewrite IH. ring.
Qed.

(** The running total of the filter is the sum of what the orders are
    worth. *)
Lemma running_total (xs : list Order) :
  Forall numeric xs ->
  exists r, cumulative xs = Fin r /\ r == Qsum (map worth xs).
Proof.
  intros Hxs. unfold cumulative, zero.
  assert (forall a, exists r,
             fold_left plus (map notional xs) (Fin a) = Fin r
             /\ r == a + Qsum (map worth xs)) as Hfrom.
  { induction Hxs as [|o xs Ho _ IH]; intros a; simpl.
    - exists a. split; [reflexivity | ring].
    - rewrite (notional_is_worth o Ho). simpl.
      destruct (IH (a + worth o)) as (r & Hr & Heq).
      exists r. split; [exact Hr|]. rewrite Heq. ring. }
  destruct (Hfrom 0) as (r & Hr & Heq).
  exists r. split; [exact Hr|]. rewrite Heq. ring.
Qed.

Lemma numeric_firstn (xs : list Order) (n : nat) :
  Forall numeric xs -> Forall numeric (firstn n xs).
Proof.
  intros Hxs. apply Forall_forall. intros o Ho.
  rewrite Forall_forall in Hxs. apply Hxs.
  rewrite <- (firstn_skipn n xs). apply in_or_app. now left.
Qed.

(** The quotient of the cap by a price, times the price, is the cap to
    within half a unit of the 20th decimal times the price. *)
Lemma quotient_misses_by_a_rounding (cap p : Q) :
  ~ p == 0 ->
  Qabs (round_dp 20 (cap / p) * p - cap)
  <= Qabs p * ((1 # 2) / inject_Z (pow10 20)).
Proof.
  intros Hp.
  pose proof (round_dp_lower 20 (cap / p)) as Hlo.
  pose proof (round_dp_upper 20 (cap / p)) as Hhi.
  set (v := round_dp 20 (cap / p)) in *.
  set (h := (1 # 2) / inject_Z (pow10 20)) in *.
  setoid_replace (v * p - cap) with (p * (v - cap / p)) by (field; exact Hp).
  rewrite Qabs_Qmult, (Qmult_comm (Qabs p) (Qabs (v - cap / p))),
    (Qmult_comm (Qabs p) h).
  apply Qmult_le_compat_r; [|apply Qabs_nonneg].
  apply Qabs_Qle_condition. split; lra.
Qed.

End Worth.

(** C8, the counterexample.  Under a depth of 10 the cap is 15.  Of the
    five orders, worth 1, 2, 6, 35 and 1, the filter keeps the first two
    and the third, cuts the fourth, whose price is 7, and drops the fifth.
    The balance of the fourth is rewritten to 2.14285714285714285714, the
    quotient of 15 by 7 rounded to 20 decimals, which is not 15 divided by
    7: at its price the rewritten order is worth 14.99999999999999999998,
    and does not reach the cap. *)
Lemma cut_balance_misses_the_cap :
  OrderBookChart.filterSellOrders (BigNumber.Fin 10) Sample.long_tail
  = ([Some (Sample.order false "t1" 1 1); Some (Sample.order false "t2" 1 2);
      Some (Sample.order false "t3" 2 3);
      Some (Sample.order false "t4" 2.14285714285714285714 7)],
     true)
  /\ BigNumber.isEqualTo (BigNumber.times (BigNumber.Fin 10) (BigNumber.Fin 1.5))
       (BigNumber.Fin 15) = true
  /\ ~ 2.14285714285714285714 == 15 / 7
  /\ BigNumber.times (BigNumber.Fin 2.14285714285714285714) (BigNumber.Fin 7)
     = BigNumber.Fin 14.99999999999999999998
  /\ BigNumber.isEqualTo (BigNumber.Fin 14.99999999999999999998) (BigNumber.Fin 15)
     = false.
Proof.
  split; [vm_compute; reflexivity|].
  split; [vm_compute; reflexivity|].
  split; [intros H; vm_compute in H; discriminate H|].
  split; vm_compute; reflexivity.
Qed.

(** C8, as the code has it.  Let the depth of the other side be a number
    [d] and the cap [U] be 1.5 [d], and let the balances and prices of the
    orders from the third on be numbers.  The filter keeps the first two
    orders whatever they are, then each further order for as long as the
    running total of balance times price, counted from the third order on,
    stays at most [U].  The first order that takes the total past [U] is
    kept with its balance rewritten to the quotient of [U] by its price
    rounded to 20 decimals, its other fields unchanged; the [truncated] flag
    is set, and the orders after it are dropped.  The rewritten balance
    times the price is [U] to within half a unit of the 20th decimal times
    the price, and not [U] itself.  If no order takes the total past [U],
    every order is kept and the flag stays unset. *)
Theorem filter_keeps_orders_up_to_the_cap
    (d : Q) (o0 o1 : Order) (rest : list Order) :
  Forall Vocabulary.numeric rest ->
  let U := d * 1.5 in
  (forall kept o later b p,
      rest = kept ++ o :: later ->
      balance o = BigNumber.Fin b -> price o = BigNumber.Fin p -> ~ p == 0 ->
      (forall n, (1 <= n <= length kept)%nat ->
         Vocabulary.Qsum (map Vocabulary.worth (firstn n kept)) <= U) ->
      U < Vocabulary.Qsum (map Vocabulary.worth kept) + b * p ->
      OrderBookChart.filterSellOrders (BigNumber.Fin d) (o0 :: o1 :: rest)
      = (Some o0 :: Some o1
           :: map Some
                (kept
                 ++ [{| contract := contract o;
                        transaction := transaction o;
                        balance := BigNumber.Fin (BigNumber.round_dp 20 (U / p));
                        price := BigNumber.Fin p;
                        buytoken := buytoken o;
                        selltoken := selltoken o |}]),
         true)
      /\ Qabs (BigNumber.round_dp 20 (U / p) * p - U)
         <= Qabs p * ((1 # 2) / inject_Z (BigNumber.pow10 20)))
  /\ ((forall n, (1 <= n <= length rest)%nat ->
         Vocabulary.Qsum (map Vocabulary.worth (firstn n rest)) <= U) ->
      OrderBookChart.filterSellOrders (BigNumber.Fin d) (o0 :: o1 :: rest)
      = (Some o0 :: Some o1 :: map Some rest, false)).
Proof.
  intros Hnum U.
  destruct (filterSellOrders_cuts (BigNumber.Fin d) o0 o1 rest) as [Hcut Hall].
  change (BigNumber.times (BigNumber.Fin d) (BigNumber.Fin 1.5))
    with (BigNumber.Fin U) in Hcut, Hall.
  split.
  - intros kept o later b p Hrest Hb Hp Hp0 Hunder Hover.
    rewrite Hrest in Hnum. apply Forall_app in Hnum. destruct Hnum as [Hkept Hnum].
    apply Forall_cons_iff in Hnum. destruct Hnum as [Ho _].
    split; [|now apply quotient_misses_by_a_rounding].
    rewrite (Hcut kept o later Hrest).
    + unfold set_balance. rewrite Hp. unfold BigNumber.dividedBy.
      rewrite is_zero_false by exact Hp0. reflexivity.
    + intros n Hn.
      destruct (running_total (firstn n kept) (numeric_firstn kept n Hkept))
        as (r & -> & Hr).
      apply lte_Fin. rewrite Hr. now apply Hunder.
    + destruct (running_total (kept ++ [o])) as (r & -> & Hr).
      { apply Forall_app. split; [exact Hkept|]. now constructor. }
      apply lte_Fin_false. rewrite Hr, map_app, Qsum_app. simpl.
      unfold Vocabulary.worth at 2. rewrite Hb, Hp. lra.
  - intros Hunder. apply Hall. intros n Hn.
    destruct (running_total (firstn n rest) (numeric_firstn rest n Hnum))
      as (r & -> & Hr).
    apply lte_Fin. rewrite Hr. now apply Hunder.
Qed.

(** C8 at the five orders of the counterexample, under a cap of 15, where
    the third order is kept, the fourth is cut and the fifth is dropped, and
    under a cap of 1500, where all are kept. *)
Lemma filter_keeps_orders_up_to_the_cap_witness :
  OrderBookChart.filterSellOrders (BigNumber.Fin 10) Sample.long_tail
  = ([Some (Sample.order false "t1" 1 1); Some (Sample.order false "t2" 1 2);
      Some (Sample.order false "t3" 2 3);
      Some (Sample.order false "t4" 2.14285714285714285714 7)],
     true)
  /\ Qabs (2.14285714285714285714 * 7 - 15)
     <= Qabs 7 * ((1 # 2) / inject_Z (BigNumber.pow10 20))
  /\ OrderBookChart.filterSellOrders (BigNumber.Fin 1000) Sample.long_tail
     = (map Some Sample.long_tail, false).
Proof.
  assert (Forall Vocabulary.numeric
            [Sample.order false "t3" 2 3; Sample.order false "t4" 5 7;
             Sample.order false "t5" 1 1]) as Hnum
    by (repeat constructor; eexists; reflexivity).
  destruct (proj1 (filter_keeps_orders_up_to_the_cap
                     10 (Sample.order false "t1" 1 1) (Sample.order false "t2" 1 2)
                     _ Hnum)
              [Sample.order false "t3" 2 3] (Sample.order false "t4" 5 7)
              [Sample.order false "t5" 1 1] 5 7 eq_refl eq_refl eq_refl)
    as [Hcut Hworth].
  - intros H. vm_compute in H. discriminate H.
  - intros n Hn. simpl in Hn. assert (n = 1%nat) as -> by lia.
    vm_compute. discriminate.
  - vm_compute. reflexivity.
  - split; [|split].
    + refine (eq_trans Hcut _). vm_compute. reflexivity.
    + refine (Qle_trans _ _ _ _ Hworth). vm_compute. discriminate.
    + refine (proj2 (filter_keeps_orders_up_to_the_cap
                       1000 (Sample.order false "t1" 1 1)
                       (Sample.order false "t2" 1 2) _ Hnum) _).
      intros n Hn. simpl in Hn.
      assert (n = 1 \/ n = 2 \/ n = 3)%nat as [-> | [-> | ->]] by lia;
        vm_compute; discriminate.
Defined.

(** ** New quotes *)

Section Quotes.

Import BigNumber Vocabulary.
Variable this : MarketMaker.t.
Variable env : Env.

Lemma newBuys_quote (a : ActionType) :
  let mid := MarketMaker.weightedMidMarketPrice this env in
  let half := dividedBy (MarketMaker.spread this env) (of_Z 2) in
  let dec := MarketMaker.tokenDecimals this env in
  In a (MarketMaker.newBuys this env) ->
  lte (minus mid half) (MarketMaker.bestBuyPrice this env) = false
  /\ a = IsCreateOrder
           {| CreateOrder.type := NewOrder;
              CreateOrder.blockchain := MarketMaker.blockchain this;
              CreateOrder.order_type := buy;
              CreateOrder.amount :=
                toFixed (Some dec)
                  (dividedBy (MarketMaker.availableEther this env) (minus mid half));
              CreateOrder.price :=
                toFixed (Some MarketMaker.PRICEDECIMALS) (minus mid half) |}.
Proof.
  intros mid half dec. unfold MarketMaker.newBuys. fold mid half dec.
  destruct (isLessThanOrEqualTo _ _); [intros []|].
  destruct (lte (minus mid half) _); [intros []|].
  intros [<-|[]]. split; reflexivity.
Qed.

Lemma newSells_quote (a : ActionType) :
  let mid := MarketMaker.weightedMidMarketPrice this env in
  let half := dividedBy (MarketMaker.spread this env) (of_Z 2) in
  let dec := MarketMaker.tokenDecimals this env in
  In a (MarketMaker.newSells this env) ->
  gte (plus mid half) (MarketMaker.bestSellPrice this env) = false
  /\ a = IsCreateOrder
           {| CreateOrder.type := NewOrder;
              CreateOrder.blockchain := MarketMaker.blockchain this;
              CreateOrder.order_type := sell;
              CreateOrder.amount :=
                toFixed (Some dec)
                  (minus (MarketMaker.availableTokens this env)
                     (MarketMaker.tokensLockedForAddress this env
                        (MarketMaker.botAddress this)));
              CreateOrder.price :=
                toFixed (Some MarketMaker.PRICEDECIMALS) (plus mid half) |}.
Proof.
  intros mid half dec. unfold MarketMaker.newSells. fold mid half dec.
  destruct (isLessThanOrEqualTo _ _); [intros []|].
  destruct (gte (plus mid half) _); [intros []|].
  intros [<-|[]]. split; reflexivity.
Qed.

Lemma newOrders_split (a : ActionType) :
  In a (MarketMaker.newOrders this env) ->
  In a (MarketMaker.newBuys this env) \/ In a (MarketMaker.newSells this env).
Proof.
  unfold MarketMaker.newOrders.
  destruct (lte _ _); [intros []|]. apply in_app_or.
Qed.

End Quotes.

(** C4, the counterexample.  With a configured spread of 0.1 and a market
    spread of 0.2 the buy quote is priced at the weighted mid price minus
    0.1, half the market spread, and not at the weighted mid price minus
    0.05, half the configured spread. *)
Lemma buy_quote_ignores_configured_spread :
  exists c : CreateOrder.t,
    MarketMaker.newBuys Sample.mm Sample.env_deep_bids = [IsCreateOrder c]
    /\ CreateOrder.order_type c = buy
    /\ MarketMaker.weightedMidMarketPrice Sample.mm Sample.env_deep_bids
       = BigNumber.Fin 1.12063492063492063492
    /\ MarketMakerConfig.spread (MarketMaker.config Sample.mm) = BigNumber.Fin 0.1
    /\ MarketMaker.spread Sample.mm Sample.env_deep_bids = BigNumber.Fin (1.2 - 1)
    /\ CreateOrder.price c = BigNumber.Fin 1.020635
    /\ BigNumber.isEqualTo (CreateOrder.price c)
         (BigNumber.toFixed (Some MarketMaker.PRICEDECIMALS)
            (BigNumber.minus
               (MarketMaker.weightedMidMarketPrice Sample.mm Sample.env_deep_bids)
               (BigNumber.dividedBy
                  (MarketMakerConfig.spread (MarketMaker.config Sample.mm))
                  (BigNumber.of_Z 2)))) = false.
Proof. eexists. vm_compute. repeat split. Qed.

(** C4, as the code has it.  Whenever a new buy quote is posted, its price
    is the weighted mid price minus half of the current market spread (best
    sell price minus best buy price), and its amount is the available funds
    divided by that price; whenever a new sell quote is posted, its price is
    the weighted mid price plus half of the current market spread and its
    amount is the available tokens less those locked in own sell orders.
    Prices are rounded to 6 decimals and amounts to the decimals of the
    token.  The configured spread takes no part in the price. *)
Theorem quotes_use_half_the_market_spread (this : MarketMaker.t) (env : Env) :
  let mid := MarketMaker.weightedMidMarketPrice this env in
  let half := BigNumber.dividedBy (MarketMaker.spread this env) (BigNumber.of_Z 2) in
  let dec := MarketMaker.tokenDecimals this env in
  forall a, In a (MarketMaker.newOrders this env) ->
    a = IsCreateOrder
          {| CreateOrder.type := NewOrder;
             CreateOrder.blockchain := MarketMaker.blockchain this;
             CreateOrder.order_type := buy;
             CreateOrder.amount :=
               BigNumber.toFixed (Some dec)
                 (BigNumber.dividedBy (MarketMaker.availableEther this env)
                    (BigNumber.minus mid half));
             CreateOrder.price :=
               BigNumber.toFixed (Some 6%nat) (BigNumber.minus mid half) |}
    \/ a = IsCreateOrder
             {| CreateOrder.type := NewOrder;
                CreateOrder.blockchain := MarketMaker.blockchain this;
                CreateOrder.order_type := sell;
                CreateOrder.amount :=
                  BigNumber.toFixed (Some dec)
                    (BigNumber.minus (MarketMaker.availableTokens this env)
                       (MarketMaker.tokensLockedForAddress this env
                          (MarketMaker.botAddress this)));
                CreateOrder.price :=
                  BigNumber.toFixed (Some 6%nat) (BigNumber.plus mid half) |}.
Proof.
  intros mid half dec a Ha.
  apply newOrders_split in Ha. destruct Ha as [Ha|Ha].
  - left. apply newBuys_quote in Ha. apply Ha.
  - right. apply newSells_quote in Ha. apply Ha.
Qed.



(** C4 at the buy quote of the market with the deeper bids. *)
Lemma quotes_use_half_the_market_spread_witness :
  BigNumber.Fin 1.020635
  = BigNumber.toFixed (Some 6%nat)
      (BigNumber.minus
         (MarketMaker.weightedMidMarketPrice Sample.mm Sample.env_deep_bids)
         (BigNumber.dividedBy (MarketMaker.spread Sample.mm Sample.env_deep_bids)
            (BigNumber.of_Z 2))).
Proof.
  pose (a := IsCreateOrder
               {| CreateOrder.type := NewOrder;
                  CreateOrder.blockchain := "ETH";
                  CreateOrder.order_type := buy;
                  CreateOrder.amount := BigNumber.Fin 4;
                  CreateOrder.price := BigNumber.Fin 1.020635 |}).
  assert (In a (MarketMaker.newOrders Sample.mm Sample.env_deep_bids)) as Hin
    by (vm_compute; left; reflexivity).
  destruct (quotes_use_half_the_market_spread Sample.mm Sample.env_deep_bids a Hin)
    as [H|H].
  - exact (f_equal (fun x => match x with
                             | IsCreateOrder c => CreateOrder.price c
                             | _ => BigNumber.NaN
                             end) H).
  - exfalso.
    assert (buy = sell) as Hside
      by exact (f_equal (fun x => match x with
                                  | IsCreateOrder c => CreateOrder.order_type c
                                  | _ => buy
                                  end) H).
    discriminate Hside.
Defined.


(** ** The token limit *)

Section Limit.

Import BigNumber Vocabulary.

Lemma pow_ten_positive (d : nat) :
  exists q, MarketMaker.pow (of_Z 10) d = Fin q /\ 0 < q.
Proof.
  induction d as [|d [q [Hq Hpos]]]; simpl.
  - exists 1. split; [reflexivity | lra].
  - rewrite Hq. simpl. exists (q * inject_Z 10). split; [reflexivity|].
    change (inject_Z 10) with 10. lra.
Qed.

(** A sum of non-negative numbers, begun at a number, is a number that is
    no smaller. *)
Lemma sum_nonneg {A : Type} (f : A -> BigNumber) (xs : list A) (acc : Q) :
  Forall (fun x => exists v, f x = Fin v /\ 0 <= v) xs ->
  exists r, fold_left plus (map f xs) (Fin acc) = Fin r /\ acc <= r.
Proof.
  intros Hxs. revert acc.
  induction Hxs as [|x xs [v [Hv Hpos]] _ IH]; intros acc; simpl.
  - exists acc. split; [reflexivity | lra].
  - rewrite Hv. simpl. destruct (IH (acc + v)) as [r [Hr Hle]].
    exists r. split; [exact Hr | lra].
Qed.

(** The minimum of numbers is a number below each of them. *)
Lemma maxOrMin_gt_below (m : Q) (args : list BigNumber) :
  Forall finite args ->
  exists r, maxOrMin gt (Fin m) args = Fin r
            /\ r <= m
            /\ Forall (fun x => exists q, x = Fin q /\ r <= q) args.
Proof.
  intros Hargs. revert m.
  induction Hargs as [|x args [q ->] _ IH]; intros m; simpl.
  - exists m. repeat split; [lra | constructor].
  - destruct (gt (Fin m) (Fin q)) eqn:Hgt.
    + apply gt_Fin in Hgt. destruct (IH q) as [r [Hr [Hle Hall]]].
      exists r. repeat split; [exact Hr | lra |].
      constructor; [exists q; split; [reflexivity | lra] | exact Hall].
    + assert (m <= q) as Hmq.
      { apply Qnot_lt_le. intros Hlt. apply gt_Fin in Hlt. congruence. }
      destruct (IH m) as [r [Hr [Hle Hall]]].
      exists r. repeat split; [exact Hr | lra |].
      constructor; [exists q; split; [reflexivity | lra] | exact Hall].
Qed.

Variable this : MarketMaker.t.
Variable env : Env.
Variable limit : Q.
Hypothesis Hlimit :
  MarketMakerConfig.tokenLimit (MarketMaker.config this) = Fin limit.

Lemma availableTokens_below_limit :
  exists a, MarketMaker.availableTokens this env = Fin a /\ a <= limit.
Proof.
  unfold MarketMaker.availableTokens. rewrite Hlimit.
  destruct (pow_ten_positive (MarketMaker.tokenDecimals this env))
    as [q [-> Hq]].
  unfold MarketMaker.of_N, of_Z, dividedBy.
  rewrite is_zero_false by lra.
  unfold min.
  match goal with
  | |- exists a, maxOrMin gt (Fin ?m) _ = _ /\ _ =>
      destruct (maxOrMin_gt_below m [Fin limit]) as [r [Hr [_ Hall]]]
  end.
  - repeat constructor. now exists limit.
  - exists r. split; [exact Hr|].
    inversion Hall as [|x l [y [Hy Hle]] _]; subst.
    injection Hy as <-. exact Hle.
Qed.

End Limit.

(** C10, the counterexample.  With a token limit of 2.6 and a token without
    decimals the sell quote is for 3 tokens: the amount, 2.6, is rounded to
    the decimals of the token, and the rounding takes it above the limit.
    And the buy quote of the market with the deeper bids is for 4 tokens,
    the funds divided by the price: the token limit takes no part in the
    amount of a buy order. *)
Lemma quote_amounts_exceed_token_limit :
  (exists c : CreateOrder.t,
      MarketMaker.getActions Sample.mm Sample.env_deep_asks = inr [IsCreateOrder c]
      /\ MarketMaker.newSells Sample.mm Sample.env_deep_asks = [IsCreateOrder c]
      /\ CreateOrder.order_type c = sell
      /\ MarketMakerConfig.tokenLimit (MarketMaker.config Sample.mm) = BigNumber.Fin 2.6
      /\ MarketMaker.availableTokens Sample.mm Sample.env_deep_asks = BigNumber.Fin 2.6
      /\ CreateOrder.amount c = BigNumber.Fin 3
      /\ BigNumber.gt (CreateOrder.amount c)
           (MarketMakerConfig.tokenLimit (MarketMaker.config Sample.mm)) = true)
  /\ (exists c : CreateOrder.t,
        MarketMaker.getActions Sample.mm Sample.env_deep_bids = inr [IsCreateOrder c]
        /\ CreateOrder.order_type c = buy
        /\ CreateOrder.amount c = BigNumber.Fin 4
        /\ BigNumber.gt (CreateOrder.amount c)
             (MarketMakerConfig.tokenLimit (MarketMaker.config Sample.mm)) = true).
Proof. split; eexists; vm_compute; repeat split. Qed.

(** C10, as the code has it.  When the token limit and the balances of the
    best orders are numbers and the balances of the own sell orders are
    non-negative numbers: the available tokens never exceed the token limit;
    no arbitrage [Trade] amount exceeds it; and the amount of a new sell
    order is the rounding, to the decimals of the token, of a quantity that
    never exceeds it.  The rounded amount is therefore at most the limit plus
    half a unit of the last decimal of the token, and at most the limit
    itself when the limit has no more decimals than the token.  Nothing is
    said of the amount of a new buy order, which the limit does not bound. *)
Theorem amounts_respect_token_limit
    (this : MarketMaker.t) (env : Env) (limit : Q) :
  MarketMakerConfig.tokenLimit (MarketMaker.config this) = BigNumber.Fin limit ->
  Vocabulary.finite (balance (MarketMaker.bestBuyOrder this env)) ->
  Vocabulary.finite (balance (MarketMaker.bestSellOrder this env)) ->
  Forall (fun o => exists v, balance o = BigNumber.Fin v /\ 0 <= v)
    (Vocabulary.ownSells this env) ->
  let dec := MarketMaker.tokenDecimals this env in
  BigNumber.lte (MarketMaker.availableTokens this env) (BigNumber.Fin limit) = true
  /\ (forall t, In (IsTrade t) (MarketMaker.checkArbOpportunity this env) ->
        BigNumber.lte (Trade.amount t) (BigNumber.Fin limit) = true)
  /\ (forall c, In (IsCreateOrder c) (MarketMaker.newSells this env) ->
        exists f,
          CreateOrder.amount c = BigNumber.Fin (BigNumber.round_dp dec f)
          /\ f <= limit
          /\ BigNumber.round_dp dec f
             <= limit + (1 # 2) / inject_Z (BigNumber.pow10 dec)
          /\ (forall k, limit * inject_Z (BigNumber.pow10 dec) == inject_Z k ->
                BigNumber.round_dp dec f <= limit)).
Proof.
  intros Hlimit Hbb Hbs Hown dec.
  destruct (availableTokens_below_limit this env limit Hlimit) as [a [Ha Hle]].
  split; [|split].
  - rewrite Ha. now apply lte_Fin.
  - intros t Ht. unfold MarketMaker.checkArbOpportunity in Ht.
    destruct (BigNumber.lte _ _); [|destruct Ht].
    destruct (BigNumber.isEqualTo _ _); [destruct Ht|].
    assert (exists r,
               BigNumber.min [balance (MarketMaker.bestBuyOrder this env);
                              balance (MarketMaker.bestSellOrder this env);
                              MarketMaker.availableTokens this env]
               = BigNumber.Fin r /\ r <= limit) as [r [Hr Hrl]].
    { destruct Hbb as [x ->]. rewrite Ha. unfold BigNumber.min.
      destruct (maxOrMin_gt_below x
                  [balance (MarketMaker.bestSellOrder this env); BigNumber.Fin a])
        as [r [Hr [_ Hall]]].
      - constructor; [exact Hbs|]. constructor; [now exists a | constructor].
      - exists r. split; [exact Hr|].
        inversion Hall as [|? ? _ Hall']; subst.
        inversion Hall' as [|? ? [y [Hy Hry]] _]; subst.
        injection Hy as <-. lra. }
    rewrite toFixed_all_digits, Hr in Ht.
    destruct Ht as [Ht|[Ht|[]]]; injection Ht as <-; simpl; now apply lte_Fin.
  - intros c Hc. apply newSells_quote in Hc. destruct Hc as [_ Hc].
    injection Hc as ->. simpl. fold dec.
    destruct (sum_nonneg (fun order : Order => balance order)
                (Vocabulary.ownSells this env) 0 Hown) as [l [Hl Hpos]].
    unfold MarketMaker.tokensLockedForAddress.
    change (sells (MarketMaker.fetchOrdersFor this env (MarketMaker.botAddress this)))
      with (Vocabulary.ownSells this env).
    unfold BigNumber.zero. rewrite Hl, Ha. simpl.
    exists (a - l). split; [reflexivity|].
    assert (a - l <= limit) as Hf by lra.
    split; [exact Hf|]. split.
    + eapply Qle_trans; [apply round_dp_upper|].
      apply Qplus_le_l. exact Hf.
    + intros k Hk. eapply round_dp_below_grid; eassumption.
Qed.

(** C10 at the market with the deeper asks, under a token limit of 2.6. *)
Lemma amounts_respect_token_limit_witness :
  BigNumber.lte (MarketMaker.availableTokens Sample.mm Sample.env_deep_asks)
    (BigNumber.Fin 2.6) = true
  /\ (exists f, BigNumber.Fin 3 = BigNumber.Fin (BigNumber.round_dp 0 f)
                /\ f <= 2.6
                /\ BigNumber.round_dp 0 f <= 2.6 + (1 # 2) / inject_Z (BigNumber.pow10 0)).
Proof.
  assert (MarketMakerConfig.tokenLimit (MarketMaker.config Sample.mm)
          = BigNumber.Fin 2.6) as H1 by reflexivity.
  assert (Vocabulary.finite
            (balance (MarketMaker.bestBuyOrder Sample.mm Sample.env_deep_asks))) as H2
    by (eexists; vm_compute; reflexivity).
  assert (Vocabulary.finite
            (balance (MarketMaker.bestSellOrder Sample.mm Sample.env_deep_asks))) as H3
    by (eexists; vm_compute; reflexivity).
  assert (Forall (fun o => exists v, balance o = BigNumber.Fin v /\ 0 <= v)
            (Vocabulary.ownSells Sample.mm Sample.env_deep_asks)) as H4
    by (vm_compute; constructor).
  pose proof (amounts_respect_token_limit Sample.mm Sample.env_deep_asks 2.6
                H1 H2 H3 H4) as [Hav [_ Hsell]].
  split; [exact Hav|].
  destruct (Hsell {| CreateOrder.type := NewOrder;
                     CreateOrder.blockchain := "ETH";
                     CreateOrder.order_type := sell;
                     CreateOrder.amount := BigNumber.Fin 3;
                     CreateOrder.price := BigNumber.Fin 1.155072 |})
    as [f [Hf [Hle [Hup _]]]].
  - vm_compute. left. reflexivity.
  - exists f. repeat split; assumption.
Defined.

(** ** Numbers that are integers *)

Section Integers.

Import BigNumber Vocabulary.

Lemma integer_of_Z (z : Z) : integer (Fin (inject_Z z)) z.
Proof. exists (inject_Z z). split; reflexivity. Qed.

Lemma integer_zero : integer zero 0.
Proof. exists 0. split; reflexivity. Qed.

Lemma integer_one : integer OrderBookChart.one 1.
Proof. exists 1. split; reflexivity. Qed.

Lemma integer_sub (x y : Js.number) (a b : Z) :
  integer x a -> integer y b -> integer (Js.sub x y) (a - b).
Proof.
  intros [p [-> Hp]] [q [-> Hq]]. exists (p - q). split; [reflexivity|].
  unfold Z.sub. rewrite inject_Z_plus, inject_Z_opp, Hp, Hq. reflexivity.
Qed.

Lemma integer_add (x y : Js.number) (a b : Z) :
  integer x a -> integer y b -> integer (Js.add x y) (a + b).
Proof.
  intros [p [-> Hp]] [q [-> Hq]]. exists (p + q). split; [reflexivity|].
  rewrite inject_Z_plus, Hp, Hq. reflexivity.
Qed.

Lemma integer_round (q : Q) :
  integer (Js.Math_round (Fin q)) (Qfloor (q + (1 # 2))).
Proof. apply integer_of_Z. Qed.

Lemma integer_abs (x : Js.number) (z : Z) :
  integer x z -> (0 <= z)%Z -> integer (Js.Math_abs x) z.
Proof.
  intros [q [-> Hq]] Hz. exists (Qabs q). split; [reflexivity|].
  rewrite Qabs_pos; [exact Hq|].
  rewrite Hq. change 0 with (inject_Z 0). now rewrite <- Zle_Qle.
Qed.

Lemma integer_index (x : Js.number) (z : Z) :
  integer x z -> (0 <= z)%Z -> Js.index x = Some (Z.to_nat z).
Proof.
  intros [q [-> Hq]] Hz. unfold Js.index.
  assert (Qfloor q = z) as Hfloor by (rewrite Hq; apply Qfloor_Z).
  rewrite Hfloor.
  assert (Qeq_bool q (inject_Z z) = true) as -> by now apply Qeq_bool_iff.
  assert (Qle_bool 0 q = true) as ->.
  { apply Qle_bool_iff. rewrite Hq. change 0 with (inject_Z 0).
    now rewrite <- Zle_Qle. }
  reflexivity.
Qed.

Lemma integer_compare (x y : Js.number) (a b : Z) :
  integer x a -> integer y b -> compare x y = Some (a ?= b)%Z.
Proof.
  intros [p [-> Hp]] [q [-> Hq]]. simpl. f_equal.
  rewrite Hp, Hq. unfold Qcompare. simpl. now rewrite !Z.mul_1_r.
Qed.

Lemma integer_eq (x y : Js.number) (a b : Z) :
  integer x a -> integer y b -> Js.eq x y = (a =? b)%Z.
Proof.
  intros Hx Hy. unfold Js.eq, isEqualTo. rewrite (integer_compare x y a b Hx Hy).
  rewrite Z.eqb_compare. destruct (a ?= b)%Z; reflexivity.
Qed.

Lemma integer_min (x y : Js.number) (a b : Z) :
  integer x a -> integer y b -> integer (Js.Math_min x y) (Z.min a b).
Proof.
  intros Hx Hy. unfold Js.Math_min, Js.lt, lt.
  rewrite (integer_compare y x b a Hy Hx).
  destruct Hx as [p [-> Hp]], Hy as [q [-> Hq]]. simpl.
  destruct (Z.compare_spec b a).
  - exists p. split; [reflexivity|]. now replace (Z.min a b) with a by lia.
  - exists q. split; [reflexivity|]. now replace (Z.min a b) with b by lia.
  - exists p. split; [reflexivity|]. now replace (Z.min a b) with a by lia.
Qed.

Lemma integer_max (x y : Js.number) (a b : Z) :
  integer x a -> integer y b -> integer (Js.Math_max x y) (Z.max a b).
Proof.
  intros Hx Hy. unfold Js.Math_max, Js.gt, gt.
  rewrite (integer_compare y x b a Hy Hx).
  destruct Hx as [p [-> Hp]], Hy as [q [-> Hq]]. simpl.
  destruct (Z.compare_spec b a).
  - exists p. split; [reflexivity|]. now replace (Z.max a b) with a by lia.
  - exists p. split; [reflexivity|]. now replace (Z.max a b) with a by lia.
  - exists q. split; [reflexivity|]. now replace (Z.max a b) with b by lia.
Qed.

Lemma integer_count_lt (x y : Js.number) (a b : Z) :
  integer x a -> integer y b -> OrderBookChart.count_lt x y = Z.to_nat (b - a).
Proof.
  intros [p [-> Hp]] [q [-> Hq]]. unfold OrderBookChart.count_lt. f_equal.
  assert (q - p == inject_Z (b - a)) as ->.
  { unfold Z.sub. rewrite inject_Z_plus, inject_Z_opp, Hp, Hq. reflexivity. }
  apply Qceiling_Z.
Qed.

Lemma integer_count_le (x y : Js.number) (a b : Z) :
  integer x a -> integer y b ->
  OrderBookChart.count_le x y = Z.to_nat (b - a + 1).
Proof.
  intros [p [-> Hp]] [q [-> Hq]]. unfold OrderBookChart.count_le. do 2 f_equal.
  assert (q - p == inject_Z (b - a)) as ->.
  { unfold Z.sub. rewrite inject_Z_plus, inject_Z_opp, Hp, Hq. reflexivity. }
  apply Qfloor_Z.
Qed.

(** The conversion to a double keeps a number inside the range of the
    doubles, or takes it to 0 when its magnitude is below every double. *)
Lemma toNumber_in_range (q : Q) :
  Qabs q < DOUBLE_OVERFLOW ->
  toNumber (Fin q) = Fin q
  \/ (toNumber (Fin q) = Fin 0 /\ Qabs q <= DOUBLE_UNDERFLOW).
Proof.
  intros Hq. unfold toNumber.
  destruct (Qle_bool (Qabs q) DOUBLE_UNDERFLOW) eqn:Htiny.
  - right. split; [reflexivity|]. now apply Qle_bool_iff.
  - destruct (Qle_bool DOUBLE_OVERFLOW (Qabs q)) eqn:Hhuge; [|now left].
    apply Qle_bool_iff in Hhuge. lra.
Qed.

Lemma underflow_below_half : DOUBLE_UNDERFLOW < 1 # 2.
Proof. reflexivity. Qed.

Lemma overflow_above_16 : 16 < DOUBLE_OVERFLOW.
Proof. reflexivity. Qed.

(** Rounding what the conversion leaves of a number rounds the number. *)
Lemma integer_round_toNumber (q : Q) :
  Qabs q < DOUBLE_OVERFLOW ->
  integer (Js.Math_round (toNumber (Fin q))) (Qfloor (q + (1 # 2))).
Proof.
  intros Hq. destruct (toNumber_in_range q Hq) as [->|[-> Htiny]].
  - apply integer_round.
  - pose proof underflow_below_half as Hhalf.
    apply Qabs_Qle_condition in Htiny. destruct Htiny as [Hlo Hhi].
    assert (Qfloor (q + (1 # 2)) = 0%Z) as ->.
    { apply Qfloor_unique.
      - change (inject_Z 0) with 0. lra.
      - change (inject_Z (0 + 1)) with 1. lra. }
    exists (inject_Z (Qfloor (0 + (1 # 2)))). split; reflexivity.
Qed.

Lemma integer_round_scaled (q : Q) :
  0 <= q -> q <= 16 ->
  integer (Js.Math_round (toNumber (Fin q))) (Qfloor (q + (1 # 2))).
Proof.
  intros Hq0 Hq16. apply integer_round_toNumber.
  pose proof overflow_above_16. rewrite Qabs_pos by exact Hq0. lra.
Qed.

End Integers.

(** ** Writing on the canvas *)

Section Canvas.

Import BigNumber Vocabulary OrderBookChart.

(** A loop whose body keeps an invariant and does not throw while the
    invariant holds does not throw. *)
Lemma forM_invariant {A S : Type} (Inv : S -> Prop) (body : A -> S -> Js.M S)
    (xs : list A) (s : S) :
  (forall x s0, In x xs -> Inv s0 -> exists s1, body x s0 = inr s1 /\ Inv s1) ->
  Inv s ->
  exists s', Js.forM xs body s = inr s' /\ Inv s'.
Proof.
  revert s. induction xs as [|x xs IH]; intros s Hbody Hs; simpl.
  - exists s. split; [reflexivity | exact Hs].
  - destruct (Hbody x s (or_introl eq_refl) Hs) as [s1 [-> Hs1]]. simpl.
    apply IH; [|exact Hs1].
    intros y s0 Hy. apply Hbody. now right.
Qed.

(** A write that does not throw names a row of the canvas: its subscript
    is a number, neither NaN nor infinite.  The bounds of the loops that
    draw vertical strokes have all been such subscripts. *)
Lemma put_names_a_row (result g : grid) (r : Js.number) (col : nat) (v : cell) :
  put result r col v = inr g ->
  exists q i, r = Fin q /\ Js.index r = Some i /\ (i < length result)%nat.
Proof.
  unfold put. destruct (Js.index r) as [i|] eqn:Hi; [|discriminate].
  destruct (nth_error result i) as [row|] eqn:Hrow; [|discriminate].
  intros _. destruct r as [q| |]; try discriminate.
  exists q, i. split; [reflexivity|]. split; [reflexivity|].
  apply nth_error_Some. congruence.
Qed.

Variable rows : Js.number.
Variable top : Z.
Hypothesis Hrows : integer rows top.

Lemma put_row (result : grid) (r : Js.number) (z : Z) (col : nat) (v : cell) :
  integer r z -> (0 <= z <= top)%Z -> canvas_of top result ->
  exists result', put result r col v = inr result' /\ canvas_of top result'.
Proof.
  intros Hr Hz Hcanvas. unfold canvas_of in *. unfold put.
  rewrite (integer_index r z Hr) by lia.
  destruct (nth_error result (Z.to_nat z)) as [row|] eqn:Hrow.
  - eexists. split; [reflexivity|].
    assert (Z.to_nat z < length result)%nat as Hlt
      by (apply nth_error_Some; congruence).
    rewrite length_app. cbn [length]. rewrite length_firstn, length_skipn. lia.
  - apply nth_error_None in Hrow. lia.
Qed.

Lemma put_from_top (result : grid) (y : Js.number) (z : Z) (col : nat) (v : cell) :
  integer y z -> (0 <= z <= top)%Z -> canvas_of top result ->
  exists result', put result (Js.sub rows y) col v = inr result' /\ canvas_of top result'.
Proof.
  intros Hy Hz. apply (put_row result (Js.sub rows y) (top - z)).
  - now apply integer_sub.
  - lia.
Qed.

Lemma vertical_ok (col : nat) (c : colour) (fuel : nat) :
  forall (y : Js.number) (z : Z) (result : grid),
    integer y z -> (0 <= z)%Z -> (z + Z.of_nat fuel <= top + 1)%Z ->
    canvas_of top result ->
    exists result',
      vertical fuel rows col c y result = inr result' /\ canvas_of top result'.
Proof.
  induction fuel as [|fuel IH]; intros y z result Hy Hz Hfuel Hcanvas; simpl.
  - exists result. split; [reflexivity | exact Hcanvas].
  - destruct (put_from_top result y z col (Mark c Vertical) Hy) as [r1 [-> Hr1]];
      [lia | exact Hcanvas |]. simpl.
    apply (IH (Js.add y one) (z + 1)%Z); [|lia|lia|exact Hr1].
    apply integer_add; [exact Hy | apply integer_one].
Qed.

Lemma stroke_ok (col : nat) (c : colour) (y0 y1 : Js.number) (a b : Z)
    (result : grid) :
  integer y0 a -> integer y1 b -> (0 <= a <= top)%Z -> (0 <= b <= top)%Z ->
  canvas_of top result ->
  exists result', stroke rows col c y0 y1 result = inr result' /\ canvas_of top result'.
Proof.
  intros Hy0 Hy1 Ha Hb Hcanvas. unfold stroke.
  destruct (Js.eq y0 y1).
  - now apply (put_from_top result y0 a).
  - destruct (put_from_top result y1 b col
                (Mark c (if Js.gt y0 y1 then ArcDownRight else ArcUpRight)) Hy1 Hb Hcanvas)
      as [r1 [-> Hr1]]. simpl.
    destruct (put_from_top r1 y0 a col
                (Mark c (if Js.gt y0 y1 then ArcRightDown else ArcRightUp)) Hy0 Ha Hr1)
      as [r2 [-> Hr2]]. simpl.
    pose proof (integer_min y0 y1 a b Hy0 Hy1) as Hmin.
    pose proof (integer_max y0 y1 a b Hy0 Hy1) as Hmax.
    pose proof (integer_add _ _ _ _ Hmin integer_one) as Hfrom.
    rewrite (integer_count_lt _ _ _ _ Hfrom Hmax).
    apply (vertical_ok col c _ _ (Z.min a b + 1)%Z); [exact Hfrom|lia|lia|exact Hr2].
Qed.

Lemma axis_ok (max range min2 : Js.number) (low : Z) (offset : nat) (fuel : nat) :
  integer min2 low ->
  forall (y : Js.number) (z : Z) (result : grid),
    integer y z -> (low <= z)%Z -> (z - low + Z.of_nat fuel <= top + 1)%Z ->
    canvas_of top result ->
    exists result',
      axis fuel max range rows min2 offset y result = inr result'
      /\ canvas_of top result'.
Proof.
  intros Hlow.
  induction fuel as [|fuel IH]; intros y z result Hy Hz Hfuel Hcanvas; simpl.
  - exists result. split; [reflexivity | exact Hcanvas].
  - pose proof (integer_sub y min2 z low Hy Hlow) as Hrow.
    match goal with
    | |- context [put result (Js.sub y min2) ?col ?v] =>
        destruct (put_row result (Js.sub y min2) (z - low) col v Hrow)
          as [r1 [-> Hr1]]; [lia | exact Hcanvas |]
    end.
    simpl.
    destruct (put_row r1 (Js.sub y min2) (z - low) (offset - 1)
                (Mark plain AxisTick) Hrow) as [r2 [-> Hr2]]; [lia | exact Hr1 |].
    simpl.
    apply (IH (Js.add y one) (z + 1)%Z); [|lia|lia|exact Hr2].
    apply integer_add; [exact Hy | apply integer_one].
Qed.

End Canvas.

(** ** Cumulative depths *)

Section Depths.

Import BigNumber Vocabulary OrderBookChart.

Lemma plottable_notional (o : Order) :
  plottable o -> notional o = Fin (qnotional o) /\ 0 <= qnotional o.
Proof.
  intros [b [p [Hb [Hp [Hb0 Hp0]]]]]. unfold qnotional, notional.
  rewrite Hb, Hp. simpl. split; [reflexivity|].
  apply Qmult_le_0_compat; lra.
Qed.

Lemma resting_plottable (o : Order) : resting o -> plottable o.
Proof.
  intros [b [p [Hb [Hp [Hb0 Hp0]]]]]. exists b, p. repeat split; try assumption.
  lra.
Qed.

Lemma resting_notional_positive (o : Order) : resting o -> 0 < qnotional o.
Proof.
  intros [b [p [Hb [Hp [Hb0 Hp0]]]]]. unfold qnotional, notional.
  rewrite Hb, Hp. simpl. apply Qmult_lt_0_compat; assumption.
Qed.

Lemma Qsum_nonneg (xs : list Order) :
  Forall plottable xs -> 0 <= Qsum (map qnotional xs).
Proof.
  induction 1 as [|o xs Ho _ IH]; simpl; [lra|].
  destruct (plottable_notional o Ho) as [_ Hpos]. lra.
Qed.

Lemma Qsum_firstn_le (xs : list Order) (k : nat) :
  Forall plottable xs ->
  0 <= Qsum (map qnotional (firstn k xs))
  /\ Qsum (map qnotional (firstn k xs)) <= Qsum (map qnotional xs).
Proof.
  intros Hxs. revert k.
  induction Hxs as [|o xs Ho Hxs IH]; intros [|k]; simpl; try lra.
  - destruct (plottable_notional o Ho) as [_ Hpos].
    pose proof (Qsum_nonneg xs Hxs). lra.
  - destruct (plottable_notional o Ho) as [_ Hpos].
    destruct (IH k). lra.
Qed.

(** The depth of a side is the sum of its notionals. *)
Lemma fold_plus_total (xs : list Order) (a : Q) :
  Forall plottable xs ->
  exists r, fold_left plus (map notional xs) (Fin a) = Fin r
            /\ r == a + Qsum (map qnotional xs).
Proof.
  intros Hxs. revert a.
  induction Hxs as [|o xs Ho _ IH]; intros a; simpl.
  - exists a. split; [reflexivity | ring].
  - destruct (plottable_notional o Ho) as [-> _]. simpl.
    destruct (IH (a + qnotional o)) as [r [Hr Heq]].
    exists r. split; [exact Hr|]. rewrite Heq. ring.
Qed.

Lemma forM_map {A B S : Type} (g : A -> B) (body : B -> S -> Js.M S)
    (xs : list A) (s : S) :
  Js.forM (map g xs) body s = Js.forM xs (fun x => body (g x)) s.
Proof.
  revert s. induction xs as [|x xs IH]; intros s; simpl; [reflexivity|].
  destruct (body (g x) s); simpl; [reflexivity | apply IH].
Qed.

(** One step of the loops of [buyDepthAtIndex] and [sellDepthAtIndex]. *)
Lemma walk_cons (op : BigNumber -> BigNumber -> BigNumber) (o : Order)
    (xs : orders) (k : nat) (acc : BigNumber) :
  Js.forM (seq 0 (S k))
    (fun i result =>
       e <- etherBalance (at_index (Some o :: xs) i) ;; Js.ret (op result e)) acc
  = Js.forM (seq 0 k)
      (fun i result =>
         e <- etherBalance (at_index xs i) ;; Js.ret (op result e))
      (op acc (notional o)).
Proof.
  simpl seq. rewrite <- seq_shift. simpl Js.forM.
  unfold Js.bind at 1. simpl. rewrite forM_map. reflexivity.
Qed.

Lemma walk_minus (xs : list Order) :
  Forall plottable xs ->
  forall (k : nat) (a : Q), (k <= length xs)%nat ->
    exists r,
      Js.forM (seq 0 k)
        (fun i result =>
           e <- etherBalance (at_index (map Some xs) i) ;; Js.ret (minus result e))
        (Fin a) = inr (Fin r)
      /\ r == a - Qsum (map qnotional (firstn k xs)).
Proof.
  induction 1 as [|o xs Ho _ IH]; intros k a Hk.
  - simpl in Hk. assert (k = 0%nat) as -> by lia.
    exists a. split; [reflexivity | simpl; ring].
  - destruct k as [|k].
    + exists a. split; [reflexivity | simpl; ring].
    + simpl map. rewrite walk_cons.
      destruct (plottable_notional o Ho) as [-> _]. simpl minus.
      destruct (IH k (a - qnotional o)) as [r [Hr Heq]]; [simpl in Hk; lia|].
      exists r. split; [exact Hr|]. rewrite Heq. simpl. ring.
Qed.

Lemma walk_plus (xs : list Order) :
  Forall plottable xs ->
  forall (k : nat) (a : Q), (k <= length xs)%nat ->
    exists r,
      Js.forM (seq 0 k)
        (fun i result =>
           e <- etherBalance (at_index (map Some xs) i) ;; Js.ret (plus result e))
        (Fin a) = inr (Fin r)
      /\ r == a + Qsum (map qnotional (firstn k xs)).
Proof.
  induction 1 as [|o xs Ho _ IH]; intros k a Hk.
  - simpl in Hk. assert (k = 0%nat) as -> by lia.
    exists a. split; [reflexivity | simpl; ring].
  - destruct k as [|k].
    + exists a. split; [reflexivity | simpl; ring].
    + simpl map. rewrite walk_cons.
      destruct (plottable_notional o Ho) as [-> _]. simpl plus.
      destruct (IH k (a + qnotional o)) as [r [Hr Heq]]; [simpl in Hk; lia|].
      exists r. split; [exact Hr|]. rewrite Heq. simpl. ring.
Qed.

Variable c : OrderBookChart.t.
Variables (bs ss : list Order) (d_buy d_sell : Q).
Hypothesis Hbuys : buys c = map Some bs.
Hypothesis Hsells : sells c = map Some ss.
Hypothesis Hbs : Forall plottable bs.
Hypothesis Hss : Forall plottable ss.
Hypothesis Hbuy : buyDepth c = Fin d_buy.
Hypothesis Hsell : sellDepth c = Fin d_sell.
Hypothesis Hbuy_sum : d_buy == Qsum (map qnotional bs).
Hypothesis Hsell_sum : d_sell == Qsum (map qnotional ss).

Lemma buyDepthAtIndex_ok (idx : nat) :
  (idx < length bs)%nat ->
  exists d, buyDepthAtIndex c idx = inr (Fin d) /\ 0 <= d <= d_buy.
Proof.
  intros Hidx. unfold buyDepthAtIndex. rewrite Hbuys, Hbuy.
  destruct (walk_minus bs Hbs (idx + 1) d_buy) as [r [Hr Heq]]; [lia|].
  exists r. split; [exact Hr|].
  destruct (Qsum_firstn_le bs (idx + 1) Hbs). lra.
Qed.

Lemma sellDepthAtIndex_ok (idx : nat) :
  (idx < length ss)%nat ->
  exists d, sellDepthAtIndex c idx = inr (Fin d) /\ 0 <= d <= d_sell.
Proof.
  intros Hidx. unfold sellDepthAtIndex. rewrite Hsells.
  destruct (walk_plus ss Hss (idx + 1) 0) as [r [Hr Heq]]; [lia|].
  exists r. split; [exact Hr|].
  destruct (Qsum_firstn_le ss (idx + 1) Hss). lra.
Qed.

End Depths.

(** ** The scale of the chart *)

Section Scale.

Import BigNumber Vocabulary OrderBookChart.

(** The ratio: 8 divided by a positive range, rounded to 20 decimals. *)
Lemma ratio_of_range (range : Q) :
  0 < range ->
  exists rho,
    dividedBy (of_Z 8) (Fin range) = Fin rho
    /\ 0 <= rho /\ range * rho <= 16.
Proof.
  intros Hpos. unfold dividedBy, of_Z.
  rewrite is_zero_false by lra.
  eexists. split; [reflexivity|]. split.
  - apply round_dp_nonneg. apply Qle_shift_div_l; [exact Hpos|].
    change (inject_Z 8) with 8. lra.
  - unfold round_dp.
    set (P := inject_Z (pow10 DECIMAL_PLACES)).
    set (x := inject_Z 8 / range * P).
    assert (0 < P) as HP by apply pow10_Qpos.
    assert (range * x == 8 * P) as Hx
      by (unfold x; change (inject_Z 8) with 8; field; lra).
    pose proof (round_half_up_upper x) as Hup.
    assert (0 <= x) as Hx0.
    { unfold x. apply Qmult_le_0_compat; [|lra].
      apply Qle_shift_div_l; [exact Hpos|]. change (inject_Z 8) with 8. lra. }
    pose proof (round_half_up_nonneg x Hx0) as Hk0.
    set (k := round_half_up x) in *.
    setoid_replace (range * (inject_Z k / P)) with (range * inject_Z k / P)
      by (field; lra).
    apply Qle_shift_div_r; [exact HP|].
    destruct (Z.eq_dec k 0) as [Hk|Hk].
    + rewrite Hk. change (inject_Z 0) with 0. lra.
    + assert (1 <= inject_Z k) as Hk1.
      { change 1 with (inject_Z 1). rewrite <- Zle_Qle. lia. }
      assert (range * inject_Z k <= range * (x + (1 # 2))) as H1
        by (apply Qmult_le_l; assumption).
      assert (range * (1 # 2) <= range * x) as H2
        by (apply Qmult_le_l; [exact Hpos | lra]).
      lra.
Qed.

Variables (range rho : Q).
Hypothesis Hrho : 0 <= rho.
Hypothesis Hbound : range * rho <= 16.

Lemma scaled_integer (low : Js.number) (d : Q) :
  integer low 0 ->
  0 <= d <= range ->
  exists y,
    integer (scaled (Fin rho) low (Fin d)) y
    /\ (0 <= y <= Qfloor (range * rho + (1 # 2)))%Z.
Proof.
  intros Hlow [Hd0 Hd1].
  assert (0 <= d * rho) by (apply Qmult_le_0_compat; assumption).
  assert (d * rho <= range * rho) by (apply Qmult_le_compat_r; assumption).
  exists (Qfloor (d * rho + (1 # 2)) - 0)%Z. split.
  - unfold scaled. apply integer_sub; [|exact Hlow].
    apply integer_round_scaled; lra.
  - 
    assert (0 <= Qfloor (d * rho + (1 # 2)))%Z by (apply Qfloor_nonneg; lra).
    assert (Qfloor (d * rho + (1 # 2)) <= Qfloor (range * rho + (1 # 2)))%Z
      by (apply Qfloor_resp_le; lra).
    lia.
Qed.

End Scale.

(** ** Plotting a drawable chart *)

Section Plot.

Import BigNumber Vocabulary OrderBookChart.

Lemma bind_inr {A B : Type} (a : A) (k : A -> Js.M B) : Js.bind (inr a) k = k a.
Proof. reflexivity. Qed.

Lemma new_Array_integer (n : Js.number) (z : Z) :
  integer n z -> (0 <= z <= 4294967295)%Z -> Js.new_Array n = inr (Z.to_nat z).
Proof.
  intros Hn Hz. unfold Js.new_Array. rewrite (integer_index n z Hn) by lia.
  rewrite Z2Nat.id by lia.
  destruct (Z.leb_spec z 4294967295); [reflexivity | lia].
Qed.

Lemma canvas_blank (top : Z) (width : nat) :
  (0 <= top)%Z ->
  canvas_of top (repeat (repeat Blank width) (Z.to_nat (top + 1))).
Proof. intros Htop. unfold canvas_of. rewrite repeat_length. lia. Qed.

Lemma plot_ok (c : OrderBookChart.t) :
  drawable c -> exists g, plot c = inr g.
Proof.
  intros (bs & ss & D & S & Hbuys & Hsells & Hbs & Hss & HD & HS
          & HDsum & HSsum & Hnb & Hns & HDpos).
  assert (0 <= S) as HSpos by (rewrite HSsum; now apply Qsum_nonneg).
  assert (exists R,
             (if gt (buyDepth c) (sellDepth c) then buyDepth c else sellDepth c)
             = Fin R /\ 0 < R /\ D <= R /\ S <= R) as (R & HR & HRpos & HDR & HSR).
  { rewrite HD, HS. destruct (gt (Fin D) (Fin S)) eqn:E.
    - apply gt_Fin in E. exists D. repeat split; lra.
    - assert (D <= S) as Hle.
      { apply Qnot_lt_le. intros Hlt. apply gt_Fin in Hlt. congruence. }
      exists S. repeat split; lra. }
  destruct (ratio_of_range R HRpos) as (rho & Hratio & Hrho & Hrho16).
  pose proof (buyDepthAtIndex_ok c bs D Hbuys Hbs HD HDsum) as Hbuy_at.
  pose proof (sellDepthAtIndex_ok c ss S Hsells Hss HSsum) as Hsell_at.
  assert (length (buys c) = length bs) as Hlb by (rewrite Hbuys; apply length_map).
  assert (length (sells c) = length ss) as Hls by (rewrite Hsells; apply length_map).
  unfold plot. cbv zeta. rewrite HR, Hratio, Hlb, Hls.
  set (min2 := Js.Math_round (toNumber (times zero (Fin rho)))).
  set (max2 := Js.Math_round (toNumber (times (Fin R) (Fin rho)))).
  set (rows := Js.Math_abs (Js.sub max2 min2)).
  set (top := Qfloor (R * rho + (1 # 2))).
  assert (0 <= R * rho) as HRrho by (apply Qmult_le_0_compat; lra).
  assert (integer min2 0) as Hmin2.
  { replace 0%Z with (Qfloor (0 * rho + (1 # 2))).
    - apply integer_round_scaled; lra.
    - apply Qfloor_unique.
      + change (inject_Z 0) with 0. lra.
      + change (inject_Z (0 + 1)) with 1. lra. }
  assert (integer max2 top) as Hmax2 by (apply integer_round_scaled; lra).
  assert (0 <= top <= 16)%Z as Htop.
  { split.
    - apply Qfloor_nonneg.
      assert (0 <= R * rho) by (apply Qmult_le_0_compat; lra). lra.
    - change 16%Z with (Qfloor (16 + (1 # 2))). apply Qfloor_resp_le. lra. }
  assert (integer rows top) as Hrows.
  { unfold rows. apply integer_abs; [|lia].
    rewrite <- (Z.sub_0_r top). now apply integer_sub. }
  assert (forall d, 0 <= d <= R ->
            exists y, integer (scaled (Fin rho) min2 (Fin d)) y /\ (0 <= y <= top)%Z)
    as Hscaled by (intros d Hd; now apply scaled_integer).
  (* the canvas *)
  rewrite (new_Array_integer (Js.add rows one) (top + 1))
    by (try apply integer_add; try apply integer_one; try assumption; lia).
  rewrite bind_inr.
  match goal with
  | |- context [axis ?fuel ?mx ?rg rows min2 ?off min2 ?blank] =>
      destruct (axis_ok rows top mx rg min2 0 off fuel Hmin2 min2 0 blank)
        as (r0 & -> & Hr0)
  end.
  { exact Hmin2. }
  { lia. }
  { rewrite (integer_count_le min2 max2 0 top Hmin2 Hmax2). lia. }
  { now apply canvas_blank. }
  rewrite bind_inr.
  (* the first value *)
  destruct (Hbuy_at 0%nat) as (d & -> & Hd); [lia|]. rewrite bind_inr.
  destruct (Hscaled d) as (y0 & Hy0 & Hy0top); [lra|].
  destruct (put_from_top rows top Hrows r0 _ y0 (3 - 1) (Mark green AxisStart)
              Hy0 Hy0top Hr0) as (r1 & -> & Hr1).
  rewrite bind_inr.
  (* the rest of the buys *)
  match goal with
  | |- context [Js.forM (seq 0 (length bs - 1)) ?body r1] =>
      destruct (forM_invariant (canvas_of top) body (seq 0 (length bs - 1)) r1)
        as (r2 & -> & Hr2)
  end.
  { intros x s0 Hx Hs0. apply in_seq in Hx.
    destruct (Hbuy_at (x + 0)%nat) as (e0 & -> & He0); [lia|]. rewrite bind_inr.
    destruct (Hbuy_at (x + 1)%nat) as (e1 & -> & He1); [lia|]. rewrite bind_inr.
    destruct (Hscaled e0) as (a & Ha & Hatop); [lra|].
    destruct (Hscaled e1) as (b & Hb & Hbtop); [lra|].
    now apply (stroke_ok rows top Hrows _ _ _ _ a b). }
  { exact Hr1. }
  rewrite bind_inr.
  (* the sells *)
  destruct (Hsell_at 0%nat) as (f0 & -> & Hf0); [lia|]. rewrite bind_inr.
  destruct (Hsell_at 1%nat) as (f1 & Hf1eq & Hf1); [lia|].
  rewrite !Hf1eq, bind_inr.
  destruct (Hscaled f0) as (from & Hfrom & Hfromtop); [lra|].
  destruct (Hscaled f1) as (to & Hto & Htotop); [lra|].
  match goal with
  | |- context [Js.bind (if ?cond then ?thn else ?els) _] =>
      assert (exists r3, (if cond then thn else els) = inr r3 /\ canvas_of top r3)
        as (r3 & -> & Hr3)
  end.
  { destruct (Js.neq _ _).
    - rewrite bind_inr.
      destruct (put_row top r2 rows top (length bs + 3 - 1) (Mark red ArcRightUp)
                  Hrows) as (s1 & -> & Hs1); [lia | exact Hr2 |].
      rewrite bind_inr.
      destruct (put_from_top rows top Hrows s1 _ to (length bs + 3 - 1)
                  (Mark red ArcUpRight) Hto Htotop Hs1) as (s2 & -> & Hs2).
      rewrite bind_inr.
      rewrite (integer_count_lt one _ 1 to integer_one Hto).
      apply (vertical_ok rows top Hrows _ _ _ one 1); [apply integer_one|lia|lia|].
      exact Hs2.
    - apply (put_row top r2 rows top); [exact Hrows | lia | exact Hr2]. }
  rewrite bind_inr.
  match goal with
  | |- context [Js.forM (seq 1 (length ss - 1 - 1)) ?body r3] =>
      destruct (forM_invariant (canvas_of top) body (seq 1 (length ss - 1 - 1)) r3)
        as (r4 & -> & Hr4)
  end.
  { intros x s0 Hx Hs0. apply in_seq in Hx.
    destruct (Hsell_at (x + 0)%nat) as (e0 & -> & He0); [lia|].
    rewrite bind_inr.
    destruct (Hsell_at (x + 1)%nat) as (e1 & -> & He1); [lia|].
    rewrite bind_inr.
    destruct (Hscaled e0) as (a & Ha & Hatop); [lra|].
    destruct (Hscaled e1) as (b & Hb & Hbtop); [lra|].
    now apply (stroke_ok rows top Hrows _ _ _ _ a b). }
  { exact Hr3. }
  rewrite bind_inr.
  (* the truncation mark *)
  destruct (truncated c).
  - destruct (put_row top r4 zero 0 (length bs + length ss + 3) (Mark red ArrowUp)
                integer_zero) as (r5 & -> & Hr5); [lia | exact Hr4 |].
    rewrite bind_inr. now exists r5.
  - rewrite bind_inr. now exists r4.
Qed.

End Plot.

(** ** Building the chart *)

Section Construction.

Import BigNumber Vocabulary OrderBookChart.

Lemma defined_map_Some (xs : list Order) : defined (map Some xs) = xs.
Proof. induction xs as [|x xs IH]; simpl; [reflexivity | now rewrite IH]. Qed.

Lemma insert_sorted_Forall (P : Order -> Prop) (x : Order) (xs : list Order) :
  P x -> Forall P xs -> Forall P (insert_sorted x xs).
Proof.
  intros Hx Hxs. induction Hxs as [|y xs Hy Hxs IH]; simpl.
  - now constructor.
  - destruct (Js.lt _ _); repeat constructor; assumption.
Qed.

Lemma insert_sorted_length (x : Order) (xs : list Order) :
  length (insert_sorted x xs) = S (length xs).
Proof.
  induction xs as [|y xs IH]; simpl; [reflexivity|].
  destruct (Js.lt _ _); simpl; [now rewrite IH | reflexivity].
Qed.

Lemma sorted_Forall (P : Order -> Prop) (xs : list Order) :
  Forall P xs -> Forall P (fold_right insert_sorted [] xs).
Proof.
  induction 1 as [|x xs Hx _ IH]; simpl; [constructor|].
  now apply insert_sorted_Forall.
Qed.

Lemma sorted_length (xs : list Order) :
  length (fold_right insert_sorted [] xs) = length xs.
Proof.
  induction xs as [|x xs IH]; simpl; [reflexivity|].
  now rewrite insert_sorted_length, IH.
Qed.

(** Sorting an array without [undefined] slots leaves none. *)
Lemma sort_all_defined (xs : list Order) :
  sort (map Some xs) = map Some (fold_right insert_sorted [] xs).
Proof.
  unfold sort. rewrite defined_map_Some, length_map, Nat.sub_diag.
  apply app_nil_r.
Qed.

Lemma mapM_etherBalance (xs : list Order) :
  Js.mapM etherBalance (map Some xs) = inr (map notional xs).
Proof.
  induction xs as [|x xs IH]; simpl; [reflexivity|]. now rewrite IH.
Qed.

Lemma depth_all_defined (xs : list Order) :
  depth (map Some xs) = inr (fold_left plus (map notional xs) zero).
Proof. unfold depth. now rewrite mapM_etherBalance. Qed.

Lemma filterLoop_plottable (u : Q) (rest : list Order) :
  0 <= u -> Forall plottable rest ->
  forall acc, Forall plottable (fst (filterLoop (Fin u) acc rest)).
Proof.
  intros Hu. induction 1 as [|o rest Ho _ IH]; intros acc; simpl.
  - constructor.
  - destruct (lte _ _).
    + specialize (IH (plus acc (notional o))).
      destruct (filterLoop (Fin u) (plus acc (notional o)) rest) as [kept trunc].
      simpl in *. now constructor.
    + simpl. constructor; [|constructor].
      destruct Ho as (b & p & Hb & Hp & Hb0 & Hp0).
      rewrite Hp. unfold dividedBy. rewrite is_zero_false by lra.
      eexists. exists p. simpl. repeat split; [exact Hp | | exact Hp0].
      apply round_dp_nonneg. apply Qle_shift_div_l; lra.
Qed.

Lemma positive_total (xs : list Order) :
  Forall resting xs -> (1 <= length xs)%nat -> 0 < Qsum (map qnotional xs).
Proof.
  intros Hxs Hlen. destruct Hxs as [|x xs Hx Hxs]; [simpl in Hlen; lia|].
  simpl. pose proof (resting_notional_positive x Hx).
  assert (0 <= Qsum (map qnotional xs)).
  { apply Qsum_nonneg. eapply Forall_impl; [|exact Hxs]. apply resting_plottable. }
  lra.
Qed.

(** With at least two orders to filter and one on the other side, all of
    them resting, the constructor returns a drawable chart. *)
Lemma new_drawable (buys_arg sells_arg : list Order) :
  Forall resting buys_arg -> Forall resting sells_arg ->
  (2 <= length buys_arg)%nat -> (1 <= length sells_arg)%nat ->
  exists c, OrderBookChart.new buys_arg sells_arg = inr c /\ drawable c.
Proof.
  intros Hb Hs Hnb Hns.
  destruct buys_arg as [|o0 [|o1 rest]]; try (simpl in Hnb; lia).
  set (bs := fold_right insert_sorted [] sells_arg).
  assert (Forall resting bs) as Hbs_rest by now apply sorted_Forall.
  assert (Forall plottable bs) as Hbs
    by (eapply Forall_impl; [|exact Hbs_rest]; apply resting_plottable).
  assert (length bs = length sells_arg) as Hlen by apply sorted_length.
  destruct (fold_plus_total bs 0 Hbs) as (D & HD & HDsum).
  assert (D == Qsum (map qnotional bs)) as HDsum' by (rewrite HDsum; ring).
  assert (0 < D) as HDpos
    by (rewrite HDsum'; apply positive_total; [assumption | lia]).
  unfold OrderBookChart.new.
  rewrite sort_all_defined. fold bs. rewrite depth_all_defined.
  unfold zero at 1. rewrite HD, bind_inr.
  unfold filterSellOrders. simpl skipn. simpl nth_error.
  assert (times (Fin D) (Fin 1.5) = Fin (D * 1.5)) as -> by reflexivity.
  inversion Hb as [|? ? Ho0 Hb']; subst. inversion Hb' as [|? ? Ho1 Hrest]; subst.
  assert (Forall plottable rest) as Hrest'
    by (eapply Forall_impl; [|exact Hrest]; apply resting_plottable).
  pose proof (filterLoop_plottable (D * 1.5) rest) as Hkept.
  specialize (Hkept ltac:(lra) Hrest' zero).
  destruct (filterLoop (Fin (D * 1.5)) zero rest) as [kept trunc]. simpl in Hkept.
  change (Some o0 :: Some o1 :: map Some kept) with (map Some (o0 :: o1 :: kept)).
  rewrite sort_all_defined.
  set (ss := fold_right insert_sorted [] (o0 :: o1 :: kept)).
  assert (Forall plottable ss) as Hss.
  { apply sorted_Forall. repeat constructor; try assumption;
      now apply resting_plottable. }
  assert (length ss = S (S (length kept))) as Hlen_ss by apply sorted_length.
  rewrite depth_all_defined.
  destruct (fold_plus_total ss 0 Hss) as (S0 & HS & HSsum).
  unfold zero at 1. rewrite HS, bind_inr.
  eexists. split; [reflexivity|].
  exists bs, ss, D, S0. simpl.
  repeat split; try assumption; try reflexivity; try lia.
  rewrite HSsum. ring.
Qed.

(** With fewer than two orders to filter the constructor throws. *)
Lemma new_throws (buys_arg sells_arg : list Order) :
  (length buys_arg < 2)%nat ->
  OrderBookChart.new buys_arg sells_arg = inl Js.TypeError.
Proof.
  intros Hnb. unfold OrderBookChart.new.
  rewrite sort_all_defined, depth_all_defined, bind_inr.
  destruct buys_arg as [|o0 [|o1 rest]]; [| |simpl in Hnb; lia].
  - reflexivity.
  - reflexivity.
Qed.

End Construction.

(** For a book of resting orders, two at least on its buy side and one at
    least on its sell side, the printer builds the chart and plots it. *)
Lemma print_returns (book : OrderBook) :
  Forall Vocabulary.resting (buys book) ->
  Forall Vocabulary.resting (sells book) ->
  (2 <= length (buys book))%nat -> (1 <= length (sells book))%nat ->
  exists text, OrderBookPrinter.print book = inr text.
Proof.
  intros Hb Hs Hnb Hns. unfold OrderBookPrinter.print.
  destruct (new_drawable (buys book) (sells book) Hb Hs Hnb Hns) as (c & -> & Hc).
  rewrite bind_inr. now apply plot_ok.
Qed.

(** C9, the counterexample.  For a book with exactly one order on each side,
    a bid of 10 at 1 and an ask of 5 at 1.2, the constructor of the chart
    throws a [TypeError]: the filter pushes [orders[1]], which is
    [undefined], and the depth of the filtered side reads its balance. *)
Lemma chart_of_single_orders_throws :
  length (buys Sample.single) = 1%nat
  /\ length (sells Sample.single) = 1%nat
  /\ Forall Vocabulary.resting (buys Sample.single ++ sells Sample.single)
  /\ OrderBookChart.new (buys Sample.single) (sells Sample.single) = inl Js.TypeError
  /\ OrderBookPrinter.print Sample.single = inl Js.TypeError.
Proof.
  split; [reflexivity|]. split; [reflexivity|]. split; [|split; reflexivity].
  simpl. repeat (constructor; [eexists; eexists; repeat split; reflexivity|]).
  constructor.
Qed.

(** C9, as the code has it.  For every book whose orders have a positive
    price and a positive balance, with at least two orders on its buy side
    (the side the chart filters) and at least one on its sell side,
    building the chart and plotting it completes without throwing and
    returns the text, row by row.  With fewer than two orders on the buy
    side, whatever the orders are, building the chart throws a
    [TypeError]. *)
Theorem chart_is_drawn_from_two_orders (book : OrderBook) :
  (Forall Vocabulary.resting (buys book) ->
   Forall Vocabulary.resting (sells book) ->
   (2 <= length (buys book))%nat ->
   (1 <= length (sells book))%nat ->
   exists text, OrderBookPrinter.print book = inr text)
  /\ ((length (buys book) < 2)%nat ->
      OrderBookPrinter.print book = inl Js.TypeError).
Proof.
  split.
  - apply print_returns.
  - intros Hnb. unfold OrderBookPrinter.print.
    now rewrite (new_throws (buys book) (sells book) Hnb).
Qed.

Lemma sample_order_resting (side : bool) (tx : string) (b p : Q) :
  0 < b -> 0 < p -> Vocabulary.resting (Sample.order side tx b p).
Proof. intros Hb Hp. exists b, p. repeat split; assumption. Qed.

(** C9 at a book with two orders per side, and at the book with one. *)
Lemma chart_is_drawn_from_two_orders_witness :
  (exists text, OrderBookPrinter.print Sample.deep_bids = inr text)
  /\ OrderBookPrinter.print Sample.single = inl Js.TypeError.
Proof.
  split.
  - apply (proj1 (chart_is_drawn_from_two_orders Sample.deep_bids)).
    + repeat constructor; apply sample_order_resting; reflexivity.
    + repeat constructor; apply sample_order_resting; reflexivity.
    + simpl. lia.
    + simpl. lia.
  - apply (proj2 (chart_is_drawn_from_two_orders Sample.single)).
    simpl. lia.
Defined.

(** ** The decision cycle *)

(** C1, the counterexample.  A book with two orders on each side, none of
    which has any balance left, passes the guard; both depths of its chart
    are 0, so the ratio is 8 divided by 0, the number of rows is not a
    number, and creating the canvas throws a [RangeError], which ends the
    cycle before any candidate list is looked at. *)
Lemma drained_book_aborts_the_cycle :
  length (buys (MarketMaker.orderBook Sample.mm Sample.env_drained)) = 2%nat
  /\ length (sells (MarketMaker.orderBook Sample.mm Sample.env_drained)) = 2%nat
  /\ MarketMaker.ensureValidOrderBook Sample.mm Sample.env_drained = inr tt
  /\ BigNumber.dividedBy (BigNumber.of_Z 8) (BigNumber.Fin 0) = BigNumber.Infinity false
  /\ BigNumber.times BigNumber.zero (BigNumber.Infinity false) = BigNumber.NaN
  /\ MarketMaker.printMarketHealth Sample.mm Sample.env_drained = inl Js.RangeError
  /\ MarketMaker.getActions Sample.mm Sample.env_drained = inl Js.RangeError.
Proof. vm_compute. repeat split. Qed.

(** C1, as the code has it.  One invocation of [getActions] evaluates
    arbitrage, then cleanup, then new-quote generation: whatever it returns
    is the arbitrage list when that is not empty, else the cleanup list when
    that is not empty, else the list of new quotes, which may be empty; and
    the returned list never mixes kinds: it is all [Trade], all
    [CancelOrder], all [NewOrder], or empty.  For every order book with at
    least 2 orders per side whose orders all have a positive price and a
    positive balance, the invocation does return. *)
Theorem cycle_returns_first_nonempty_list (this : MarketMaker.t) (env : Env) :
  let ob := MarketMaker.orderBook this env in
  let arbs := MarketMaker.checkArbOpportunity this env in
  let cleanup := MarketMaker.cleanupOrders this env in
  let quotes := MarketMaker.newOrders this env in
  (forall acts,
      MarketMaker.getActions this env = inr acts ->
      (arbs <> [] -> acts = arbs)
      /\ (arbs = [] -> cleanup <> [] -> acts = cleanup)
      /\ (arbs = [] -> cleanup = [] -> acts = quotes)
      /\ (Vocabulary.allOfType Trade acts
          \/ Vocabulary.allOfType CancelOrder acts
          \/ Vocabulary.allOfType NewOrder acts
          \/ acts = []))
  /\ ((2 <= length (buys ob))%nat ->
      (2 <= length (sells ob))%nat ->
      Forall Vocabulary.resting (buys ob) ->
      Forall Vocabulary.resting (sells ob) ->
      exists acts, MarketMaker.getActions this env = inr acts).
Proof.
  intros ob arbs cleanup quotes. split.
  - intros acts Hacts. apply getActions_returns in Hacts. subst acts.
    pose proof (firstNonEmpty_one_kind this env) as Hkind.
    unfold Vocabulary.firstNonEmpty in *. fold arbs cleanup quotes in Hkind |- *.
    destruct arbs as [|a arbs'].
    + destruct cleanup as [|c cleanup'].
      * repeat split; try congruence. tauto.
      * repeat split; try congruence. tauto.
    + repeat split; try congruence. tauto.
  - intros Hnb Hns Hb Hs.
    assert (MarketMaker.ensureValidOrderBook this env = inr tt) as Hguard
      by now apply ensureValidOrderBook_healthy.
    destruct (print_returns ob Hb Hs Hnb ltac:(lia)) as [text Htext].
    exists (Vocabulary.firstNonEmpty this env).
    now apply (getActions_after_chart this env text).
Qed.

(** C1 at the market with the deeper bids. *)
Lemma cycle_returns_first_nonempty_list_witness :
  exists acts,
    MarketMaker.getActions Sample.mm Sample.env_deep_bids = inr acts
    /\ (Vocabulary.allOfType Trade acts
        \/ Vocabulary.allOfType CancelOrder acts
        \/ Vocabulary.allOfType NewOrder acts
        \/ acts = []).
Proof.
  destruct (proj2 (cycle_returns_first_nonempty_list Sample.mm Sample.env_deep_bids))
    as [acts Hacts].
  - simpl. lia.
  - simpl. lia.
  - repeat constructor; apply sample_order_resting; reflexivity.
  - repeat constructor; apply sample_order_resting; reflexivity.
  - exists acts. split; [exact Hacts|].
    apply (proj1 (cycle_returns_first_nonempty_list Sample.mm Sample.env_deep_bids)
             acts Hacts).
Defined.

(** ** Sample runs *)

Section Runs.

Import BigNumber Sample.

(** Ties: [toFixed] and [dividedBy] round away from zero, [Math.round]
    towards plus infinity. *)
Example round_half_up_ties :
  round_half_up (5 # 2) = 3%Z /\ round_half_up (- (5 # 2)) = (-3)%Z.
Proof. split; reflexivity. Qed.

Example Math_round_ties :
  Js.Math_round (Fin (5 # 2)) = Fin (inject_Z 3)
  /\ Js.Math_round (Fin (- (5 # 2))) = Fin (inject_Z (-2)).
Proof. split; reflexivity. Qed.

Example dividedBy_keeps_20_decimals :
  dividedBy (Fin 1) (Fin 3) = Fin 0.33333333333333333333
  /\ dividedBy (Fin 2) (Fin 3) = Fin 0.66666666666666666667.
Proof. split; vm_compute; reflexivity. Qed.

Example dividedBy_zero :
  dividedBy (Fin 1) (Fin 0) = Infinity false
  /\ dividedBy (Fin 0) (Fin 0) = NaN
  /\ lte NaN (Fin 0) = false.
Proof. repeat split. Qed.

(** The depth of the bids outweighs that of the asks: one buy quote, inside
    the spread. *)
Example run_deep_bids :
  MarketMaker.getActions mm env_deep_bids
  = inr [IsCreateOrder
           {| CreateOrder.type := NewOrder;
              CreateOrder.blockchain := "ETH";
              CreateOrder.order_type := buy;
              CreateOrder.amount := Fin 4;
              CreateOrder.price := Fin 1.020635 |}].
Proof. vm_compute. reflexivity. Qed.

(** The other way round: one sell quote. *)
Example run_deep_asks :
  MarketMaker.getActions mm env_deep_asks
  = inr [IsCreateOrder
           {| CreateOrder.type := NewOrder;
              CreateOrder.blockchain := "ETH";
              CreateOrder.order_type := sell;
              CreateOrder.amount := Fin 3;
              CreateOrder.price := Fin 1.155072 |}].
Proof. vm_compute. reflexivity. Qed.

(** A crossed book: the two legs of the arbitrage, and nothing else. *)
Example run_crossed :
  MarketMaker.getActions mm env_crossed
  = inr [Vocabulary.tradeAgainst mm (order false "b1" 4 1.2) (Fin 2.6);
         Vocabulary.tradeAgainst mm (order true "s1" 7 1) (Fin 2.6)].
Proof. vm_compute. reflexivity. Qed.

(** A crossed book and no tokens: the cycle goes on to the quotes, and the
    market spread, which is negative, posts none. *)
Example run_crossed_no_tokens :
  MarketMaker.getActions mm env_crossed_no_tokens = inr [].
Proof. vm_compute. reflexivity. Qed.

(** The chart of the example of the specification: the third order is cut
    to a balance of 15 and the chart is marked as truncated. *)
Example chart_of_tail :
  exists c,
    OrderBookChart.new tail [order true "s" 1 10] = inr c
    /\ OrderBookChart.buyDepth c = Fin 10
    /\ OrderBookChart.truncated c = true
    /\ map (fun o => match o with Some x => balance x | None => NaN end)
         (OrderBookChart.sells c)
       = [Fin 1; Fin 1; Fin 15.00000000000000000000].
Proof. eexists. vm_compute. repeat split. Qed.

End Runs.

(** * Further properties of the strategy *)

(** ** Rounding, from below *)

Section RoundingBelow.

Import BigNumber.

(** A number with at most [dp] decimals is its own rounding. *)
Lemma round_dp_grid (dp : nat) (l : Q) (k : Z) :
  l * inject_Z (pow10 dp) == inject_Z k -> round_dp dp l == l.
Proof.
  intros Hk. unfold round_dp.
  pose proof (pow10_Qpos dp) as HP.
  assert (round_half_up (l * inject_Z (pow10 dp)) = k) as ->.
  { pose proof (round_half_up_mono (l * inject_Z (pow10 dp)) (inject_Z k)) as H1.
    pose proof (round_half_up_mono (inject_Z k) (l * inject_Z (pow10 dp))) as H2.
    rewrite round_half_up_Z in H1, H2.
    apply Z.le_antisymm; [apply H1 | apply H2]; rewrite Hk; lra. }
  rewrite <- Hk. field. lra.
Qed.

Lemma round_dp_above_grid (dp : nat) (q l : Q) (k : Z) :
  l * inject_Z (pow10 dp) == inject_Z k -> l <= q -> l <= round_dp dp q.
Proof.
  intros Hk Hq. rewrite <- (round_dp_grid dp l k Hk). now apply round_dp_mono.
Qed.

End RoundingBelow.

(** ** The weighted mid-market price *)

Section WeightedMid.

Import BigNumber Vocabulary.

Variable this : MarketMaker.t.
Variable env : Env.
Variables (b s db ds : Q).
Hypothesis Hb : MarketMaker.bestBuyPrice this env = Fin b.
Hypothesis Hs : MarketMaker.bestSellPrice this env = Fin s.
Hypothesis Hdb : MarketMaker.buyDepth this env = Fin db.
Hypothesis Hds : MarketMaker.sellDepth this env = Fin ds.
Hypothesis Hdb0 : 0 <= db.
Hypothesis Hds0 : 0 <= ds.
Hypothesis Hdepth : 0 < ds + db.

(** The price is the quotient, rounded to 20 decimals, of the best prices
    weighted each by the depth of the other side. *)
Lemma weightedMidMarketPrice_value :
  MarketMaker.weightedMidMarketPrice this env
  = Fin (round_dp DECIMAL_PLACES ((s * db + b * ds) / (ds + db))).
Proof.
  unfold MarketMaker.weightedMidMarketPrice.
  rewrite Hb, Hs, Hdb, Hds. simpl. unfold dividedBy.
  rewrite is_zero_false by lra. reflexivity.
Qed.

Lemma weighted_quotient_between :
  b <= s ->
  b <= (s * db + b * ds) / (ds + db) /\ (s * db + b * ds) / (ds + db) <= s.
Proof.
  intros Hbs.
  assert (b * db <= s * db) as H1 by (apply Qmult_le_compat_r; assumption).
  assert (b * ds <= s * ds) as H2 by (apply Qmult_le_compat_r; assumption).
  split.
  - apply Qle_shift_div_l; [exact Hdepth | lra].
  - apply Qle_shift_div_r; [exact Hdepth | lra].
Qed.

Lemma weighted_quotient_leans :
  b <= s ->
  (ds <= db -> (b + s) / 2 <= (s * db + b * ds) / (ds + db))
  /\ (db <= ds -> (s * db + b * ds) / (ds + db) <= (b + s) / 2).
Proof.
  intros Hbs.
  split; intros Hside.
  - apply Qle_shift_div_l; [exact Hdepth|].
    assert (0 <= (s - b) * (db - ds)) as H
      by (apply Qmult_le_0_compat; lra).
    setoid_replace ((b + s) / 2 * (ds + db))
      with (s * db + b * ds - (s - b) * (db - ds) / 2) by field.
    setoid_replace ((s - b) * (db - ds) / 2)
      with ((s - b) * (db - ds) * (1 # 2)) by field.
    lra.
  - apply Qle_shift_div_r; [exact Hdepth|].
    assert (0 <= (s - b) * (ds - db)) as H
      by (apply Qmult_le_0_compat; lra).
    setoid_replace ((b + s) / 2 * (ds + db))
      with (s * db + b * ds + (s - b) * (ds - db) / 2) by field.
    setoid_replace ((s - b) * (ds - db) / 2)
      with ((s - b) * (ds - db) * (1 # 2)) by field.
    lra.
Qed.

End WeightedMid.

(** X1.  When the best prices are numbers with the best buy price at most
    the best sell price, and the two depths are non-negative numbers that
    are not both zero, the weighted mid-market price is a number between
    the best buy price and the best sell price, each rounded to 20
    decimals; it is between the prices themselves when these have at most
    20 decimals. *)
Theorem weighted_mid_lies_between_best_prices
    (this : MarketMaker.t) (env : Env) (b s db ds : Q) :
  MarketMaker.bestBuyPrice this env = BigNumber.Fin b ->
  MarketMaker.bestSellPrice this env = BigNumber.Fin s ->
  MarketMaker.buyDepth this env = BigNumber.Fin db ->
  MarketMaker.sellDepth this env = BigNumber.Fin ds ->
  0 <= db -> 0 <= ds -> 0 < ds + db -> b <= s ->
  exists w,
    MarketMaker.weightedMidMarketPrice this env = BigNumber.Fin w
    /\ BigNumber.round_dp 20 b <= w /\ w <= BigNumber.round_dp 20 s
    /\ (forall k, b * inject_Z (BigNumber.pow10 20) == inject_Z k -> b <= w)
    /\ (forall k, s * inject_Z (BigNumber.pow10 20) == inject_Z k -> w <= s).
Proof.
  intros Hb Hs Hdb Hds Hdb0 Hds0 Hdepth Hbs.
  rewrite (weightedMidMarketPrice_value this env b s db ds) by assumption.
  destruct (weighted_quotient_between b s db ds Hdb0 Hds0 Hdepth Hbs) as [Hlo Hhi].
  eexists. split; [reflexivity|].
  change BigNumber.DECIMAL_PLACES with 20%nat.
  split; [now apply round_dp_mono|]. split; [now apply round_dp_mono|]. split.
  - intros k Hk. eapply round_dp_above_grid; eassumption.
  - intros k Hk. eapply round_dp_below_grid; eassumption.
Qed.

(** X1 at the market with the deeper bids: best prices 1 and 1.2, depths 19
    and 12.5. *)
Lemma weighted_mid_lies_between_best_prices_witness :
  exists w,
    MarketMaker.weightedMidMarketPrice Sample.mm Sample.env_deep_bids = BigNumber.Fin w
    /\ BigNumber.round_dp 20 1 <= w /\ w <= BigNumber.round_dp 20 1.2.
Proof.
  destruct (weighted_mid_lies_between_best_prices Sample.mm Sample.env_deep_bids
              1 1.2 _ _ eq_refl eq_refl eq_refl eq_refl)
    as (w & Hw & Hlo & Hhi & _).
  - vm_compute. discriminate.
  - vm_compute. discriminate.
  - vm_compute. reflexivity.
  - vm_compute. discriminate.
  - exists w. repeat split; assumption.
Defined.

(** X2.  Under the hypotheses of X1 the weighted mid-market price leans
    towards the best price of the shallower side: when the buy depth is at
    least the sell depth it is at least the middle of the best prices
    rounded to 20 decimals, and when the sell depth is at least the buy
    depth it is at most that. *)
Theorem weighted_mid_leans_to_the_shallower_side
    (this : MarketMaker.t) (env : Env) (b s db ds : Q) :
  MarketMaker.bestBuyPrice this env = BigNumber.Fin b ->
  MarketMaker.bestSellPrice this env = BigNumber.Fin s ->
  MarketMaker.buyDepth this env = BigNumber.Fin db ->
  MarketMaker.sellDepth this env = BigNumber.Fin ds ->
  0 <= db -> 0 <= ds -> 0 < ds + db -> b <= s ->
  exists w,
    MarketMaker.weightedMidMarketPrice this env = BigNumber.Fin w
    /\ (ds <= db -> BigNumber.round_dp 20 ((b + s) / 2) <= w)
    /\ (db <= ds -> w <= BigNumber.round_dp 20 ((b + s) / 2)).
Proof.
  intros Hb Hs Hdb Hds Hdb0 Hds0 Hdepth Hbs.
  rewrite (weightedMidMarketPrice_value this env b s db ds) by assumption.
  destruct (weighted_quotient_leans b s db ds Hdepth Hbs) as [Hup Hdown].
  eexists. split; [reflexivity|].
  change BigNumber.DECIMAL_PLACES with 20%nat.
  split; intros Hside; apply round_dp_mono; auto.
Qed.

(** X2 at the market with the deeper bids, where the middle is 1.1. *)
Lemma weighted_mid_leans_to_the_shallower_side_witness :
  exists w,
    MarketMaker.weightedMidMarketPrice Sample.mm Sample.env_deep_bids = BigNumber.Fin w
    /\ BigNumber.round_dp 20 ((1 + 1.2) / 2) <= w.
Proof.
  destruct (weighted_mid_leans_to_the_shallower_side Sample.mm Sample.env_deep_bids
              1 1.2 _ _ eq_refl eq_refl eq_refl eq_refl)
    as (w & Hw & Hup & _).
  - vm_compute. discriminate.
  - vm_compute. discriminate.
  - vm_compute. reflexivity.
  - vm_compute. discriminate.
  - exists w. split; [exact Hw|]. apply Hup. vm_compute. discriminate.
Defined.

(** ** One quote at most *)

Section OneQuote.

Import BigNumber Vocabulary.

Variable this : MarketMaker.t.
Variable env : Env.
Variables (b s w : Q) (k : Z).
Hypothesis Hb : MarketMaker.bestBuyPrice this env = Fin b.
Hypothesis Hs : MarketMaker.bestSellPrice this env = Fin s.
Hypothesis Hw : MarketMaker.weightedMidMarketPrice this env = Fin w.
Hypothesis Hexact : (s - b) / 2 * inject_Z (pow10 20) == inject_Z k.

Lemma half_spread_exact :
  exists h, dividedBy (MarketMaker.spread this env) (of_Z 2) = Fin h
            /\ h == (s - b) / 2.
Proof.
  unfold MarketMaker.spread. rewrite Hb, Hs. simpl.
  eexists. split; [reflexivity|].
  apply (round_dp_grid 20 _ k). exact Hexact.
Qed.

Lemma newBuys_above_middle :
  MarketMaker.newBuys this env <> [] -> (b + s) / 2 < w.
Proof.
  intros Hbuy.
  destruct (MarketMaker.newBuys this env) as [|a rest] eqn:E; [congruence|].
  assert (In a (MarketMaker.newBuys this env)) as Ha by (rewrite E; now left).
  apply newBuys_quote in Ha. destruct Ha as [Hgate _].
  destruct half_spread_exact as (h & Hh & Heq).
  rewrite Hw, Hh, Hb in Hgate. simpl in Hgate.
  apply lte_Fin_false in Hgate.
  setoid_replace ((b + s) / 2) with (b + (s - b) / 2) by field.
  rewrite <- Heq. lra.
Qed.

Lemma newSells_below_middle :
  MarketMaker.newSells this env <> [] -> w < (b + s) / 2.
Proof.
  intros Hsell.
  destruct (MarketMaker.newSells this env) as [|a rest] eqn:E; [congruence|].
  assert (In a (MarketMaker.newSells this env)) as Ha by (rewrite E; now left).
  apply newSells_quote in Ha. destruct Ha as [Hgate _].
  destruct half_spread_exact as (h & Hh & Heq).
  rewrite Hw, Hh, Hs in Hgate. simpl in Hgate.
  apply gte_Fin_false in Hgate.
  setoid_replace ((b + s) / 2) with (s - (s - b) / 2) by field.
  rewrite <- Heq. lra.
Qed.

Lemma newBuys_short : (length (MarketMaker.newBuys this env) <= 1)%nat.
Proof.
  unfold MarketMaker.newBuys.
  destruct (isLessThanOrEqualTo _ _); [simpl; lia|].
  destruct (lte _ _); simpl; lia.
Qed.

Lemma newSells_short : (length (MarketMaker.newSells this env) <= 1)%nat.
Proof.
  unfold MarketMaker.newSells.
  destruct (isLessThanOrEqualTo _ _); [simpl; lia|].
  destruct (gte _ _); simpl; lia.
Qed.

End OneQuote.

(** X3.  When the best prices and the weighted mid-market price are numbers
    and half of the market spread has at most 20 decimals (so that the
    quotient by 2 is exact), a buy quote is produced only if the weighted
    mid-market price is strictly above the middle of the best prices and a
    sell quote only if it is strictly below: one cycle never produces both,
    and [newOrders] returns at most one action. *)
Theorem one_quote_per_cycle
    (this : MarketMaker.t) (env : Env) (b s w : Q) (k : Z) :
  MarketMaker.bestBuyPrice this env = BigNumber.Fin b ->
  MarketMaker.bestSellPrice this env = BigNumber.Fin s ->
  MarketMaker.weightedMidMarketPrice this env = BigNumber.Fin w ->
  (s - b) / 2 * inject_Z (BigNumber.pow10 20) == inject_Z k ->
  (MarketMaker.newBuys this env <> [] -> (b + s) / 2 < w)
  /\ (MarketMaker.newSells this env <> [] -> w < (b + s) / 2)
  /\ (MarketMaker.newBuys this env = [] \/ MarketMaker.newSells this env = [])
  /\ (length (MarketMaker.newOrders this env) <= 1)%nat.
Proof.
  intros Hb Hs Hw Hexact.
  pose proof (newBuys_above_middle this env b s w k Hb Hs Hw Hexact) as Hbuy.
  pose proof (newSells_below_middle this env b s w k Hb Hs Hw Hexact) as Hsell.
  assert (MarketMaker.newBuys this env = [] \/ MarketMaker.newSells this env = [])
    as Hone.
  { destruct (MarketMaker.newBuys this env) as [|x xs]; [now left|].
    destruct (MarketMaker.newSells this env) as [|y ys]; [now right|].
    exfalso.
    assert ((b + s) / 2 < w) by (apply Hbuy; discriminate).
    assert (w < (b + s) / 2) by (apply Hsell; discriminate).
    lra. }
  split; [exact Hbuy|]. split; [exact Hsell|]. split; [exact Hone|].
  unfold MarketMaker.newOrders.
  destruct (BigNumber.lte _ _); [simpl; lia|].
  rewrite length_app.
  pose proof (newBuys_short this env). pose proof (newSells_short this env).
  destruct Hone as [-> | ->]; simpl in *; lia.
Qed.

(** X3 at the market with the deeper bids: the quote is a buy, and the
    weighted mid-market price is above 1.1, the middle of 1 and 1.2. *)
Lemma one_quote_per_cycle_witness :
  exists w,
    MarketMaker.weightedMidMarketPrice Sample.mm Sample.env_deep_bids = BigNumber.Fin w
    /\ (1 + 1.2) / 2 < w
    /\ MarketMaker.newSells Sample.mm Sample.env_deep_bids = []
    /\ (length (MarketMaker.newOrders Sample.mm Sample.env_deep_bids) <= 1)%nat.
Proof.
  destruct (one_quote_per_cycle Sample.mm Sample.env_deep_bids 1 1.2 _
              10000000000000000000 eq_refl eq_refl eq_refl)
    as (Hbuy & _ & Hone & Hlen).
  - vm_compute. reflexivity.
  - eexists. split; [reflexivity|]. split; [|split].
    + apply Hbuy. vm_compute. discriminate.
    + destruct Hone as [Hone|Hone]; [|exact Hone].
      vm_compute in Hone. discriminate Hone.
    + exact Hlen.
Defined.

(** ** Powers and the funds in the wallet *)

Section Funds.

Import BigNumber Vocabulary.

Lemma Qpower_succ (n : Q) (p : nat) :
  n ^ Z.of_nat (S p) == n ^ Z.of_nat p * n.
Proof.
  rewrite Nat2Z.inj_succ. unfold Z.succ.
  rewrite Qpower_plus' by lia. now rewrite Qpower_1_r.
Qed.

Lemma pow_ten (d : nat) :
  exists q, MarketMaker.pow (of_Z 10) d = Fin q /\ q == inject_Z (pow10 d).
Proof.
  induction d as [|d (q & Hq & Heq)]; simpl.
  - exists 1. split; reflexivity.
  - rewrite Hq. simpl. eexists. split; [reflexivity|].
    unfold pow10 in *. rewrite Nat2Z.inj_succ, Z.pow_succ_r by lia.
    rewrite inject_Z_mult, Heq. ring.
Qed.

Lemma round_dp_comp (dp : nat) (a b : Q) :
  a == b -> round_dp dp a == round_dp dp b.
Proof.
  intros Hab. apply Qle_antisym; apply round_dp_mono; rewrite Hab; lra.
Qed.

(** The larger of 0 and a number. *)
Lemma max_with_zero (r : Q) :
  exists e, max [zero; Fin r] = Fin e
            /\ 0 <= e /\ (r <= 0 -> e == 0) /\ (0 <= r -> e == r).
Proof.
  unfold max, zero. simpl.
  destruct (lt (Fin 0) (Fin r)) eqn:E.
  - apply lt_Fin in E. exists r. split; [reflexivity|]. split; [lra|]. split; intros; lra.
  - assert (r <= 0) as Hr.
    { apply Qnot_lt_le. intros Hlt. apply lt_Fin in Hlt. congruence. }
    exists 0. split; [reflexivity|]. split; [lra|]. split; intros; lra.
Qed.

Variable this : MarketMaker.t.
Variable env : Env.
Variable f : Q.
Hypothesis Hf :
  MarketMakerConfig.fundMinimum (MarketMaker.config this) = Fin f.

Lemma availableEther_value :
  let wei := inject_Z (Z.of_N (getBalance (provider env) (MarketMaker.botAddress this))) in
  exists e,
    MarketMaker.availableEther this env = Fin e
    /\ 0 <= e
    /\ (wei / inject_Z (pow10 18) <= f -> e == 0)
    /\ (f <= wei / inject_Z (pow10 18) ->
        e == round_dp 20 (wei / inject_Z (pow10 18) - f)).
Proof.
  intros wei. unfold MarketMaker.availableEther.
  destruct (pow_ten 18) as (q & Hq & Heq). rewrite Hq, Hf.
  pose proof (pow10_Qpos 18) as HP.
  assert (0 < q) as Hqpos by (rewrite Heq; exact HP).
  unfold MarketMaker.of_N, of_Z. fold wei. simpl times. simpl minus.
  unfold dividedBy. rewrite is_zero_false by lra.
  assert (round_dp DECIMAL_PLACES ((wei - q * f) / q)
          == round_dp 20 (wei / inject_Z (pow10 18) - f)) as Hround.
  { apply round_dp_comp. rewrite <- Heq. field. lra. }
  destruct (max_with_zero (round_dp DECIMAL_PLACES ((wei - q * f) / q)))
    as (e & He & He0 & Hzero & Hpos).
  exists e. split; [exact He|]. split; [exact He0|]. split.
  - intros Hlow. apply Hzero. rewrite Hround.
    apply (round_dp_below_grid 20 _ 0 0); [ring | lra].
  - intros Hhigh. rewrite <- Hround. apply Hpos. rewrite Hround.
    apply round_dp_nonneg. lra.
Qed.

End Funds.

(** X4.  [pow(n, p)] is the [p]-th power of [n]: 1 when [p] is 0, and
    exactly 10^18, the number of wei in an ether, for [pow(10, 18)]. *)
Theorem pow_is_the_power (n : Q) (p : nat) :
  exists r,
    MarketMaker.pow (BigNumber.Fin n) p = BigNumber.Fin r
    /\ r == n ^ Z.of_nat p.
Proof.
  induction p as [|p (r & Hr & Heq)].
  - exists 1. split; reflexivity.
  - simpl MarketMaker.pow. rewrite Hr. simpl BigNumber.times.
    eexists. split; [reflexivity|].
    rewrite Qpower_succ, Heq. reflexivity.
Qed.

(** X5.  With a reserve [fundMinimum] that is a number, the available ether
    is a number that is never negative: it is 0 when the wallet holds no
    more than the reserve, and otherwise the wallet balance in ether less
    the reserve, rounded to 20 decimals.  With a dust cutoff that is not
    negative, no buy quote is produced from a wallet that holds no more than
    the reserve. *)
Theorem available_ether_keeps_the_reserve
    (this : MarketMaker.t) (env : Env) (f : Q) :
  MarketMakerConfig.fundMinimum (MarketMaker.config this) = BigNumber.Fin f ->
  let wei :=
    inject_Z (Z.of_N (getBalance (provider env) (MarketMaker.botAddress this))) in
  let wallet := wei / inject_Z (BigNumber.pow10 18) in
  exists e,
    MarketMaker.availableEther this env = BigNumber.Fin e
    /\ 0 <= e
    /\ (wallet <= f -> e == 0)
    /\ (f <= wallet -> e == BigNumber.round_dp 20 (wallet - f))
    /\ (forall d,
          MarketMakerConfig.dustCutoff (MarketMaker.config this) = BigNumber.Fin d ->
          0 <= d -> wallet <= f -> MarketMaker.newBuys this env = []).
Proof.
  intros Hf wei wallet.
  destruct (availableEther_value this env f Hf) as (e & He & He0 & Hzero & Hpos).
  exists e. split; [exact He|]. split; [exact He0|].
  split; [exact Hzero|]. split; [exact Hpos|].
  intros d Hd Hd0 Hlow. unfold MarketMaker.newBuys.
  rewrite He, Hd.
  assert (BigNumber.isLessThanOrEqualTo (BigNumber.Fin e) (BigNumber.Fin d) = true)
    as ->; [|reflexivity].
  apply lte_Fin. rewrite (Hzero Hlow). exact Hd0.
Qed.

(** X5 at a wallet of 5 ether under a reserve of 1 ether: 4 ether are
    available. *)
Lemma available_ether_keeps_the_reserve_witness :
  exists e,
    MarketMaker.availableEther Sample.mm Sample.env_deep_bids = BigNumber.Fin e
    /\ 0 <= e /\ e == 4.
Proof.
  destruct (available_ether_keeps_the_reserve Sample.mm Sample.env_deep_bids 1 eq_refl)
    as (e & He & He0 & _ & Hpos & _).
  exists e. split; [exact He|]. split; [exact He0|].
  rewrite Hpos.
  - vm_compute. reflexivity.
  - vm_compute. discriminate.
Defined.

(** ** The amount of an arbitrage *)

Section Minimum.

Import BigNumber Vocabulary.

(** The result of [BigNumber.min] or [BigNumber.max] is one of the
    arguments. *)
Lemma maxOrMin_picks (better : BigNumber -> BigNumber -> bool)
    (m : BigNumber) (args : list BigNumber) :
  In (maxOrMin better m args) (m :: args).
Proof.
  revert m. induction args as [|n args IH]; intros m; simpl.
  - now left.
  - destruct (isNaN n); [right; now left|].
    destruct (IH (if better m n then n else m)) as [H|H].
    + destruct (better m n); rewrite <- H; [right; now left | now left].
    + right. now right.
Qed.

End Minimum.

(** X6.  When the balances of the best orders and the token limit are
    numbers, every [Trade] the arbitrage check emits is for an amount that
    exceeds neither the balance of the best buy order, nor the balance of
    the best sell order, nor the available tokens, and that is one of these
    three. *)
Theorem arbitrage_amount_fits_both_orders
    (this : MarketMaker.t) (env : Env) (bb bs limit : Q) :
  balance (MarketMaker.bestBuyOrder this env) = BigNumber.Fin bb ->
  balance (MarketMaker.bestSellOrder this env) = BigNumber.Fin bs ->
  MarketMakerConfig.tokenLimit (MarketMaker.config this) = BigNumber.Fin limit ->
  forall t, In (IsTrade t) (MarketMaker.checkArbOpportunity this env) ->
    exists r a,
      Trade.amount t = BigNumber.Fin r
      /\ MarketMaker.availableTokens this env = BigNumber.Fin a
      /\ r <= bb /\ r <= bs /\ r <= a
      /\ In (BigNumber.Fin r) [BigNumber.Fin bb; BigNumber.Fin bs; BigNumber.Fin a].
Proof.
  intros Hbb Hbs Hlimit t Ht.
  destruct (availableTokens_below_limit this env limit Hlimit) as (a & Ha & _).
  unfold MarketMaker.checkArbOpportunity in Ht.
  destruct (BigNumber.lte _ _); [|destruct Ht].
  destruct (BigNumber.isEqualTo _ _); [destruct Ht|].
  rewrite toFixed_all_digits, Hbb, Hbs, Ha in Ht.
  unfold BigNumber.min in Ht.
  destruct (maxOrMin_gt_below bb [BigNumber.Fin bs; BigNumber.Fin a])
    as (r & Hr & Hle & Hall).
  { repeat constructor; eexists; reflexivity. }
  pose proof (maxOrMin_picks BigNumber.gt (BigNumber.Fin bb)
                [BigNumber.Fin bs; BigNumber.Fin a]) as Hpick.
  rewrite Hr in Ht, Hpick.
  inversion Hall as [|? ? (x & Hx & Hrx) Hall']; subst.
  inversion Hall' as [|? ? (y & Hy & Hry) _]; subst.
  injection Hx as <-. injection Hy as <-.
  exists r, a.
  destruct Ht as [Ht|[Ht|[]]]; injection Ht as <-; simpl;
    repeat split; assumption.
Qed.

(** X6 at the crossed book: balances 4 and 7, 2.6 tokens available, and an
    amount of 2.6. *)
Lemma arbitrage_amount_fits_both_orders_witness :
  exists r a,
    BigNumber.Fin 2.6 = BigNumber.Fin r
    /\ MarketMaker.availableTokens Sample.mm Sample.env_crossed = BigNumber.Fin a
    /\ r <= 4 /\ r <= 7 /\ r <= a.
Proof.
  destruct (arbitrage_amount_fits_both_orders Sample.mm Sample.env_crossed 4 7 2.6
              eq_refl eq_refl eq_refl
              {| Trade.type := Trade; Trade.blockchain := "ETH";
                 Trade.contract := "0xexchange"; Trade.order_tx := "b1";
                 Trade.amount := BigNumber.Fin 2.6 |})
    as (r & a & Hr & Ha & H1 & H2 & H3 & _).
  - vm_compute. left. reflexivity.
  - exists r, a. repeat split; assumption.
Defined.

(** ** The bot's own orders *)

Section OwnOrders.

Import Vocabulary.

Variable this : MarketMaker.t.
Variable env : Env.

Lemma fetch_buys (address : string) (o : Order) :
  In o (buys (MarketMaker.fetchOrdersFor this env address))
  <-> In o (ordersForAddress (saturn env) address)
      /\ buytoken o = MarketMaker.token this
      /\ selltoken o = MarketMaker.EtherAddress.
Proof.
  unfold MarketMaker.fetchOrdersFor. simpl.
  rewrite filter_In, andb_true_iff, !String.eqb_eq. reflexivity.
Qed.

Lemma fetch_sells (address : string) (o : Order) :
  In o (sells (MarketMaker.fetchOrdersFor this env address))
  <-> In o (ordersForAddress (saturn env) address)
      /\ selltoken o = MarketMaker.token this
      /\ buytoken o = MarketMaker.EtherAddress.
Proof.
  unfold MarketMaker.fetchOrdersFor. simpl.
  rewrite filter_In, andb_true_iff, !String.eqb_eq. reflexivity.
Qed.

End OwnOrders.

(** X7.  Of the orders of an address [fetchOrdersFor] keeps those of the
    configured pair and nothing else.  When the configured token is not the
    ether address no order is both among the buys and among the sells, and
    an order neither of whose tokens is the configured token is in neither
    list. *)
Theorem own_orders_are_split_by_side
    (this : MarketMaker.t) (env : Env) (address : string) :
  let own := MarketMaker.fetchOrdersFor this env address in
  (forall o, In o (buys own) \/ In o (sells own) ->
     In o (ordersForAddress (saturn env) address))
  /\ (forall o, buytoken o <> MarketMaker.token this ->
        selltoken o <> MarketMaker.token this ->
        ~ In o (buys own) /\ ~ In o (sells own))
  /\ (MarketMaker.token this <> MarketMaker.EtherAddress ->
      forall o, In o (buys own) -> ~ In o (sells own)).
Proof.
  intros own. unfold own. repeat split.
  - intros o [Ho|Ho]; [apply fetch_buys in Ho | apply fetch_sells in Ho]; tauto.
  - intros Ho. apply fetch_buys in Ho. tauto.
  - intros Ho. apply fetch_sells in Ho. tauto.
  - intros Hpair o Hb Hs. apply fetch_buys in Hb. apply fetch_sells in Hs.
    destruct Hb as (_ & Hb & _). destruct Hs as (_ & _ & Hs). congruence.
Qed.

(** X8.  Every [CancelOrder] the cleanup step emits names an order that the
    exchange reports for the bot's address and that belongs to the
    configured pair: it sells the token for ether or buys it with ether.
    Orders of the bot on other pairs are never cancelled. *)
Theorem cleanup_cancels_only_orders_of_the_pair
    (this : MarketMaker.t) (env : Env) :
  forall a, In a (MarketMaker.cleanupOrders this env) ->
    exists o,
      a = Vocabulary.cancelOf this o
      /\ In o (ordersForAddress (saturn env) (MarketMaker.botAddress this))
      /\ ((selltoken o = MarketMaker.token this
           /\ buytoken o = MarketMaker.EtherAddress)
          \/ (buytoken o = MarketMaker.token this
              /\ selltoken o = MarketMaker.EtherAddress)).
Proof.
  intros a Ha. rewrite cleanupOrders_unfold in Ha.
  apply in_map_iff in Ha. destruct Ha as (o & <- & Ho).
  exists o. split; [reflexivity|].
  unfold Vocabulary.ownSells, Vocabulary.ownBuys in Ho.
  rewrite !in_app_iff, !filter_In, !fetch_sells, !fetch_buys in Ho. tauto.
Qed.

(** X8 at the market where the bot's only order is a stray ask. *)
Lemma cleanup_cancels_only_orders_of_the_pair_witness :
  exists o,
    Vocabulary.cancelOf Sample.mm Sample.stray = Vocabulary.cancelOf Sample.mm o
    /\ In o [Sample.stray]
    /\ ((selltoken o = Sample.tok /\ buytoken o = MarketMaker.EtherAddress)
        \/ (buytoken o = Sample.tok /\ selltoken o = MarketMaker.EtherAddress)).
Proof.
  apply (cleanup_cancels_only_orders_of_the_pair Sample.mm Sample.env_stray).
  vm_compute. left. reflexivity.
Defined.

(** * Further properties of the depth chart *)

(** ** The sides of a chart *)

Section Sides.

Import BigNumber Vocabulary OrderBookChart.

(** The comparison function of the sort gives the sign of the difference
    of two prices that are equal or far enough apart for a double. *)
Lemma lt_byPrice (x y : Order) (px py : Q) :
  price x = Fin px -> price y = Fin py ->
  py == px \/ DOUBLE_UNDERFLOW < Qabs (py - px) ->
  (Js.lt (byPrice y x) zero = true <-> py < px).
Proof.
  intros Hx Hy Hapart. unfold byPrice, Js.lt, zero. rewrite Hx, Hy. simpl minus.
  unfold toNumber.
  destruct (Qle_bool (Qabs (py - px)) DOUBLE_UNDERFLOW) eqn:Htiny.
  - apply Qle_bool_iff in Htiny. rewrite lt_Fin.
    assert (py == px) as Heq by (destruct Hapart as [Heq|Hfar]; [exact Heq | lra]).
    split; intros; lra.
  - destruct (Qle_bool DOUBLE_OVERFLOW (Qabs (py - px))).
    + unfold lt, is_neg. simpl.
      destruct (Qle_bool 0 (py - px)) eqn:Hsign; simpl.
      * apply Qle_bool_iff in Hsign. split; [discriminate | intros; lra].
      * split; [intros _|reflexivity].
        apply Qnot_le_lt. intros Hle.
        assert (Qle_bool 0 (py - px) = true) by (apply Qle_bool_iff; lra).
        congruence.
    + rewrite lt_Fin. split; intros; lra.
Qed.

(** A list all of whose prices are prices of a distinguishable list is
    distinguishable. *)
Lemma distinguishable_prices (xs ys : list Order) :
  (forall p, In p (map price ys) -> In p (map price xs)) ->
  distinguishable xs -> distinguishable ys.
Proof.
  intros Hsub Hxs a b pa pb Ha Hb Hpa Hpb.
  assert (In (Fin pa) (map price xs)) as Ha'
    by (apply Hsub; rewrite <- Hpa; now apply in_map).
  assert (In (Fin pb) (map price xs)) as Hb'
    by (apply Hsub; rewrite <- Hpb; now apply in_map).
  apply in_map_iff in Ha', Hb'.
  destruct Ha' as (a' & Ha' & Hina). destruct Hb' as (b' & Hb' & Hinb).
  exact (Hxs a' b' pa pb Hina Hinb Ha' Hb').
Qed.

Lemma insert_sorted_perm (x : Order) (l : list Order) :
  Permutation (insert_sorted x l) (x :: l).
Proof.
  induction l as [|y l IH]; simpl; [reflexivity|].
  destruct (Js.lt _ _); [|reflexivity].
  rewrite IH. apply perm_swap.
Qed.

Lemma sorted_perm (xs : list Order) :
  Permutation (fold_right insert_sorted [] xs) xs.
Proof.
  induction xs as [|x xs IH]; simpl; [reflexivity|].
  rewrite insert_sorted_perm. now constructor.
Qed.

Lemma insert_sorted_ascending (x : Order) (l : list Order) :
  finite (price x) -> Forall (fun o => finite (price o)) l ->
  distinguishable (x :: l) ->
  ascending l -> ascending (insert_sorted x l).
Proof.
  intros [px Hx] Hfin Hapart Hl. unfold ascending in *.
  induction Hl as [|y l Hl IH Hy]; simpl.
  - repeat constructor.
  - inversion Hfin as [|? ? [py Hpy] Hfin']; subst.
    assert (py == px \/ DOUBLE_UNDERFLOW < Qabs (py - px)) as Hxy.
    { apply (Hapart y x); simpl; auto. }
    destruct (Js.lt (byPrice y x) zero) eqn:E.
    + apply (lt_byPrice x y px py Hx Hpy Hxy) in E.
      constructor.
      * apply IH; [exact Hfin'|].
        intros a b pa pb Ha Hb. apply Hapart; simpl in *; tauto.
      * apply insert_sorted_Forall; [|exact Hy].
        rewrite Hpy, Hx. apply lte_Fin. lra.
    + assert (px <= py) as Hle.
      { apply Qnot_lt_le. intros Hlt.
        apply (lt_byPrice x y px py Hx Hpy Hxy) in Hlt. congruence. }
      constructor; [now constructor|].
      constructor; [rewrite Hx, Hpy; now apply lte_Fin|].
      rewrite Forall_forall in Hy, Hfin' |- *. intros z Hz.
      destruct (Hfin' z Hz) as [pz Hpz].
      specialize (Hy z Hz). rewrite Hpy, Hpz in Hy. apply lte_Fin in Hy.
      rewrite Hx, Hpz. apply lte_Fin. lra.
Qed.

Lemma sorted_ascending (xs : list Order) :
  Forall (fun o => finite (price o)) xs ->
  distinguishable xs ->
  ascending (fold_right insert_sorted [] xs).
Proof.
  induction 1 as [|x xs Hx Hxs IH]; intros Hapart; simpl; [constructor|].
  apply insert_sorted_ascending; [exact Hx | now apply sorted_Forall | |].
  - apply (distinguishable_prices (x :: xs)); [|exact Hapart].
    intros p Hp. simpl in Hp |- *. destruct Hp as [Hp|Hp]; [now left|right].
    eapply Permutation_in; [|exact Hp].
    apply Permutation_map, sorted_perm.
  - apply IH. intros a b pa pb Ha Hb. apply Hapart; now right.
Qed.

(** What the loop of the filter keeps: orders of its input, in their
    order and at their prices, all of them unless it truncates. *)
Lemma filterLoop_structure (u acc : BigNumber) (rest : list Order) :
  let kept := fst (filterLoop u acc rest) in
  (length kept <= length rest)%nat
  /\ map price kept = firstn (length kept) (map price rest)
  /\ (snd (filterLoop u acc rest) = false -> kept = rest).
Proof.
  revert acc. induction rest as [|o rest IH]; intros acc; simpl.
  - repeat split; lia.
  - destruct (lte _ _).
    + specialize (IH (plus acc (notional o))).
      destruct (filterLoop u (plus acc (notional o)) rest) as [kept trunc].
      simpl in *. destruct IH as (Hlen & Hprice & Hall).
      repeat split; [lia | now f_equal | intros H; f_equal; auto].
    + simpl. repeat split; [lia | discriminate].
Qed.

(** With two orders or more to filter the constructor returns, whatever
    the numbers are. *)
Lemma new_returns (buys_arg sells_arg : list Order) :
  (2 <= length buys_arg)%nat ->
  exists c o0 o1 rest,
    OrderBookChart.new buys_arg sells_arg = inr c
    /\ buys_arg = o0 :: o1 :: rest
    /\ buys c = map Some (fold_right insert_sorted [] sells_arg)
    /\ buyDepth c
       = fold_left plus
           (map notional (fold_right insert_sorted [] sells_arg)) zero
    /\ let loop := filterLoop (times (buyDepth c) (Fin 1.5)) zero rest in
       sells c = map Some (fold_right insert_sorted [] (o0 :: o1 :: fst loop))
       /\ sellDepth c
          = fold_left plus
              (map notional (fold_right insert_sorted [] (o0 :: o1 :: fst loop)))
              zero
       /\ truncated c = snd loop.
Proof.
  intros Hnb.
  destruct buys_arg as [|o0 [|o1 rest]]; try (simpl in Hnb; lia).
  unfold OrderBookChart.new.
  rewrite sort_all_defined, depth_all_defined, bind_inr.
  unfold filterSellOrders. simpl skipn. simpl nth_error.
  destruct (filterLoop _ zero rest) as [kept trunc] eqn:Hloop.
  change (Some o0 :: Some o1 :: map Some kept) with (map Some (o0 :: o1 :: kept)).
  rewrite sort_all_defined, depth_all_defined, bind_inr.
  eexists. exists o0, o1, rest. split; [reflexivity|]. simpl.
  rewrite Hloop. simpl. repeat split; reflexivity.
Qed.

End Sides.

(** X9.  From two or more orders to filter, when the prices of each side
    are numbers that the comparison function of the sort tells apart (two
    prices of a side are equal or differ by more than 2^-1075, below which
    the difference converted to a double is 0), the constructor returns a
    chart without [undefined] slots whose two sides are each in ascending
    order of price.  The chart's [buys] are the [sells] it is given,
    reordered; its [sells] number at least two and at most as many as the
    [buys] it is given, and are those, reordered, unless the chart is
    truncated. *)
Theorem chart_sides_are_sorted_by_price (buys_arg sells_arg : list Order) :
  (2 <= length buys_arg)%nat ->
  Forall (fun o => Vocabulary.finite (price o)) buys_arg ->
  Forall (fun o => Vocabulary.finite (price o)) sells_arg ->
  Vocabulary.distinguishable buys_arg ->
  Vocabulary.distinguishable sells_arg ->
  exists c bs ss,
    OrderBookChart.new buys_arg sells_arg = inr c
    /\ OrderBookChart.buys c = map Some bs
    /\ OrderBookChart.sells c = map Some ss
    /\ Permutation bs sells_arg
    /\ Vocabulary.ascending bs /\ Vocabulary.ascending ss
    /\ (2 <= length ss <= length buys_arg)%nat
    /\ (OrderBookChart.truncated c = false -> Permutation ss buys_arg).
Proof.
  intros Hnb Hb Hs Hb_apart Hs_apart.
  destruct (new_returns buys_arg sells_arg Hnb)
    as (c & o0 & o1 & rest & Hc & -> & Hbuys & _ & Hsells & _ & Htrunc).
  set (loop := OrderBookChart.filterLoop
                 (BigNumber.times (OrderBookChart.buyDepth c) (BigNumber.Fin 1.5))
                 BigNumber.zero rest) in *.
  destruct (filterLoop_structure
              (BigNumber.times (OrderBookChart.buyDepth c) (BigNumber.Fin 1.5))
              BigNumber.zero rest) as (Hlen & Hprice & Hall).
  fold loop in Hlen, Hprice, Hall.
  assert (forall p, In p (map price (fst loop)) -> In p (map price rest)) as Hkept.
  { intros p Hp. rewrite Hprice in Hp.
    rewrite <- (firstn_skipn (length (fst loop)) (map price rest)).
    apply in_or_app. now left. }
  exists c, (fold_right OrderBookChart.insert_sorted [] sells_arg),
    (fold_right OrderBookChart.insert_sorted [] (o0 :: o1 :: fst loop)).
  split; [exact Hc|]. split; [exact Hbuys|]. split; [exact Hsells|].
  split; [apply sorted_perm|]. split; [now apply sorted_ascending|].
  inversion Hb as [|? ? Ho0 Hb']; subst. inversion Hb' as [|? ? Ho1 Hrest]; subst.
  split; [|split].
  - apply sorted_ascending.
    + constructor; [exact Ho0|]. constructor; [exact Ho1|].
      assert (Forall Vocabulary.finite (map price (fst loop))) as Hfin.
      { apply Forall_forall. intros p Hp. apply Hkept in Hp.
        apply in_map_iff in Hp. destruct Hp as (o & <- & Ho).
        rewrite Forall_forall in Hrest. now apply Hrest. }
      rewrite Forall_map in Hfin. exact Hfin.
    + apply (distinguishable_prices (o0 :: o1 :: rest)); [|exact Hb_apart].
      intros p Hp. simpl in Hp |- *. destruct Hp as [Hp|[Hp|Hp]]; auto.
  - rewrite sorted_length. simpl. lia.
  - intros Hfalse. rewrite sorted_perm, Hall; [reflexivity|].
    rewrite <- Htrunc. exact Hfalse.
Qed.

(** X9 at the asks and bids of the market with the deeper bids, whose
    prices, 1.2 and 1.3, and 1 and 0.9, are 0.1 apart. *)
Lemma chart_sides_are_sorted_by_price_witness :
  exists c bs ss,
    OrderBookChart.new (buys Sample.deep_bids) (sells Sample.deep_bids) = inr c
    /\ OrderBookChart.buys c = map Some bs
    /\ OrderBookChart.sells c = map Some ss
    /\ Permutation bs (sells Sample.deep_bids)
    /\ Vocabulary.ascending bs /\ Vocabulary.ascending ss.
Proof.
  destruct (chart_sides_are_sorted_by_price
              (buys Sample.deep_bids) (sells Sample.deep_bids))
    as (c & bs & ss & Hc & Hb & Hs & Hperm & Hbs & Hss & _).
  - simpl. lia.
  - repeat constructor; eexists; reflexivity.
  - repeat constructor; eexists; reflexivity.
  - intros a b pa pb [<-|[<-|[]]] [<-|[<-|[]]] Ha Hb;
      injection Ha as <-; injection Hb as <-;
      first [left; reflexivity | right; vm_compute; reflexivity].
  - intros a b pa pb [<-|[<-|[]]] [<-|[<-|[]]] Ha Hb;
      injection Ha as <-; injection Hb as <-;
      first [left; reflexivity | right; vm_compute; reflexivity].
  - exists c, bs, ss. repeat split; assumption.
Defined.

(** Two asks whose prices are closer than any two doubles are left in the
    order in which they come, the dearer first: the difference of their
    prices, converted to a double, is 0. *)
Example close_prices_are_left_unsorted :
  OrderBookChart.byPrice (Sample.order true "s1" 1 2e-400)
    (Sample.order true "s2" 1 1e-400) = BigNumber.Fin 0
  /\ OrderBookChart.sort (map Some Sample.close_asks) = map Some Sample.close_asks.
Proof. vm_compute. split; reflexivity. Qed.

(** ** The depths of a chart and of the strategy *)

Section BookDepths.

Import BigNumber Vocabulary OrderBookChart.

Lemma numeric_notional (o : Order) :
  numeric o -> notional o = Fin (qnotional o).
Proof.
  intros [[b Hb] [p Hp]]. unfold qnotional, notional. rewrite Hb, Hp. reflexivity.
Qed.

Lemma fold_plus_numeric (xs : list Order) (a : Q) :
  Forall numeric xs ->
  exists r, fold_left plus (map notional xs) (Fin a) = Fin r
            /\ r == a + Qsum (map qnotional xs).
Proof.
  intros Hxs. revert a.
  induction Hxs as [|o xs Ho _ IH]; intros a; simpl.
  - exists a. split; [reflexivity | ring].
  - rewrite (numeric_notional o Ho). simpl.
    destruct (IH (a + qnotional o)) as [r [Hr Heq]].
    exists r. split; [exact Hr|]. rewrite Heq. ring.
Qed.

Lemma Qsum_perm (xs ys : list Q) : Permutation xs ys -> Qsum xs == Qsum ys.
Proof.
  induction 1 as [|x xs ys _ IH|x y xs|xs ys zs _ IH1 _ IH2]; simpl.
  - reflexivity.
  - now rewrite IH.
  - ring.
  - now rewrite IH1.
Qed.

Lemma sorted_total (xs : list Order) :
  Qsum (map qnotional (fold_right insert_sorted [] xs)) == Qsum (map qnotional xs).
Proof. apply Qsum_perm, Permutation_map, sorted_perm. Qed.

End BookDepths.

(** X10.  The chart of the strategy's order book measures the same depths as
    the strategy.  When the prices and balances of the book are numbers and
    the book has two buy orders or more, the constructor returns a chart
    whose [buyDepth] is the strategy's [sellDepth], the sum of the notionals
    of the book's sells, and whose [sellDepth] is the strategy's [buyDepth]
    unless the chart is truncated. *)
Theorem chart_depths_are_the_depths_of_the_book (this : MarketMaker.t) (env : Env) :
  let book := MarketMaker.orderBook this env in
  (2 <= length (buys book))%nat ->
  Forall Vocabulary.numeric (buys book) ->
  Forall Vocabulary.numeric (sells book) ->
  exists c d_buy d_sell sd bd,
    OrderBookChart.new (buys book) (sells book) = inr c
    /\ OrderBookChart.buyDepth c = BigNumber.Fin d_buy
    /\ MarketMaker.sellDepth this env = BigNumber.Fin sd
    /\ MarketMaker.buyDepth this env = BigNumber.Fin bd
    /\ d_buy == sd
    /\ sd == Vocabulary.Qsum (map Vocabulary.qnotional (sells book))
    /\ (OrderBookChart.truncated c = false ->
        OrderBookChart.sellDepth c = BigNumber.Fin d_sell /\ d_sell == bd).
Proof.
  intros book Hnb Hb Hs.
  destruct (new_returns (buys book) (sells book) Hnb)
    as (c & o0 & o1 & rest & Hc & Hbook & _ & Hbuy & Hsells & Hsell & Htrunc).
  destruct (fold_plus_numeric (fold_right OrderBookChart.insert_sorted [] (sells book)) 0)
    as (d_buy & Hd_buy & Hd_buy_sum); [now apply sorted_Forall|].
  destruct (fold_plus_numeric (sells book) 0 Hs) as (sd & Hsd & Hsd_sum).
  destruct (fold_plus_numeric (buys book) 0 Hb) as (bd & Hbd & Hbd_sum).
  destruct (fold_plus_numeric
              (fold_right OrderBookChart.insert_sorted [] (buys book)) 0)
    as (d_sell & Hd_sell & Hd_sell_sum); [now apply sorted_Forall|].
  exists c, d_buy, d_sell, sd, bd.
  split; [exact Hc|]. split; [now rewrite Hbuy|].
  split; [exact Hsd|]. split; [exact Hbd|].
  split; [rewrite Hd_buy_sum, Hsd_sum, sorted_total; reflexivity|].
  split; [rewrite Hsd_sum; ring|].
  intros Hfalse.
  destruct (filterLoop_structure
              (BigNumber.times (OrderBookChart.buyDepth c) (BigNumber.Fin 1.5))
              BigNumber.zero rest) as (_ & _ & Hall).
  rewrite Htrunc in Hfalse. rewrite Hsell, (Hall Hfalse), <- Hbook.
  split; [exact Hd_sell|].
  rewrite Hd_sell_sum, Hbd_sum, sorted_total. reflexivity.
Qed.

(** X10 at the market with the deeper bids: depths 12.5 and 19. *)
Lemma chart_depths_are_the_depths_of_the_book_witness :
  exists c d_buy sd,
    OrderBookChart.new (buys Sample.deep_bids) (sells Sample.deep_bids) = inr c
    /\ OrderBookChart.buyDepth c = BigNumber.Fin d_buy
    /\ MarketMaker.sellDepth Sample.mm Sample.env_deep_bids = BigNumber.Fin sd
    /\ d_buy == sd.
Proof.
  destruct (chart_depths_are_the_depths_of_the_book Sample.mm Sample.env_deep_bids)
    as (c & d_buy & d_sell & sd & bd & Hc & Hd & Hsd & _ & Heq & _).
  - simpl. lia.
  - repeat constructor; eexists; reflexivity.
  - repeat constructor; eexists; reflexivity.
  - exists c, d_buy, sd. repeat split; assumption.
Defined.

(** ** The two curves *)

Section Curves.

Import BigNumber Vocabulary OrderBookChart.

Lemma Qsum_firstn_mono (xs : list Order) :
  Forall plottable xs ->
  forall i j, (i <= j)%nat ->
    Qsum (map qnotional (firstn i xs)) <= Qsum (map qnotional (firstn j xs)).
Proof.
  induction 1 as [|o xs Ho Hxs IH]; intros i j Hij.
  - rewrite !firstn_nil. simpl. lra.
  - destruct i as [|i]; destruct j as [|j]; simpl; try lia; try lra.
    + destruct (plottable_notional o Ho) as [_ Hpos].
      destruct (Qsum_firstn_le xs j Hxs). lra.
    + specialize (IH i j ltac:(lia)). lra.
Qed.

(** Past the last order the loops of the two depth functions read an
    [undefined] slot. *)
Lemma walk_throws (op : BigNumber -> BigNumber -> BigNumber) (xs : orders) :
  forall (k : nat) (acc : BigNumber), (length xs < k)%nat ->
    Js.forM (seq 0 k)
      (fun i result =>
         e <- etherBalance (at_index xs i) ;; Js.ret (op result e)) acc
    = inl Js.TypeError.
Proof.
  induction xs as [|[o|] xs IH]; intros k acc Hk.
  - destruct k as [|k]; [simpl in Hk; lia | reflexivity].
  - destruct k as [|k]; [simpl in Hk; lia|].
    rewrite walk_cons. apply IH. simpl in Hk. lia.
  - destruct k as [|k]; [simpl in Hk; lia | reflexivity].
Qed.

Lemma buyDepthAtIndex_throws (c : OrderBookChart.t) (idx : nat) :
  (length (buys c) <= idx)%nat -> buyDepthAtIndex c idx = inl Js.TypeError.
Proof. intros Hidx. unfold buyDepthAtIndex. apply walk_throws. lia. Qed.

Lemma sellDepthAtIndex_throws (c : OrderBookChart.t) (idx : nat) :
  (length (sells c) <= idx)%nat -> sellDepthAtIndex c idx = inl Js.TypeError.
Proof. intros Hidx. unfold sellDepthAtIndex. apply walk_throws. lia. Qed.

Variable c : OrderBookChart.t.
Variables (bs ss : list Order) (d_buy d_sell : Q).
Hypothesis Hbuys : buys c = map Some bs.
Hypothesis Hsells : sells c = map Some ss.
Hypothesis Hbs : Forall plottable bs.
Hypothesis Hss : Forall plottable ss.
Hypothesis Hbuy : buyDepth c = Fin d_buy.
Hypothesis Hbuy_sum : d_buy == Qsum (map qnotional bs).

Lemma buyDepthAtIndex_value (idx : nat) :
  (idx < length bs)%nat ->
  exists d, buyDepthAtIndex c idx = inr (Fin d)
            /\ d == d_buy - Qsum (map qnotional (firstn (idx + 1) bs)).
Proof.
  intros Hidx. unfold buyDepthAtIndex. rewrite Hbuys, Hbuy.
  apply walk_minus; [exact Hbs | lia].
Qed.

Lemma sellDepthAtIndex_value (idx : nat) :
  (idx < length ss)%nat ->
  exists d, sellDepthAtIndex c idx = inr (Fin d)
            /\ d == Qsum (map qnotional (firstn (idx + 1) ss)).
Proof.
  intros Hidx. unfold sellDepthAtIndex. rewrite Hsells.
  destruct (walk_plus ss Hss (idx + 1) 0) as (r & Hr & Heq); [lia|].
  exists r. split; [exact Hr|]. rewrite Heq. ring.
Qed.

End Curves.

(** X11.  On a drawable chart the curve of the buys descends and the curve
    of the sells ascends.  The depth at an index of the buys is never
    negative and never more than the depth at an earlier index, and at the
    last index it is 0; the depth at an index of the sells is never negative
    and never less than the depth at an earlier index, and at the last index
    it is the chart's [sellDepth]. *)
Theorem depth_curves_are_monotone (c : OrderBookChart.t) :
  Vocabulary.drawable c ->
  (forall i j, (i <= j < length (OrderBookChart.buys c))%nat ->
     exists di dj,
       OrderBookChart.buyDepthAtIndex c i = inr (BigNumber.Fin di)
       /\ OrderBookChart.buyDepthAtIndex c j = inr (BigNumber.Fin dj)
       /\ 0 <= dj /\ dj <= di)
  /\ (forall i j, (i <= j < length (OrderBookChart.sells c))%nat ->
        exists di dj,
          OrderBookChart.sellDepthAtIndex c i = inr (BigNumber.Fin di)
          /\ OrderBookChart.sellDepthAtIndex c j = inr (BigNumber.Fin dj)
          /\ 0 <= di /\ di <= dj)
  /\ (exists d,
        OrderBookChart.buyDepthAtIndex c (length (OrderBookChart.buys c) - 1)
        = inr (BigNumber.Fin d)
        /\ d == 0)
  /\ (exists d total,
        OrderBookChart.sellDepthAtIndex c (length (OrderBookChart.sells c) - 1)
        = inr (BigNumber.Fin d)
        /\ OrderBookChart.sellDepth c = BigNumber.Fin total
        /\ d == total).
Proof.
  intros (bs & ss & D & S & Hbuys & Hsells & Hbs & Hss & HD & HS
          & HDsum & HSsum & Hnb & Hns & HDpos).
  assert (length (OrderBookChart.buys c) = length bs) as Hlb
    by (rewrite Hbuys; apply length_map).
  assert (length (OrderBookChart.sells c) = length ss) as Hls
    by (rewrite Hsells; apply length_map).
  rewrite Hlb, Hls.
  pose proof (buyDepthAtIndex_value c bs D Hbuys Hbs HD) as Hbuy_at.
  pose proof (sellDepthAtIndex_value c ss Hsells Hss) as Hsell_at.
  split; [|split; [|split]].
  - intros i j Hij.
    destruct (Hbuy_at i) as (di & Hdi & Hi); [lia|].
    destruct (Hbuy_at j) as (dj & Hdj & Hj); [lia|].
    exists di, dj. split; [exact Hdi|]. split; [exact Hdj|].
    pose proof (Qsum_firstn_mono bs Hbs (i + 1) (j + 1) ltac:(lia)).
    destruct (Qsum_firstn_le bs (j + 1) Hbs). lra.
  - intros i j Hij.
    destruct (Hsell_at i) as (di & Hdi & Hi); [lia|].
    destruct (Hsell_at j) as (dj & Hdj & Hj); [lia|].
    exists di, dj. split; [exact Hdi|]. split; [exact Hdj|].
    pose proof (Qsum_firstn_mono ss Hss (i + 1) (j + 1) ltac:(lia)).
    destruct (Qsum_firstn_le ss (i + 1) Hss). lra.
  - destruct (Hbuy_at (length bs - 1)%nat) as (d & Hd & Heq); [lia|].
    exists d. split; [exact Hd|].
    replace (length bs - 1 + 1)%nat with (length bs) in Heq by lia.
    rewrite firstn_all in Heq. lra.
  - destruct (Hsell_at (length ss - 1)%nat) as (d & Hd & Heq); [lia|].
    exists d, S. split; [exact Hd|]. split; [exact HS|].
    replace (length ss - 1 + 1)%nat with (length ss) in Heq by lia.
    rewrite firstn_all in Heq. lra.
Qed.

Lemma sample_chart_drawable : Vocabulary.drawable (Sample.chart Sample.deep_bids).
Proof.
  exists [Sample.order true "s1" 5 1.2; Sample.order true "s2" 5 1.3],
    [Sample.order false "b2" 10 0.9; Sample.order false "b1" 10 1].
  eexists. eexists.
  split; [reflexivity|]. split; [reflexivity|].
  split; [repeat constructor; apply resting_plottable, sample_order_resting;
          reflexivity|].
  split; [repeat constructor; apply resting_plottable, sample_order_resting;
          reflexivity|].
  split; [reflexivity|]. split; [reflexivity|].
  split; [vm_compute; reflexivity|]. split; [vm_compute; reflexivity|].
  split; [simpl; lia|]. split; [simpl; lia|].
  vm_compute. reflexivity.
Qed.

(** X11 at the chart of the market with the deeper bids: the buys end at
    depth 0. *)
Lemma depth_curves_are_monotone_witness :
  exists d,
    OrderBookChart.buyDepthAtIndex (Sample.chart Sample.deep_bids) 1
    = inr (BigNumber.Fin d)
    /\ d == 0.
Proof.
  exact (proj1 (proj2 (proj2
           (depth_curves_are_monotone (Sample.chart Sample.deep_bids)
              sample_chart_drawable)))).
Defined.

(** X12.  Asked for the depth at an index past the last order of the side,
    [buyDepthAtIndex] and [sellDepthAtIndex] throw a [TypeError], whatever
    the chart holds. *)
Theorem depth_past_the_last_order_throws (c : OrderBookChart.t) (idx : nat) :
  ((length (OrderBookChart.buys c) <= idx)%nat ->
   OrderBookChart.buyDepthAtIndex c idx = inl Js.TypeError)
  /\ ((length (OrderBookChart.sells c) <= idx)%nat ->
      OrderBookChart.sellDepthAtIndex c idx = inl Js.TypeError).
Proof.
  split; [apply buyDepthAtIndex_throws | apply sellDepthAtIndex_throws].
Qed.

(** ** What [plot] needs *)

Section Needs.

Import BigNumber Vocabulary OrderBookChart.

Lemma new_buys (buys_arg sells_arg : list Order) (c : OrderBookChart.t) :
  OrderBookChart.new buys_arg sells_arg = inr c ->
  buys c = map Some (fold_right insert_sorted [] sells_arg).
Proof.
  unfold OrderBookChart.new.
  rewrite sort_all_defined, depth_all_defined, bind_inr.
  destruct (filterSellOrders _ buys_arg) as [filtered trunc].
  destruct (depth (sort filtered)) as [e|d]; [discriminate|].
  rewrite bind_inr. intros H. injection H as <-. reflexivity.
Qed.

End Needs.

(** X13.  [plot] reads the depth at the first buy and at the second sell
    before it draws the curves: for a chart without a buy, or with fewer
    than two sells, it throws.  Hence the printer throws for every order
    book without a sell order, the side that becomes the chart's buys. *)
Theorem plot_needs_one_buy_and_two_sells :
  (forall c,
      (length (OrderBookChart.buys c) = 0)%nat
      \/ (length (OrderBookChart.sells c) < 2)%nat ->
      exists e, OrderBookChart.plot c = inl e)
  /\ (forall book, sells book = [] -> exists e, OrderBookPrinter.print book = inl e).
Proof.
  assert (forall c,
             (length (OrderBookChart.buys c) = 0)%nat
             \/ (length (OrderBookChart.sells c) < 2)%nat ->
             exists e, OrderBookChart.plot c = inl e) as Hplot.
  { intros c Hc.
    unfold OrderBookChart.plot. cbv zeta.
    destruct Hc as [Hc|Hc];
    repeat match goal with
           | |- exists e, Js.bind (OrderBookChart.buyDepthAtIndex c ?i) _ = inl e =>
               rewrite (buyDepthAtIndex_throws c i) by lia; eexists; reflexivity
           | |- exists e, Js.bind (OrderBookChart.sellDepthAtIndex c ?i) _ = inl e =>
               rewrite (sellDepthAtIndex_throws c i) by lia; eexists; reflexivity
           | |- exists e, Js.bind ?m _ = inl e =>
               let E := fresh "E" in
               destruct m as [e|?] eqn:E;
               [exists e; reflexivity | rewrite bind_inr]
           end. }
  split; [exact Hplot|].
  intros book Hbook. unfold OrderBookPrinter.print. rewrite Hbook.
  destruct (OrderBookChart.new (buys book) []) as [e|c] eqn:Hc.
  - exists e. reflexivity.
  - rewrite bind_inr. apply Hplot. left.
    rewrite (new_buys _ _ _ Hc). reflexivity.
Qed.

(** ** The shape of the plot *)

Section Shape.

Import BigNumber Vocabulary OrderBookChart.

Lemma bind_inv {A B : Type} (m : Js.M A) (k : A -> Js.M B) (b : B) :
  Js.bind m k = inr b -> exists a, m = inr a /\ k a = inr b.
Proof.
  destruct m as [e|a]; simpl; [discriminate|]. intros H. now exists a.
Qed.

(** What the body of a loop preserves whenever it returns, the loop
    preserves whenever it returns. *)
Lemma forM_preserves {A S : Type} (Inv : S -> Prop) (body : A -> S -> Js.M S)
    (xs : list A) :
  (forall x s s', In x xs -> body x s = inr s' -> Inv s -> Inv s') ->
  forall s s', Js.forM xs body s = inr s' -> Inv s -> Inv s'.
Proof.
  induction xs as [|x xs IH]; intros Hbody s s' Hrun Hs; simpl in Hrun.
  - injection Hrun as <-. exact Hs.
  - apply bind_inv in Hrun. destruct Hrun as (s1 & H1 & Hrun).
    apply (IH (fun y s0 s0' Hy => Hbody y s0 s0' (or_intror Hy)) s1 s' Hrun).
    apply (Hbody x s s1); [now left | exact H1 | exact Hs].
Qed.

Lemma assign_length (row : list cell) (col : nat) (v : cell) :
  (col < length row)%nat -> length (assign row col v) = length row.
Proof.
  intros Hcol. unfold assign.
  destruct (Nat.ltb_spec col (length row)); [|lia].
  rewrite length_app. cbn [length]. rewrite length_firstn, length_skipn. lia.
Qed.

Lemma assign_at_the_end (row : list cell) (v : cell) :
  length (assign row (length row) v) = S (length row).
Proof.
  unfold assign. rewrite Nat.ltb_irrefl, Nat.sub_diag.
  simpl. rewrite length_app. simpl. lia.
Qed.

Lemma row_of_grid (g : grid) (i : nat) (row : list cell) :
  nth_error g i = Some row ->
  g = firstn i g ++ row :: skipn (S i) g.
Proof.
  revert i. induction g as [|first g IH]; intros [|i] Hrow; simpl in Hrow;
    try discriminate.
  - injection Hrow as <-. reflexivity.
  - simpl. f_equal. now apply IH.
Qed.

Variables (height width : nat).

Lemma put_rectangle (g g' : grid) (r : Js.number) (col : nat) (v : cell) :
  (col < width)%nat -> put g r col v = inr g' ->
  rectangle height width g -> rectangle height width g'.
Proof.
  intros Hcol Hput [Hlen Hrows]. unfold put in Hput.
  destruct (Js.index r) as [i|]; [|discriminate].
  destruct (nth_error g i) as [row|] eqn:Hrow; [|discriminate].
  injection Hput as <-.
  pose proof (row_of_grid g i row Hrow) as Hg.
  rewrite Hg in Hlen, Hrows.
  apply Forall_app in Hrows. destruct Hrows as [H1 H2].
  apply Forall_cons_iff in H2. destruct H2 as [Hr H3].
  split.
  - rewrite length_app in Hlen |- *. cbn [length] in Hlen |- *. exact Hlen.
  - apply Forall_app. split; [exact H1|]. constructor; [|exact H3].
    rewrite assign_length; [exact Hr | lia].
Qed.

Lemma vertical_rectangle (rows : Js.number) (col : nat) (c : colour) (fuel : nat) :
  (col < width)%nat ->
  forall (y : Js.number) (g g' : grid),
    vertical fuel rows col c y g = inr g' ->
    rectangle height width g -> rectangle height width g'.
Proof.
  intros Hcol. induction fuel as [|fuel IH]; intros y g g' Hrun Hg; simpl in Hrun.
  - injection Hrun as <-. exact Hg.
  - apply bind_inv in Hrun. destruct Hrun as (g1 & H1 & Hrun).
    apply (IH _ g1 g' Hrun). exact (put_rectangle _ _ _ _ _ Hcol H1 Hg).
Qed.

Lemma stroke_rectangle (rows : Js.number) (col : nat) (c : colour)
    (y0 y1 : Js.number) (g g' : grid) :
  (col < width)%nat ->
  stroke rows col c y0 y1 g = inr g' ->
  rectangle height width g -> rectangle height width g'.
Proof.
  intros Hcol Hrun Hg. unfold stroke in Hrun.
  destruct (Js.eq y0 y1).
  - exact (put_rectangle _ _ _ _ _ Hcol Hrun Hg).
  - apply bind_inv in Hrun. destruct Hrun as (g1 & H1 & Hrun).
    apply bind_inv in Hrun. destruct Hrun as (g2 & H2 & Hrun).
    apply (vertical_rectangle _ _ _ _ Hcol _ g2 g' Hrun).
    apply (put_rectangle _ _ _ _ _ Hcol H2).
    exact (put_rectangle _ _ _ _ _ Hcol H1 Hg).
Qed.

Lemma axis_rectangle (max range rows min2 : Js.number) (offset : nat) (fuel : nat) :
  (Nat.max (offset - 11) 0 < width)%nat -> (offset - 1 < width)%nat ->
  forall (y : Js.number) (g g' : grid),
    axis fuel max range rows min2 offset y g = inr g' ->
    rectangle height width g -> rectangle height width g'.
Proof.
  intros Hlabel Htick.
  induction fuel as [|fuel IH]; intros y g g' Hrun Hg; simpl in Hrun.
  - injection Hrun as <-. exact Hg.
  - apply bind_inv in Hrun. destruct Hrun as (g1 & H1 & Hrun).
    apply bind_inv in Hrun. destruct Hrun as (g2 & H2 & Hrun).
    apply (IH _ g2 g' Hrun).
    apply (put_rectangle _ _ _ _ _ Htick H2).
    exact (put_rectangle _ _ _ _ _ Hlabel H1 Hg).
Qed.

(** The truncation mark is written past the end of the first row. *)
Lemma mark_extends_first_row (g g' : grid) (v : cell) :
  put g zero width v = inr g' ->
  rectangle height width g ->
  length g' = height
  /\ length (hd [] g') = S width
  /\ Forall (fun row => length row = width) (tl g').
Proof.
  intros Hput [Hlen Hrows]. unfold put in Hput.
  change (Js.index zero) with (Some 0%nat) in Hput.
  destruct g as [|row rest]; [discriminate|].
  simpl in Hput. injection Hput as <-.
  apply Forall_cons_iff in Hrows. destruct Hrows as [Hrow Hrest]. simpl.
  split; [exact Hlen|]. split; [|exact Hrest]. rewrite <- Hrow.
  apply assign_at_the_end.
Qed.

End Shape.

Section PlotShape.

Import BigNumber Vocabulary OrderBookChart.

Lemma blank_rectangle (n width : nat) :
  rectangle n width (repeat (repeat Blank width) n).
Proof.
  split; [apply repeat_length|].
  apply Forall_forall. intros row Hrow.
  apply repeat_spec in Hrow. subst. apply repeat_length.
Qed.

(** Whatever [plot] returns has as many rows as the canvas it began with,
    each as wide as the canvas, but for the first row of a truncated
    chart, which is one cell wider. *)
Lemma plot_shape (c : OrderBookChart.t) (g : grid) :
  plot c = inr g ->
  exists n,
    Js.new_Array (Js.add (plotRows c) one) = inr n
    /\ (1 <= n)%nat
    /\ length g = n
    /\ length (hd [] g)
       = (if truncated c then S (plotWidth c) else plotWidth c)
    /\ Forall (fun row => length row = plotWidth c) (tl g).
Proof.
  intros H. unfold plot in H. cbv zeta in H.
  apply bind_inv in H. destruct H as (n & Hn & H). cbv beta in H.
  apply bind_inv in H. destruct H as (r0 & Haxis & H).
  apply bind_inv in H. destruct H as (d & Hd & H).
  apply bind_inv in H. destruct H as (r1 & Hfirst & H).
  apply bind_inv in H. destruct H as (r2 & Hbuys & H).
  apply bind_inv in H. destruct H as (d0 & Hd0 & H).
  apply bind_inv in H. destruct H as (d1 & Hd1 & H).
  apply bind_inv in H. destruct H as (r3 & Hstart & H).
  apply bind_inv in H. destruct H as (r4 & Hsells & H).
  apply bind_inv in H. destruct H as (r5 & Hmark & H).
  injection H as <-.
  assert (rectangle n (plotWidth c) r0) as Hr0.
  { eapply axis_rectangle; [| |exact Haxis|apply blank_rectangle];
      unfold plotWidth; simpl; lia. }
  assert (1 <= n)%nat as Hn1.
  { destruct (put_names_a_row _ _ _ _ _ Hfirst) as (q & i & _ & _ & Hi).
    destruct Hr0 as [Hlen _]. lia. }
  assert (rectangle n (plotWidth c) r1) as Hr1.
  { eapply put_rectangle; [|exact Hfirst|exact Hr0]. unfold plotWidth. lia. }
  assert (rectangle n (plotWidth c) r2) as Hr2.
  { refine (forM_preserves _ _ _ _ _ _ Hbuys Hr1).
    intros x s s' Hx Hbody Hs. apply in_seq in Hx.
    apply bind_inv in Hbody. destruct Hbody as (e0 & _ & Hbody).
    apply bind_inv in Hbody. destruct Hbody as (e1 & _ & Hbody).
    eapply stroke_rectangle; [|exact Hbody|exact Hs]. unfold plotWidth. lia. }
  assert (rectangle n (plotWidth c) r3) as Hr3.
  { destruct (Js.neq _ _).
    - apply bind_inv in Hstart. destruct Hstart as (e1 & _ & Hstart).
      apply bind_inv in Hstart. destruct Hstart as (s1 & H1 & Hstart).
      apply bind_inv in Hstart. destruct Hstart as (s2 & H2 & Hstart).
      assert (length (buys c) + 3 - 1 < plotWidth c)%nat as Hcol
        by (unfold plotWidth; lia).
      eapply vertical_rectangle; [exact Hcol|exact Hstart|].
      eapply put_rectangle; [exact Hcol|exact H2|].
      eapply put_rectangle; [exact Hcol|exact H1|exact Hr2].
    - eapply put_rectangle; [|exact Hstart|exact Hr2]. unfold plotWidth. lia. }
  assert (rectangle n (plotWidth c) r4) as Hr4.
  { refine (forM_preserves _ _ _ _ _ _ Hsells Hr3).
    intros x s s' Hx Hbody Hs. apply in_seq in Hx.
    apply bind_inv in Hbody. destruct Hbody as (e0 & _ & Hbody).
    apply bind_inv in Hbody. destruct Hbody as (e1 & _ & Hbody).
    eapply stroke_rectangle; [|exact Hbody|exact Hs]. unfold plotWidth. lia. }
  exists n. split; [exact Hn|]. split; [exact Hn1|].
  destruct (truncated c).
  - destruct (mark_extends_first_row n (plotWidth c) r4 r5 _ Hmark Hr4)
      as (Hlen & Hhd & Htl).
    repeat split; assumption.
  - injection Hmark as <-. destruct Hr4 as [Hlen Hrows].
    destruct r4 as [|row rest]; [simpl in Hlen; lia|].
    inversion Hrows; subst. repeat split; assumption.
Qed.

(** The range of a drawable chart is a positive number. *)
Lemma drawable_range (c : OrderBookChart.t) :
  drawable c -> exists R, plotRange c = Fin R /\ 0 < R.
Proof.
  intros (bs & ss & D & S & _ & _ & _ & Hss & HD & HS & _ & HSsum & _ & _ & HDpos).
  unfold plotRange. rewrite HD, HS.
  destruct (gt (Fin D) (Fin S)) eqn:E.
  - exists D. split; [reflexivity | exact HDpos].
  - assert (D <= S) as Hle.
    { apply Qnot_lt_le. intros Hlt. apply gt_Fin in Hlt. congruence. }
    exists S. split; [reflexivity | lra].
Qed.

(** Below a range of 10^20 the scale is fine enough for the range to
    take 8 rows exactly, so that the canvas has 9. *)
Lemma nine_rows (c : OrderBookChart.t) (R : Q) :
  plotRange c = Fin R -> 0 < R -> R < inject_Z (pow10 20) ->
  Js.new_Array (Js.add (plotRows c) one) = inr 9%nat.
Proof.
  intros HR Hpos Hsmall. unfold plotRows. cbv zeta. rewrite HR.
  unfold dividedBy, of_Z. rewrite is_zero_false by lra.
  set (rho := round_dp DECIMAL_PLACES (inject_Z 8 / R)).
  pose proof (pow10_Qpos 20) as HP.
  set (h := (1 # 2) / inject_Z (pow10 20)).
  assert (inject_Z 8 / R - h <= rho) as Hlo by apply round_dp_lower.
  assert (rho <= inject_Z 8 / R + h) as Hhi by apply round_dp_upper.
  assert (R * h < 1 # 2) as Hh.
  { apply (Qmult_lt_r _ _ (inject_Z (pow10 20))); [exact HP|].
    setoid_replace (R * h * inject_Z (pow10 20)) with (R * (1 # 2))
      by (unfold h; field; lra).
    lra. }
  assert (R * (inject_Z 8 / R - h) <= R * rho) as Hlo'
    by (apply Qmult_le_l; assumption).
  assert (R * rho <= R * (inject_Z 8 / R + h)) as Hhi'
    by (apply Qmult_le_l; assumption).
  setoid_replace (R * (inject_Z 8 / R - h)) with (8 - R * h) in Hlo'
    by (change (inject_Z 8) with 8; field; lra).
  setoid_replace (R * (inject_Z 8 / R + h)) with (8 + R * h) in Hhi'
    by (change (inject_Z 8) with 8; field; lra).
  assert (Qfloor (R * rho + (1 # 2)) = 8%Z) as Htop.
  { apply Qfloor_unique.
    - change (inject_Z 8) with 8. lra.
    - change (inject_Z (8 + 1)) with 9. lra. }
  assert (integer (Js.Math_round (toNumber (times (Fin R) (Fin rho)))) 8) as Hmax2.
  { rewrite <- Htop. apply integer_round_scaled; lra. }
  assert (integer (Js.Math_round (toNumber (times zero (Fin rho)))) 0) as Hmin2.
  { replace 0%Z with (Qfloor (0 * rho + (1 # 2))).
    - apply integer_round_scaled; lra.
    - apply Qfloor_unique.
      + change (inject_Z 0) with 0. lra.
      + change (inject_Z (0 + 1)) with 1. lra. }
  apply (new_Array_integer _ (8 - 0 + 1)); [|lia].
  apply integer_add; [|apply integer_one].
  apply integer_abs; [|lia]. now apply integer_sub.
Qed.

End PlotShape.

(** X14.  The plot of a drawable chart whose range, the larger of its two
    depths, is below 10^20 is a grid of 9 rows.  Every row has as many
    cells as the chart has orders, and 3 more for the axis; the first row of
    a truncated chart has one cell more, the truncation mark. *)
Theorem plot_fills_a_rectangle (c : OrderBookChart.t) :
  Vocabulary.drawable c ->
  BigNumber.lt (Vocabulary.plotRange c)
    (BigNumber.Fin (inject_Z (BigNumber.pow10 20))) = true ->
  let width :=
    (length (OrderBookChart.buys c) + length (OrderBookChart.sells c) + 3)%nat in
  exists g,
    OrderBookChart.plot c = inr g
    /\ length g = 9%nat
    /\ length (hd [] g) = (if OrderBookChart.truncated c then S width else width)
    /\ Forall (fun row => length row = width) (tl g).
Proof.
  intros Hc Hsmall width.
  destruct (plot_ok c Hc) as [g Hg].
  destruct (drawable_range c Hc) as (R & HR & Hpos).
  rewrite HR in Hsmall. apply lt_Fin in Hsmall.
  destruct (plot_shape c g Hg) as (n & Hn & _ & Hlen & Hhd & Htl).
  rewrite (nine_rows c R HR Hpos Hsmall) in Hn. injection Hn as <-.
  exists g. repeat split; assumption.
Qed.

(** X14 at the chart of the market with the deeper bids: 9 rows of 7
    cells. *)
Lemma plot_fills_a_rectangle_witness :
  exists g,
    OrderBookChart.plot (Sample.chart Sample.deep_bids) = inr g
    /\ length g = 9%nat
    /\ length (hd [] g) = 7%nat
    /\ Forall (fun row => length row = 7%nat) (tl g).
Proof.
  apply (plot_fills_a_rectangle (Sample.chart Sample.deep_bids)).
  - exact sample_chart_drawable.
  - vm_compute. reflexivity.
Defined.

(** ** A chart without depth *)

Section NoDepth.

Import BigNumber Vocabulary OrderBookChart.

Lemma is_zero_true (q : Q) : q == 0 -> is_zero q = true.
Proof. intros Hq. unfold is_zero. now apply Qeq_bool_iff. Qed.

(** Unless the range is a number other than 0, the number of rows is not
    a number and the canvas cannot be created. *)
Lemma plot_without_range (c : OrderBookChart.t) :
  match plotRange c with Fin q => q == 0 | _ => True end ->
  plot c = inl Js.RangeError.
Proof.
  unfold plotRange, plot. cbv zeta.
  destruct (if gt (buyDepth c) (sellDepth c) then buyDepth c else sellDepth c)
    as [q|n|]; intros Hrange.
  - unfold dividedBy, of_Z. rewrite (is_zero_true q Hrange).
    change (is_zero (inject_Z 8)) with false. cbv iota.
    unfold times at 1 2. rewrite (is_zero_true q Hrange). reflexivity.
  - reflexivity.
  - reflexivity.
Qed.

Lemma spent_numeric (o : Order) : spent o -> numeric o.
Proof. intros (b & p & Hb & Hp & _). split; eexists; eassumption. Qed.

Lemma spent_notional (o : Order) : spent o -> qnotional o == 0.
Proof.
  intros (b & p & Hb & Hp & Hzero). unfold qnotional, notional.
  rewrite Hb, Hp. simpl. rewrite Hzero. ring.
Qed.

Lemma spent_total (xs : list Order) (a : Q) :
  Forall spent xs ->
  exists r, fold_left plus (map notional xs) (Fin a) = Fin r /\ r == a.
Proof.
  intros Hxs.
  assert (Qsum (map qnotional xs) == 0) as Hsum.
  { induction Hxs as [|o xs Ho _ IH]; simpl; [reflexivity|].
    rewrite (spent_notional o Ho), IH. ring. }
  destruct (fold_plus_numeric xs a) as (r & Hr & Heq).
  { eapply Forall_impl; [|exact Hxs]. apply spent_numeric. }
  exists r. split; [exact Hr|]. rewrite Heq, Hsum. ring.
Qed.

(** The chart of a book of spent orders has no depth on either side. *)
Lemma chart_of_spent_orders (buys_arg sells_arg : list Order) :
  (2 <= length buys_arg)%nat ->
  Forall spent buys_arg -> Forall spent sells_arg ->
  exists c d_buy d_sell,
    OrderBookChart.new buys_arg sells_arg = inr c
    /\ buyDepth c = Fin d_buy /\ sellDepth c = Fin d_sell
    /\ d_buy == 0 /\ d_sell == 0.
Proof.
  intros Hnb Hb Hs.
  destruct (new_returns buys_arg sells_arg Hnb)
    as (c & o0 & o1 & rest & Hc & -> & _ & Hbuy & _ & Hsell & _).
  destruct (spent_total (fold_right insert_sorted [] sells_arg) 0)
    as (d_buy & Hd_buy & Hd_buy0); [now apply sorted_Forall|].
  unfold zero in Hbuy at 1. rewrite Hd_buy in Hbuy.
  inversion Hb as [|? ? Ho0 Hb']; subst. inversion Hb' as [|? ? Ho1 Hrest]; subst.
  assert (filterLoop (times (buyDepth c) (Fin 1.5)) zero rest = (rest, false))
    as Hloop.
  { apply filterLoop_keeps_all. intros n Hn.
    destruct (spent_total (firstn n rest) 0) as (r & Hr & Hr0).
    { apply Forall_forall. intros o Ho. rewrite Forall_forall in Hrest.
      apply Hrest. rewrite <- (firstn_skipn n rest). apply in_or_app. now left. }
    unfold zero. rewrite Hr, Hbuy. simpl. apply lte_Fin. rewrite Hr0, Hd_buy0. lra. }
  rewrite Hloop in Hsell. simpl fst in Hsell.
  destruct (spent_total (fold_right insert_sorted [] (o0 :: o1 :: rest)) 0)
    as (d_sell & Hd_sell & Hd_sell0).
  { apply sorted_Forall. repeat constructor; assumption. }
  unfold zero in Hsell at 1. rewrite Hd_sell in Hsell.
  exists c, d_buy, d_sell. repeat split; assumption.
Qed.

End NoDepth.

Lemma print_of_spent_orders (book : OrderBook) :
  (2 <= length (buys book))%nat ->
  Forall Vocabulary.spent (buys book) -> Forall Vocabulary.spent (sells book) ->
  OrderBookPrinter.print book = inl Js.RangeError.
Proof.
  intros Hnb Hb Hs. unfold OrderBookPrinter.print.
  destruct (chart_of_spent_orders (buys book) (sells book) Hnb Hb Hs)
    as (c & d_buy & d_sell & -> & Hbuy & Hsell & Hbuy0 & Hsell0).
  rewrite bind_inr. apply plot_without_range.
  unfold Vocabulary.plotRange. rewrite Hbuy, Hsell.
  destruct (BigNumber.gt (BigNumber.Fin d_buy) (BigNumber.Fin d_sell)); assumption.
Qed.

(** X15.  [plot] throws a [RangeError] for every chart whose range, the
    larger of its two depths, is 0, infinite or not a number: the ratio of
    8 rows to the range is then infinite, 0 or not a number, the number of
    rows is not a number, and no canvas of that many rows can be created. *)
Theorem plot_needs_a_range (c : OrderBookChart.t) :
  match Vocabulary.plotRange c with
  | BigNumber.Fin q => q == 0
  | _ => True
  end ->
  OrderBookChart.plot c = inl Js.RangeError.
Proof. apply plot_without_range. Qed.

(** X15 at the chart of the book whose orders have no balance left. *)
Lemma plot_needs_a_range_witness :
  OrderBookChart.plot (Sample.chart Sample.drained) = inl Js.RangeError.
Proof.
  apply (plot_needs_a_range (Sample.chart Sample.drained)).
  vm_compute. reflexivity.
Defined.

(** X16.  A decision cycle on a healthy order book none of whose orders
    has any balance left produces no action: the guard lets the book pass,
    the chart of the market report has no depth, and the [RangeError] of
    its plot ends the cycle. *)
Theorem book_without_balance_aborts_the_cycle (this : MarketMaker.t) (env : Env) :
  let book := MarketMaker.orderBook this env in
  (2 <= length (buys book))%nat -> (2 <= length (sells book))%nat ->
  Forall Vocabulary.spent (buys book) -> Forall Vocabulary.spent (sells book) ->
  MarketMaker.ensureValidOrderBook this env = inr tt
  /\ MarketMaker.getActions this env = inl Js.RangeError.
Proof.
  intros book Hnb Hns Hb Hs.
  pose proof (ensureValidOrderBook_healthy this env Hnb Hns) as Hguard.
  split; [exact Hguard|].
  unfold MarketMaker.getActions. rewrite Hguard, bind_inr.
  unfold MarketMaker.printMarketHealth, MarketMaker.plotOrderBook. cbv zeta.
  fold book. now rewrite (print_of_spent_orders book Hnb Hb Hs).
Qed.

(** X16 at the market whose four orders have no balance left. *)
Lemma book_without_balance_aborts_the_cycle_witness :
  MarketMaker.ensureValidOrderBook Sample.mm Sample.env_drained = inr tt
  /\ MarketMaker.getActions Sample.mm Sample.env_drained = inl Js.RangeError.
Proof.
  apply (book_without_balance_aborts_the_cycle Sample.mm Sample.env_drained).
  - simpl. lia.
  - simpl. lia.
  - repeat constructor; eexists; eexists;
      (split; [reflexivity|]); (split; [reflexivity|]); reflexivity.
  - repeat constructor; eexists; eexists;
      (split; [reflexivity|]); (split; [reflexivity|]); reflexivity.
Defined.

(** ** What can be thrown *)

Section Quiet.

Import BigNumber Vocabulary OrderBookChart.

Lemma quiet_ret {A : Type} (a : A) : quiet (Js.ret a).
Proof. intros message. discriminate. Qed.

Lemma quiet_bind {A B : Type} (m : Js.M A) (k : A -> Js.M B) :
  quiet m -> (forall a, quiet (k a)) -> quiet (Js.bind m k).
Proof.
  intros Hm Hk message. destruct m as [e|a]; simpl.
  - intros H. apply (Hm message). congruence.
  - apply Hk.
Qed.

Lemma quiet_forM {A S : Type} (body : A -> S -> Js.M S) (xs : list A) :
  (forall x s, quiet (body x s)) -> forall s, quiet (Js.forM xs body s).
Proof.
  intros Hbody. induction xs as [|x xs IH]; intros s; simpl.
  - apply quiet_ret.
  - apply quiet_bind; [apply Hbody | exact IH].
Qed.

Lemma quiet_mapM {A B : Type} (f : A -> Js.M B) (xs : list A) :
  (forall x, quiet (f x)) -> quiet (Js.mapM f xs).
Proof.
  intros Hf. induction xs as [|x xs IH]; simpl.
  - apply quiet_ret.
  - apply quiet_bind; [apply Hf|]. intros y.
    apply quiet_bind; [exact IH|]. intros ys. apply quiet_ret.
Qed.

Lemma quiet_etherBalance (o : option Order) : quiet (etherBalance o).
Proof. destruct o; intros message; discriminate. Qed.

Lemma quiet_depth (xs : orders) : quiet (depth xs).
Proof.
  unfold depth. apply quiet_bind.
  - apply quiet_mapM, quiet_etherBalance.
  - intros ys. apply quiet_ret.
Qed.

Lemma quiet_new (buys_arg sells_arg : list Order) :
  quiet (OrderBookChart.new buys_arg sells_arg).
Proof.
  unfold OrderBookChart.new. apply quiet_bind; [apply quiet_depth|].
  intros d. destruct (filterSellOrders d buys_arg) as [filtered trunc].
  apply quiet_bind; [apply quiet_depth|]. intros d'. apply quiet_ret.
Qed.

Lemma quiet_walk (op : BigNumber -> BigNumber -> BigNumber) (xs : orders)
    (k : nat) (acc : BigNumber) :
  quiet (Js.forM (seq 0 k)
           (fun i result =>
              e <- etherBalance (at_index xs i) ;; Js.ret (op result e)) acc).
Proof.
  apply quiet_forM. intros i s.
  apply quiet_bind; [apply quiet_etherBalance|]. intros e. apply quiet_ret.
Qed.

Lemma quiet_put (g : grid) (r : Js.number) (col : nat) (v : cell) :
  quiet (put g r col v).
Proof.
  unfold put. destruct (Js.index r) as [i|]; [|intros message; discriminate].
  destruct (nth_error g i); intros message; discriminate.
Qed.

Lemma quiet_vertical (rows : Js.number) (col : nat) (c : colour) (fuel : nat) :
  forall (y : Js.number) (g : grid), quiet (vertical fuel rows col c y g).
Proof.
  induction fuel as [|fuel IH]; intros y g; simpl.
  - apply quiet_ret.
  - apply quiet_bind; [apply quiet_put|]. intros g1. apply IH.
Qed.

Lemma quiet_stroke (rows : Js.number) (col : nat) (c : colour)
    (y0 y1 : Js.number) (g : grid) :
  quiet (stroke rows col c y0 y1 g).
Proof.
  unfold stroke. destruct (Js.eq y0 y1); [apply quiet_put|].
  apply quiet_bind; [apply quiet_put|]. intros g1.
  apply quiet_bind; [apply quiet_put|]. intros g2.
  apply quiet_vertical.
Qed.

Lemma quiet_axis (max range rows min2 : Js.number) (offset : nat) (fuel : nat) :
  forall (y : Js.number) (g : grid),
    quiet (axis fuel max range rows min2 offset y g).
Proof.
  induction fuel as [|fuel IH]; intros y g; simpl.
  - apply quiet_ret.
  - apply quiet_bind; [apply quiet_put|]. intros g1.
    apply quiet_bind; [apply quiet_put|]. intros g2. apply IH.
Qed.

Lemma quiet_new_Array (n : Js.number) : quiet (Js.new_Array n).
Proof.
  unfold Js.new_Array. destruct (Js.index n) as [k|]; [|intros message; discriminate].
  destruct (Z.of_nat k <=? 4294967295)%Z; intros message; discriminate.
Qed.

Lemma quiet_plot (c : OrderBookChart.t) : quiet (plot c).
Proof.
  unfold plot, buyDepthAtIndex, sellDepthAtIndex. cbv zeta.
  repeat first
    [ apply quiet_ret
    | apply quiet_put
    | apply quiet_new_Array
    | apply quiet_axis
    | apply quiet_vertical
    | apply quiet_stroke
    | apply quiet_walk
    | apply quiet_forM; intros ? ?
    | apply quiet_bind; [|intros ?]
    | match goal with
      | |- quiet (if ?b then _ else _) => destruct b
      end ].
Qed.

Lemma quiet_print (book : OrderBook) : quiet (OrderBookPrinter.print book).
Proof.
  unfold OrderBookPrinter.print. apply quiet_bind; [apply quiet_new|].
  intros c. apply quiet_plot.
Qed.

End Quiet.

(** X17.  The only [Error] with a message that a decision cycle throws is
    the one of the guard: the chart of the market report throws a
    [TypeError] or a [RangeError], never an [Error].  When [getActions]
    throws an [Error], its message is the one that asks for more orders and
    the book has fewer than 2 orders on a side. *)
Theorem only_the_guard_raises_an_error
    (this : MarketMaker.t) (env : Env) (message : string) :
  MarketMaker.getActions this env = inl (Js.Error message) ->
  message
  = MarketMaker.thinBookMessage (MarketMaker.blockchain this) (MarketMaker.token this)
  /\ (length (buys (MarketMaker.orderBook this env)) < 2
      \/ length (sells (MarketMaker.orderBook this env)) < 2)%nat.
Proof.
  unfold MarketMaker.getActions. intros H.
  destruct (le_lt_dec 2 (length (buys (MarketMaker.orderBook this env)))) as [Hb|Hb];
    [destruct (le_lt_dec 2 (length (sells (MarketMaker.orderBook this env))))
       as [Hs|Hs]|].
  - exfalso. rewrite (ensureValidOrderBook_healthy this env Hb Hs), bind_inr in H.
    unfold MarketMaker.printMarketHealth, MarketMaker.plotOrderBook in H.
    cbv zeta in H.
    destruct (OrderBookPrinter.print (MarketMaker.orderBook this env))
      as [e|g] eqn:Hprint.
    + simpl in H. injection H as ->.
      exact (quiet_print _ _ Hprint).
    + rewrite bind_inr in H.
      destruct (MarketMaker.nonempty _); [discriminate|].
      destruct (MarketMaker.nonempty _); [discriminate|].
      destruct (MarketMaker.nonempty _); discriminate.
  - rewrite (ensureValidOrderBook_thin this env (or_intror Hs)) in H.
    simpl in H. injection H as <-. split; [reflexivity | now right].
  - rewrite (ensureValidOrderBook_thin this env (or_introl Hb)) in H.
    simpl in H. injection H as <-. split; [reflexivity | now left].
Qed.

(** X17 at the market with one order on each side. *)
Lemma only_the_guard_raises_an_error_witness :
  (length (buys (MarketMaker.orderBook Sample.mm Sample.env_single)) < 2
   \/ length (sells (MarketMaker.orderBook Sample.mm Sample.env_single)) < 2)%nat.
Proof.
  apply (only_the_guard_raises_an_error Sample.mm Sample.env_single
           (MarketMaker.thinBookMessage "ETH" Sample.tok)).
  reflexivity.
Defined.

(** X18.  The constructor of the chart fails in one way only: it throws a
    [TypeError], and it does so only when it is given fewer than two orders
    to filter. *)
Theorem constructor_fails_only_on_a_short_side
    (buys_arg sells_arg : list Order) (e : Js.exn) :
  OrderBookChart.new buys_arg sells_arg = inl e ->
  e = Js.TypeError /\ (length buys_arg < 2)%nat.
Proof.
  intros H.
  destruct (le_lt_dec 2 (length buys_arg)) as [Hnb|Hnb].
  - destruct (new_returns buys_arg sells_arg Hnb) as (c & _ & _ & _ & Hc & _).
    congruence.
  - rewrite (new_throws buys_arg sells_arg Hnb) in H.
    injection H as <-. split; [reflexivity | exact Hnb].
Qed.

(** X18 at the book with one order on each side. *)
Lemma constructor_fails_only_on_a_short_side_witness :
  Js.TypeError = Js.TypeError /\ (length (buys Sample.single) < 2)%nat.
Proof.
  apply (constructor_fails_only_on_a_short_side
           (buys Sample.single) (sells Sample.single)).
  reflexivity.
Defined.

(** ** The sign of a quote *)

Section Sign.

Import BigNumber Vocabulary.

Lemma sum_finite {A : Type} (f : A -> BigNumber) (xs : list A) (acc : Q) :
  Forall (fun x => finite (f x)) xs ->
  exists r, fold_left plus (map f xs) (Fin acc) = Fin r.
Proof.
  intros Hxs. revert acc.
  induction Hxs as [|x xs [v Hv] _ IH]; intros acc; simpl.
  - now exists acc.
  - rewrite Hv. simpl. apply IH.
Qed.

Variable this : MarketMaker.t.
Variable env : Env.
Variables (b s w f limit : Q).
Hypothesis Hb : MarketMaker.bestBuyPrice this env = Fin b.
Hypothesis Hb0 : 0 <= b.
Hypothesis Hs : MarketMaker.bestSellPrice this env = Fin s.
Hypothesis Hw : MarketMaker.weightedMidMarketPrice this env = Fin w.
Hypothesis Hf : MarketMakerConfig.fundMinimum (MarketMaker.config this) = Fin f.
Hypothesis Hlimit : MarketMakerConfig.tokenLimit (MarketMaker.config this) = Fin limit.
Hypothesis Hown : Forall (fun o => finite (balance o)) (ownSells this env).

Lemma half_spread_finite :
  exists h, dividedBy (MarketMaker.spread this env) (of_Z 2) = Fin h.
Proof.
  unfold MarketMaker.spread. rewrite Hb, Hs. simpl. eexists. reflexivity.
Qed.

Lemma newBuys_sign (c : CreateOrder.t) :
  In (IsCreateOrder c) (MarketMaker.newBuys this env) ->
  exists a p,
    CreateOrder.amount c = Fin a /\ CreateOrder.price c = Fin p
    /\ 0 <= a /\ 0 <= p.
Proof.
  intros Hc. apply newBuys_quote in Hc. destruct Hc as [Hgate Hc].
  injection Hc as ->. simpl.
  destruct half_spread_finite as [h Hh].
  destruct (availableEther_value this env f Hf) as (e & He & He0 & _).
  rewrite Hw, Hh, Hb in Hgate. simpl in Hgate. apply lte_Fin_false in Hgate.
  rewrite Hw, Hh, He. simpl minus. unfold dividedBy.
  rewrite is_zero_false by lra. simpl.
  eexists. eexists. split; [reflexivity|]. split; [reflexivity|]. split.
  - apply round_dp_nonneg, round_dp_nonneg.
    apply Qle_shift_div_l; lra.
  - apply round_dp_nonneg. lra.
Qed.

Lemma newSells_sign (c : CreateOrder.t) :
  In (IsCreateOrder c) (MarketMaker.newSells this env) ->
  exists a p,
    CreateOrder.amount c = Fin a /\ CreateOrder.price c = Fin p /\ 0 <= a.
Proof.
  unfold MarketMaker.newSells.
  destruct (availableTokens_below_limit this env limit Hlimit) as (a & Ha & _).
  destruct (sum_finite (fun order : Order => balance order) (ownSells this env) 0 Hown)
    as [l Hl].
  unfold MarketMaker.tokensLockedForAddress.
  change (sells (MarketMaker.fetchOrdersFor this env (MarketMaker.botAddress this)))
    with (ownSells this env).
  unfold zero. rewrite Hl, Ha. simpl minus.
  destruct (isLessThanOrEqualTo (Fin (a - l)) (Fin 0)) eqn:Hgate; [intros []|].
  apply lte_Fin_false in Hgate.
  destruct (gte _ _); [intros []|].
  destruct half_spread_finite as [h Hh]. rewrite Hw, Hh.
  intros [Hc|[]]. injection Hc as <-. simpl.
  eexists. eexists. split; [reflexivity|]. split; [reflexivity|].
  apply round_dp_nonneg. lra.
Qed.

End Sign.

(** X19.  When the best prices, the weighted mid-market price, the reserve
    and the token limit are numbers, the best buy price is not negative and
    the balances of the bot's own sell orders are numbers, every new order
    is for an amount that is a number and is not negative, and the price of
    a new buy order is not negative either.  The amount can be 0: the funds
    are rounded to the decimals of the token. *)
Theorem quotes_are_never_negative
    (this : MarketMaker.t) (env : Env) (b s w f limit : Q) :
  MarketMaker.bestBuyPrice this env = BigNumber.Fin b -> 0 <= b ->
  MarketMaker.bestSellPrice this env = BigNumber.Fin s ->
  MarketMaker.weightedMidMarketPrice this env = BigNumber.Fin w ->
  MarketMakerConfig.fundMinimum (MarketMaker.config this) = BigNumber.Fin f ->
  MarketMakerConfig.tokenLimit (MarketMaker.config this) = BigNumber.Fin limit ->
  Forall (fun o => Vocabulary.finite (balance o)) (Vocabulary.ownSells this env) ->
  forall c, In (IsCreateOrder c) (MarketMaker.newOrders this env) ->
    exists a p,
      CreateOrder.amount c = BigNumber.Fin a /\ CreateOrder.price c = BigNumber.Fin p
      /\ 0 <= a
      /\ (CreateOrder.order_type c = buy -> 0 <= p).
Proof.
  intros Hb Hb0 Hs Hw Hf Hlimit Hown c Hc.
  apply newOrders_split in Hc. destruct Hc as [Hc|Hc].
  - destruct (newBuys_sign this env b s w f Hb Hb0 Hs Hw Hf c Hc)
      as (a & p & Ha & Hp & Ha0 & Hp0).
    exists a, p. split; [exact Ha|]. split; [exact Hp|]. split; [exact Ha0|].
    intros _. exact Hp0.
  - pose proof Hc as Hkind. apply newSells_quote in Hkind.
    destruct Hkind as [_ Hkind]. injection Hkind as Hkind.
    destruct (newSells_sign this env b s w limit Hb Hs Hw Hlimit Hown c Hc)
      as (a & p & Ha & Hp & Ha0).
    exists a, p. split; [exact Ha|]. split; [exact Hp|]. split; [exact Ha0|].
    rewrite Hkind. discriminate.
Qed.

(** X19 at the buy quote of the market with the deeper bids: 4 tokens at
    1.020635. *)
Lemma quotes_are_never_negative_witness :
  exists a p,
    BigNumber.Fin 4 = BigNumber.Fin a /\ BigNumber.Fin 1.020635 = BigNumber.Fin p
    /\ 0 <= a.
Proof.
  destruct (quotes_are_never_negative Sample.mm Sample.env_deep_bids 1 1.2 _ 1 2.6
              eq_refl ltac:(lra) eq_refl eq_refl eq_refl eq_refl
              ltac:(constructor)
              {| CreateOrder.type := NewOrder;
                 CreateOrder.blockchain := "ETH";
                 CreateOrder.order_type := buy;
                 CreateOrder.amount := BigNumber.Fin 4;
                 CreateOrder.price := BigNumber.Fin 1.020635 |})
    as (a & p & Ha & Hp & Ha0 & _).
  - vm_compute. left. reflexivity.
  - exists a, p. repeat split; assumption.
Defined.

(** ** The order the filter cuts *)

Section Cut.

Import BigNumber Vocabulary OrderBookChart.

Lemma filterLoop_cut (u acc : BigNumber) (rest : list Order) :
  snd (filterLoop u acc rest) = true ->
  exists front o later,
    rest = front ++ o :: later
    /\ fst (filterLoop u acc rest)
       = front ++ [set_balance o (toFixed None (dividedBy u (price o)))].
Proof.
  revert acc. induction rest as [|o rest IH]; intros acc; simpl.
  - discriminate.
  - destruct (lte _ _).
    + specialize (IH (plus acc (notional o))).
      destruct (filterLoop u (plus acc (notional o)) rest) as [kept trunc].
      simpl in *. intros Htrunc.
      destruct (IH Htrunc) as (front & x & later & -> & ->).
      exists (o :: front), x, later. split; reflexivity.
    + intros _. exists [], o, rest. split; reflexivity.
Qed.

(** The balance that the quotient of the cap by the price leaves is worth
    the cap, to half a unit of the 20th decimal of the balance. *)
Lemma cut_balance (cap p : Q) :
  0 < p ->
  exists v,
    dividedBy (Fin cap) (Fin p) = Fin v
    /\ cap - p * ((1 # 2) / inject_Z (pow10 20)) <= v * p
    /\ v * p <= cap + p * ((1 # 2) / inject_Z (pow10 20)).
Proof.
  intros Hp. unfold dividedBy. rewrite is_zero_false by lra.
  eexists. split; [reflexivity|].
  pose proof (round_dp_lower 20 (cap / p)) as Hlo.
  pose proof (round_dp_upper 20 (cap / p)) as Hhi.
  change DECIMAL_PLACES with 20%nat.
  set (v := round_dp 20 (cap / p)) in *.
  set (h := (1 # 2) / inject_Z (pow10 20)) in *.
  assert ((cap / p - h) * p <= v * p) as Hlo'
    by (apply Qmult_le_compat_r; lra).
  assert (v * p <= (cap / p + h) * p) as Hhi'
    by (apply Qmult_le_compat_r; lra).
  setoid_replace ((cap / p - h) * p) with (cap - p * h) in Hlo' by (field; lra).
  setoid_replace ((cap / p + h) * p) with (cap + p * h) in Hhi' by (field; lra).
  split; assumption.
Qed.

End Cut.

(** X20.  When the filter truncates a list of plottable orders, the last
    order it returns is an order of its input with the balance rewritten,
    and the rewritten balance is worth the cap, 1.5 times the depth of the
    other side: its product by the price of the order differs from the cap
    by at most half a unit of the 20th decimal times that price. *)
Theorem truncated_order_is_worth_the_cap
    (d : Q) (input : list Order) (out : OrderBookChart.orders) :
  Forall Vocabulary.plottable input ->
  OrderBookChart.filterSellOrders (BigNumber.Fin d) input = (out, true) ->
  exists o v p,
    In o input
    /\ price o = BigNumber.Fin p
    /\ last out None = Some (set_balance o (BigNumber.Fin v))
    /\ d * 1.5 - p * ((1 # 2) / inject_Z (BigNumber.pow10 20)) <= v * p
    /\ v * p <= d * 1.5 + p * ((1 # 2) / inject_Z (BigNumber.pow10 20)).
Proof.
  intros Hinput Hfilter. unfold OrderBookChart.filterSellOrders in Hfilter.
  change (BigNumber.times (BigNumber.Fin d) (BigNumber.Fin 1.5))
    with (BigNumber.Fin (d * 1.5)) in Hfilter.
  pose proof (filterLoop_cut (BigNumber.Fin (d * 1.5)) BigNumber.zero (skipn 2 input))
    as Hcut.
  destruct (OrderBookChart.filterLoop _ _ (skipn 2 input)) as [kept trunc].
  injection Hfilter as <- ->.
  cbn [fst snd] in Hcut.
  destruct (Hcut eq_refl) as (front & o & later & Hrest & Hkept).
  subst kept.
  assert (In o input) as Ho.
  { rewrite <- (firstn_skipn 2 input), Hrest.
    apply in_or_app. right. apply in_or_app. right. now left. }
  pose proof Hinput as Hall. rewrite Forall_forall in Hall.
  destruct (Hall o Ho) as (bo & p & _ & Hp & _ & Hp0).
  rewrite ?toFixed_all_digits, Hp.
  destruct (cut_balance (d * 1.5) p Hp0) as (v & -> & Hlo & Hhi).
  exists o, v, p. split; [exact Ho|]. split; [exact Hp|]. split; [|split; assumption].
  rewrite map_app. cbn [map]. rewrite 2 app_comm_cons. apply last_last.
Qed.

(** X20 at the example of the specification: the third order, of 100 at a
    price of 1, is cut to a balance of 15, the cap under a depth of 10. *)
Lemma truncated_order_is_worth_the_cap_witness :
  exists o v p,
    In o Sample.tail
    /\ price o = BigNumber.Fin p
    /\ Some (set_balance (Sample.order false "t3" 100 1)
               (BigNumber.dividedBy (BigNumber.Fin (10 * 1.5)) (BigNumber.Fin 1)))
       = Some (set_balance o (BigNumber.Fin v)).
Proof.
  destruct (truncated_order_is_worth_the_cap 10 Sample.tail
              [Some (Sample.order false "t1" 1 1); Some (Sample.order false "t2" 1 1);
               Some (set_balance (Sample.order false "t3" 100 1)
                       (BigNumber.dividedBy (BigNumber.Fin (10 * 1.5))
                          (BigNumber.Fin 1)))])
    as (o & v & p & Ho & Hp & Hlast & _).
  - repeat constructor; apply resting_plottable, sample_order_resting; reflexivity.
  - vm_compute. reflexivity.
  - exists o, v, p. repeat split; assumption.
Defined.
